(** * enterprise_data: the query and aggregation logic of the API views

    A shallow embedding of [enterprise_data/api/v1/views.py] and
    [enterprise_data/api/v0/views.py], and the properties of the
    specification that concern them.

    Conventions of the embedding.
    - Python [int]s are [Z]; Python [str]s are [string]s of ASCII characters.
    - A [datetime.date] is a record of year, month and day; Python only has
      the valid calendar dates of the years 1 to 9999, which the theorems
      state as [valid_date].
    - A point in time ([timezone.now()], a [DateTimeField]) is an integer
      number of seconds on a fixed time line; the ORM compares a date
      column with the date of a point in time in the default time zone.
    - A UUID is its 128-bit integer; a column that holds a UUID is read as
      the text [str(u)].
    - A table column that may hold SQL NULL is an [option]; a comparison
      lookup of the ORM never matches NULL.
    - A queryset is the list of rows it evaluates to.
    - Code that may raise returns a [result]; a [while] loop is unrolled up
      to a bound (its fuel), and the theorems say which bound is enough. *)

From Stdlib Require Import ZArith Ascii Bool Lia.
From Stdlib Require String.
From stdpp Require Import base strings gmap.

Local Open Scope Z_scope.

(** ** Outcomes of code that may raise *)

Inductive exn : Type :=
| OverflowError               (* date arithmetic left the range of [date] *)
| ValueError                  (* a malformed literal *)
| ValidationError             (* the ORM could not coerce a lookup value *)
| DoesNotExist                (* [Model.objects.get] found no row *)
| NotFound (detail : string). (* [rest_framework.exceptions.NotFound] *)

Inductive result (A : Type) : Type :=
| Ok (a : A)
| Raise (e : exn)
| OutOfFuel.   (* the bound of the model's loop was reached: no Python outcome *)

Arguments Ok {A} a.
Arguments Raise {A} e.
Arguments OutOfFuel {A}.

#[global] Instance result_ret : MRet result := @Ok.

#[global] Instance result_bind : MBind result := fun A B k r =>
  match r with
  | Ok a => k a
  | Raise e => Raise e
  | OutOfFuel => OutOfFuel
  end.

(** Truthiness of an optional string, as in [if param:]. *)
Definition truthy (v : option string) : bool :=
  match v with
  | Some s => negb (String.eqb s "")
  | None => false
  end.

(** [v == s] for an optional string [v] and a literal [s]. *)
Definition is_str (v : option string) (s : string) : bool :=
  match v with
  | Some s' => String.eqb s' s
  | None => false
  end.

(** ** [datetime.date] *)

Module PyDate.

Record date : Type := mkdate { year : Z; month : Z; day : Z }.

Definition MINYEAR : Z := 1.
Definition MAXYEAR : Z := 9999.

Definition is_leap (y : Z) : bool :=
  (y mod 4 =? 0) && (negb (y mod 100 =? 0) || (y mod 400 =? 0)).

Definition days_in_month (y m : Z) : Z :=
  if m =? 2 then (if is_leap y then 29 else 28)
  else if (m =? 4) || (m =? 6) || (m =? 9) || (m =? 11) then 30
  else 31.

(** The dates Python can represent. *)
Definition valid_date (d : date) : bool :=
  (MINYEAR <=? year d) && (year d <=? MAXYEAR)
  && (1 <=? month d) && (month d <=? 12)
  && (1 <=? day d) && (day d <=? days_in_month (year d) (month d)).

(** [date.__lt__], [date.__eq__], [date.__le__]: (year, month, day) are
    compared in this order. *)
Definition ltb (a b : date) : bool :=
  (year a <? year b)
  || ((year a =? year b)
      && ((month a <? month b)
          || ((month a =? month b) && (day a <? day b)))).

Definition eqb (a b : date) : bool :=
  (year a =? year b) && (month a =? month b) && (day a =? day b).

Definition leb (a b : date) : bool := ltb a b || eqb a b.

(** [date.toordinal]: the number of the day, 0001-01-01 being day 1. *)
Definition days_before_year (y : Z) : Z :=
  let y' := y - 1 in y' * 365 + y' / 4 - y' / 100 + y' / 400.

Definition DAYS_BEFORE_MONTH : list Z :=
  [0; 31; 59; 90; 120; 151; 181; 212; 243; 273; 304; 334].

Definition days_before_month (y m : Z) : Z :=
  nth (Z.to_nat (m - 1)) DAYS_BEFORE_MONTH 0
  + (if (2 <? m) && is_leap y then 1 else 0).

Definition toordinal (d : date) : Z :=
  days_before_year (year d) + days_before_month (year d) (month d) + day d.

(** [d - timedelta(days=1)]; raises [OverflowError] below [date.min]. *)
Definition sub_one_day (d : date) : result date :=
  if 1 <? day d then Ok (mkdate (year d) (month d) (day d - 1))
  else if 1 <? month d then
    Ok (mkdate (year d) (month d - 1) (days_in_month (year d) (month d - 1)))
  else if MINYEAR <? year d then Ok (mkdate (year d - 1) 12 31)
  else Raise OverflowError.

(** [d - timedelta(days=n)] for a number of days [n]. *)
Fixpoint sub_days (n : nat) (d : date) : result date :=
  match n with
  | O => Ok d
  | S n' => p ← sub_one_day d; sub_days n' p
  end.

(** [d - timedelta(weeks=w)]. *)
Definition sub_weeks (w : nat) (d : date) : result date :=
  sub_days (7 * w)%nat d.

End PyDate.

(** ** Methods of [str] *)

Module PyStr.

Definition code (c : ascii) : Z := Z.of_N (N_of_ascii c).
Definition chr (n : Z) : ascii := ascii_of_N (Z.to_N n).

Fixpoint mem (c : ascii) (chars : string) : bool :=
  match chars with
  | EmptyString => false
  | String c' rest => Ascii.eqb c c' || mem c rest
  end.

(** [s.replace(old, new)] for a non-empty [old]: the occurrences of [old]
    are replaced from the left, without overlap. [skip] counts the
    characters of an occurrence still to be dropped. *)
Fixpoint replace_from (old new : string) (skip : nat) (s : string) : string :=
  match s with
  | EmptyString => EmptyString
  | String c rest =>
      match skip with
      | S k => replace_from old new k rest
      | O =>
          if String.prefix old s
          then new +:+ replace_from old new (String.length old - 1) rest
          else String c (replace_from old new O rest)
      end
  end.

(** [s.replace('', new)] puts [new] around every character. *)
Fixpoint interleave (new s : string) : string :=
  match s with
  | EmptyString => new
  | String c rest => new +:+ String c (interleave new rest)
  end.

Definition replace (old new s : string) : string :=
  if String.eqb old "" then interleave new s
  else replace_from old new O s.

Fixpoint lstrip (chars s : string) : string :=
  match s with
  | EmptyString => EmptyString
  | String c rest => if mem c chars then lstrip chars rest else s
  end.

Fixpoint rstrip (chars s : string) : string :=
  match s with
  | EmptyString => EmptyString
  | String c rest =>
      let rest' := rstrip chars rest in
      if String.eqb rest' "" && mem c chars then EmptyString
      else String c rest'
  end.

(** [s.strip(chars)] *)
Definition strip (chars s : string) : string := rstrip chars (lstrip chars s).

(** [s[i:j]] for [0 <= i <= j], and [s[i:]]. *)
Definition slice (i j : nat) (s : string) : string :=
  String.substring i (j - i) s.

Definition slice_from (i : nat) (s : string) : string :=
  String.substring i (String.length s - i) s.

Definition lower_char (c : ascii) : ascii :=
  if (65 <=? code c) && (code c <=? 90) then chr (code c + 32) else c.

Fixpoint lower (s : string) : string :=
  match s with
  | EmptyString => EmptyString
  | String c rest => String (lower_char c) (lower rest)
  end.

(** [sub in s] *)
Fixpoint contains (sub s : string) : bool :=
  String.prefix sub s
  || match s with
     | EmptyString => false
     | String _ rest => contains sub rest
     end.

End PyStr.

(** ** [int(s, 16)] and ['%032x' % n] *)

Module PyInt.
Import PyStr.

(** [Py_ISSPACE] *)
Definition is_space (c : ascii) : bool :=
  ((9 <=? code c) && (code c <=? 13)) || (code c =? 32).

Definition hex_value (c : ascii) : option Z :=
  let n := code c in
  if (48 <=? n) && (n <=? 57) then Some (n - 48)
  else if (97 <=? n) && (n <=? 102) then Some (n - 87)
  else if (65 <=? n) && (n <=? 70) then Some (n - 55)
  else None.

Fixpoint skip_spaces (s : string) : string :=
  match s with
  | EmptyString => EmptyString
  | String c rest => if is_space c then skip_spaces rest else s
  end.

(** The scan over digits and single underscores. It returns the value,
    the number of digits and the text left, or [None] for a doubled or a
    trailing underscore. *)
Fixpoint scan_digits (prev_underscore : bool) (acc : Z) (digits : nat)
  (s : string) : option (Z * nat * string) :=
  match s with
  | EmptyString =>
      if prev_underscore then None else Some (acc, digits, s)
  | String c rest =>
      match hex_value c with
      | Some v => scan_digits false (acc * 16 + v) (S digits) rest
      | None =>
          if Ascii.eqb c "_" then
            if prev_underscore then None
            else scan_digits true acc digits rest
          else if prev_underscore then None else Some (acc, digits, s)
      end
  end.

(** [int(s, 16)]: blanks, a sign, an optional [0x] that one underscore may
    follow, digits separated by single underscores, blanks. *)
Definition int16 (s : string) : result Z :=
  let s := skip_spaces s in
  let '(sign, s) :=
    match s with
    | String "+" rest => (1, rest)
    | String "-" rest => (-1, rest)
    | _ => (1, s)
    end in
  let s :=
    match s with
    | String "0" (String x rest) =>
        if Ascii.eqb x "x" || Ascii.eqb x "X" then
          match rest with
          | String "_" rest' => rest'
          | _ => rest
          end
        else s
    | _ => s
    end in
  match s with
  | String "_" _ => Raise ValueError
  | _ =>
      match scan_digits false 0 O s with
      | None => Raise ValueError
      | Some (n, digits, rest) =>
          if (digits =? 0)%nat then Raise ValueError
          else if String.eqb (skip_spaces rest) "" then Ok (sign * n)
          else Raise ValueError
      end
  end.

Definition hex_digit (v : Z) : ascii :=
  if v <? 10 then chr (48 + v) else chr (87 + v).

(** The hexadecimal digits of [n >= 0], most significant first, in front
    of [acc]; [fuel] bounds their number. *)
Fixpoint hex_digits (fuel : nat) (n : Z) (acc : string) : string :=
  match fuel with
  | O => acc
  | S fuel' =>
      let acc' := String (hex_digit (n mod 16)) acc in
      if n <? 16 then acc' else hex_digits fuel' (n / 16) acc'
  end.

(** ['%x' % n] for [n >= 0] *)
Definition format_x (n : Z) : string :=
  hex_digits (S (Z.to_nat (Z.log2 n))) n "".

Fixpoint zeros (k : nat) : string :=
  match k with
  | O => EmptyString
  | S k' => String "0" (zeros k')
  end.

(** ['%032x' % n] for [n >= 0] *)
Definition format_032x (n : Z) : string :=
  let s := format_x n in
  zeros (32 - String.length s) +:+ s.

End PyInt.

(** ** [uuid.UUID] *)

Module PyUUID.
Import PyStr PyInt.

(** [UUID(hex, version=version)]: the 128-bit integer of the new object.
    With a version given, the constructor does not check the version of
    the text: it overwrites the variant and version bits. *)
Definition UUID (hex : string) (version : Z) : result Z :=
  let hex := replace "uuid:" "" (replace "urn:" "" hex) in
  let hex := replace "-" "" (strip "{}" hex) in
  if negb (String.length hex =? 32)%nat then Raise ValueError
  else
    int ← int16 hex;
    if negb ((0 <=? int) && (int <? Z.shiftl 1 128)) then Raise ValueError
    else if negb ((1 <=? version) && (version <=? 5)) then Raise ValueError
    else
      let int := Z.land int (Z.lnot (Z.shiftl 0xc000 48)) in
      let int := Z.lor int (Z.shiftl 0x8000 48) in
      let int := Z.land int (Z.lnot (Z.shiftl 0xf000 64)) in
      let int := Z.lor int (Z.shiftl version 76) in
      Ok int.

(** [UUID(hex)], with no version given: the integer the text writes. *)
Definition UUID_hex (hex : string) : result Z :=
  let hex := replace "uuid:" "" (replace "urn:" "" hex) in
  let hex := replace "-" "" (strip "{}" hex) in
  if negb (String.length hex =? 32)%nat then Raise ValueError
  else
    int ← int16 hex;
    if negb ((0 <=? int) && (int <? Z.shiftl 1 128)) then Raise ValueError
    else Ok int.

(** [str(u)] for the UUID of integer [int] *)
Definition str (int : Z) : string :=
  let hex := format_032x int in
  slice 0 8 hex +:+ "-" +:+ slice 8 12 hex +:+ "-" +:+ slice 12 16 hex
  +:+ "-" +:+ slice 16 20 hex +:+ "-" +:+ slice_from 20 hex.

End PyUUID.

(** ** Rows of the tables

    [enterprise_data/models.py] is not among the sources. The records hold
    the columns the views read; a column the views test for NULL, or that
    need not have a value for every enrollment, is an [option]. The
    columns [passed_date], [last_activity_date], [course_start_date] and
    [course_end_date] hold dates, [created] a point in time; the columns
    [enterprise_customer_uuid], [enterprise_id] and [budget_id] hold UUIDs,
    read as the text [str(u)]. *)

Definition instant : Type := Z.

Module EnterpriseLearner.
Record t : Type := mk {
  enterprise_user_id : Z;
  enterprise_customer_uuid : string;
  user_email : string
}.

#[global] Instance eq_dec : EqDecision t.
Proof. solve_decision. Defined.
End EnterpriseLearner.

Module EnterpriseLearnerEnrollment.
Record t : Type := mk {
  pk : Z;
  enterprise_customer_uuid : string;
  enterprise_user : Z;            (* foreign key to [EnterpriseLearner] *)
  is_consent_granted : option bool;
  has_passed : option bool;
  passed_date : option PyDate.date;
  last_activity_date : option PyDate.date;
  course_start_date : option PyDate.date;
  course_end_date : option PyDate.date;
  user_email : string;
  course_title : string;
  courserun_key : option string;
  offer_id : option string;
  budget_id : option string;
  course_list_price : option Z;
  course_product_line : option string;
  is_subsidy : option bool;
  created : option instant
}.
End EnterpriseLearnerEnrollment.

(** The [EnterpriseEnrollment] rows of the v0 API. *)
Module EnterpriseEnrollment.
Record t : Type := mk {
  enterprise_id : string;
  enterprise_user_id : Z;
  consent_granted : option bool;
  has_passed : option bool;
  last_activity_date : option PyDate.date
}.
End EnterpriseEnrollment.

(** The [EnterpriseOffer] rows. *)
Module EnterpriseOffer.
Record t : Type := mk {
  offer_id : string;
  status : string;
  enterprise_customer_uuid : string
}.
End EnterpriseOffer.

(** ** Lookups of the ORM *)

Module Lookup.

(** [column=value] on a nullable column *)
Definition exact_bool (column : option bool) (value : bool) : bool :=
  match column with
  | Some b => Bool.eqb b value
  | None => false
  end.

Definition exact_str (column : option string) (value : string) : bool :=
  match column with
  | Some s => String.eqb s value
  | None => false
  end.

Definition exact_date (column : option PyDate.date) (value : PyDate.date)
  : bool :=
  match column with
  | Some d => PyDate.eqb d value
  | None => false
  end.

(** [column=value] on a column that holds a UUID, for the UUID of integer
    [value] *)
Definition exact_uuid (column : string) (value : Z) : bool :=
  String.eqb column (PyUUID.str value).

Definition exact_nullable_uuid (column : option string) (value : Z) : bool :=
  match column with
  | Some s => exact_uuid s value
  | None => false
  end.

(** [column__gte=value], [column__lte=value] *)
Definition gte_date (column : option PyDate.date) (value : PyDate.date) : bool :=
  match column with
  | Some d => PyDate.leb value d
  | None => false
  end.

Definition lte_date (column : option PyDate.date) (value : PyDate.date) : bool :=
  match column with
  | Some d => PyDate.leb d value
  | None => false
  end.

(** [column__isnull=False] *)
Definition not_null {A : Type} (column : option A) : bool :=
  match column with
  | Some _ => true
  | None => false
  end.

(** [column__icontains=value] on ASCII text *)
Definition icontains (column value : string) : bool :=
  PyStr.contains (PyStr.lower value) (PyStr.lower column).

(** [Count(column)] counts the rows whose column is not NULL. *)
Definition Count {A B : Type} (column : A -> option B) (rows : list A) : Z :=
  Z.of_nat (length (List.filter (fun r => not_null (column r)) rows)).

(** [Count(column, distinct=True)] on a column without NULL *)
Definition Count_distinct {A : Type} (column : A -> Z) (rows : list A) : Z :=
  Z.of_nat (length (remove_dups (map column rows))).

(** A subquery used as a value: its first row, NULL if it has none. *)
Definition Subquery (rows : list Z) : option Z := head rows.

Definition Coalesce (value : option Z) (fallback : Z) : option Z :=
  match value with
  | Some v => Some v
  | None => Some fallback
  end.

(** [Max(column)]: the greatest value that is not NULL, NULL if there is
    none. *)
Definition Max {A : Type} (column : A -> option Z) (rows : list A)
  : option Z :=
  foldr
    (fun r greatest =>
       match column r, greatest with
       | Some v, Some m => Some (Z.max v m)
       | Some v, None => Some v
       | None, _ => greatest
       end)
    None rows.

End Lookup.

(** [UUIDField.to_python] (django.db.models): what a lookup on a column
    that holds a UUID makes of a text; [filter(column=text)] raises
    [ValidationError] for a text that is not a UUID. *)
Module UUIDField.

Definition to_python (value : string) : result Z :=
  match PyUUID.UUID_hex value with
  | Ok u => Ok u
  | Raise _ => Raise ValidationError    (* except (AttributeError, ValueError) *)
  | OutOfFuel => OutOfFuel
  end.

End UUIDField.

(** ** Requests, logging, the clock *)

(** [request.query_params]: a [QueryDict], each key with its list of values *)
Abbreviation QueryDict := (gmap string (list string)).

Module QueryDict.
(** [q.get(key)]: the last value of the key *)
Definition get (q : QueryDict) (key : string) : option string :=
  match q !! key with
  | Some values => last values
  | None => None
  end.

(** [q.getlist(key)] *)
Definition getlist (q : QueryDict) (key : string) : list string :=
  default [] (q !! key).
End QueryDict.

Record Request : Type := mkRequest {
  query_params : QueryDict;
  get_full_path : string;
  username : string
}.

(** A view object: its request and what the URL and the schema generator
    set on it. *)
Record View : Type := mkView {
  request : Request;
  kwargs_enterprise_id : string;       (* [self.kwargs['enterprise_id']] *)
  swagger_fake_view : bool             (* [getattr(self, 'swagger_fake_view', False)] *)
}.

Inductive level : Type := INFO | WARNING | ERROR.

Inductive log_arg : Type :=
| ArgStr (s : string)
| ArgParams (q : QueryDict).

(** A call of [LOGGER.info], [LOGGER.warning] or [LOGGER.error]: the message
    and the arguments it is formatted with. *)
Record LogRecord : Type := mkLog {
  log_level : level;
  log_msg : string;
  log_args : list log_arg
}.

(** What the clock says while a request is served, and the date of a point
    in time in the default time zone: [DateField.to_python] makes this date
    of a [datetime] that a date column is compared with. *)
Record Clock : Type := mkClock {
  now : instant;                         (* [timezone.now()] *)
  today : PyDate.date;                   (* [date.today()] *)
  time : Z;                              (* seconds, the clock of the cache *)
  localdate : instant -> PyDate.date     (* [make_naive(t, default_timezone).date()] *)
}.

(** ** The cache

    [TieredCache] (edx_django_utils) is modelled by its contract: a value
    set with a timeout is found until the timeout has passed. *)

Module TieredCache.

Record entry (A : Type) : Type := mkEntry { value : A; expires : Z }.
Arguments mkEntry {A} value expires.
Arguments value {A} e.
Arguments expires {A} e.

(** [get_cached_response(key)]: [Some v] when [is_found], with value [v] *)
Definition get_cached_response {K A : Type} `{Countable K}
  (key : K) (clock : Z) (cache : gmap K (entry A)) : option A :=
  match cache !! key with
  | Some e => if clock <? expires e then Some (value e) else None
  | None => None
  end.

(** [set_all_tiers(key, value, timeout)] *)
Definition set_all_tiers {K A : Type} `{Countable K}
  (key : K) (v : A) (timeout : Z) (clock : Z) (cache : gmap K (entry A))
  : gmap K (entry A) :=
  <[key := mkEntry v (clock + timeout)]> cache.

End TieredCache.

(** Modelled from the spec: [enterprise_data.utils.get_cache_key] is not
    among the sources. The spec derives the key deterministically from the
    resource name and the enterprise id, "so different enterprises/resources
    never collide"; the key is the pair of the two arguments of the call. *)
Definition get_cache_key (resource enterprise_customer : string)
  : string * string :=
  (resource, enterprise_customer).

(** ** [enterprise_data/api/v1/views.py] *)

Module V1.
Import PyDate.

Definition DEFAULT_LEARNER_CACHE_TIMEOUT : Z := 60 * 10.

(** [subtract_one_month]: the function is defined here at module level
    and, with the same body, as a method of
    [EnterpriseEnrollmentsViewSet] in [api/v0/views.py]. *)

(** The guard of the [while] loop. *)
Definition keeps_walking (original_date one_month_earlier : date) : bool :=
  (month one_month_earlier =? month original_date)
  || (day original_date <? day one_month_earlier).

(** The [while] loop, its guard evaluated at most [fuel] times. *)
Fixpoint walk_back (fuel : nat) (original_date one_month_earlier : date)
  : result date :=
  match fuel with
  | O => OutOfFuel
  | S fuel' =>
      if keeps_walking original_date one_month_earlier then
        p ← sub_one_day one_month_earlier;
        walk_back fuel' original_date p
      else Ok one_month_earlier
  end.

Definition subtract_one_month (fuel : nat) (original_date : date)
  : result date :=
  one_month_earlier ← sub_one_day original_date;
  walk_back fuel original_date one_month_earlier.

(** The tables the views of this module query. *)
Record Database : Type := mkDatabase {
  learners : list EnterpriseLearner.t;
  enrollments : list EnterpriseLearnerEnrollment.t
}.

(** How the ORM turns the text of a query parameter into a value of a
    column that is not text; a text it cannot turn raises
    [ValidationError]. The declarations of the columns are in
    [models.py], which is not among the sources. *)
Record Coercions : Type := mkCoercions {
  prep_course_start_date : string -> result date;
  prep_is_subsidy : string -> result bool
}.

(** What a request can change: the cache and the log. *)
Record State : Type := mkState {
  cache : gmap (string * string)
            (TieredCache.entry (list EnterpriseLearnerEnrollment.t));
  log : list LogRecord
}.

Module EnterpriseViewSetMixin.

(** [paginate_queryset]: [super_paginate_queryset] is the method of the
    framework, which gives the page to show, or [None] when the view
    does not page. *)
Definition paginate_queryset {A : Type}
  (super_paginate_queryset : list A -> option (list A))
  (self : View) (queryset : list A) : option (list A) :=
  if bool_decide (is_Some (query_params (request self) !! "no_page"))
  then None
  else super_paginate_queryset queryset.

End EnterpriseViewSetMixin.

Module EnterpriseLearnerEnrollmentViewSet.
Import EnterpriseLearnerEnrollment.

Abbreviation queryset_t := (list EnterpriseLearnerEnrollment.t).

Definition filter_by_offer_id (queryset : queryset_t) (offer_id : string)
  : queryset_t :=
  let offer_id :=
    match PyUUID.UUID offer_id 4 with
    | Ok offer_id_uuid_obj =>
        let offer_id := PyUUID.str offer_id_uuid_obj in
        PyStr.replace "-" "" offer_id
    | _ => offer_id                       (* except ValueError: pass *)
    end in
  List.filter (fun e => Lookup.exact_str (EnterpriseLearnerEnrollment.offer_id e) offer_id)
    queryset.

Definition filter_active_enrollments (clock : Clock) (queryset : queryset_t)
  : queryset_t :=
  List.filter
    (fun e => Lookup.exact_bool (has_passed e) false
              && Lookup.gte_date (course_end_date e)
                   (localdate clock (now clock)))
    queryset.

Definition filter_active_learners (queryset : queryset_t)
  (last_activity_date : date) : queryset_t :=
  List.filter
    (fun e => Lookup.gte_date (EnterpriseLearnerEnrollment.last_activity_date e)
                last_activity_date)
    queryset.

Definition filter_inactive_learners (queryset : queryset_t)
  (last_activity_date : date) : queryset_t :=
  List.filter
    (fun e => Lookup.lte_date (EnterpriseLearnerEnrollment.last_activity_date e)
                last_activity_date)
    queryset.

Definition filter_past_week_completions (clock : Clock)
  (queryset : queryset_t) : queryset_t :=
  let date_today := now clock in
  let date_week_before := date_today - 7 * 86400 in
  List.filter
    (fun e => Lookup.exact_bool (has_passed e) true
              && Lookup.lte_date (passed_date e) (localdate clock date_today)
              && Lookup.gte_date (passed_date e)
                   (localdate clock date_week_before))
    queryset.

(** [if param: queryset = f(queryset, param)] *)
Definition when_given (param : option string)
  (f : string -> queryset_t -> queryset_t) (queryset : queryset_t)
  : queryset_t :=
  match param with
  | Some v => if truthy param then f v queryset else queryset
  | None => queryset
  end.

(** The same for a filter whose value the ORM coerces first. *)
Definition when_given_coerced {A : Type} (param : option string)
  (prep : string -> result A) (f : A -> queryset_t -> queryset_t)
  (queryset : queryset_t) : result queryset_t :=
  match param with
  | Some v => if truthy param then a ← prep v; Ok (f a queryset)
              else Ok queryset
  | None => Ok queryset
  end.

Definition apply_filters (fuel : nat) (orm : Coercions) (clock : Clock)
  (self : View) (queryset : queryset_t) : result queryset_t :=
  let query_filters := query_params (request self) in
  past_week_date ← sub_weeks 1 (today clock);
  past_month_date ← subtract_one_month fuel (today clock);

  let passed_date_param := QueryDict.get query_filters "passed_date" in
  let queryset :=
    if is_str passed_date_param "last_week"
    then filter_past_week_completions clock queryset else queryset in

  let learner_activity_param := QueryDict.get query_filters "learner_activity" in
  let queryset :=
    if truthy learner_activity_param
    then filter_active_enrollments clock queryset else queryset in
  let queryset :=
    if is_str learner_activity_param "active_past_week"
    then filter_active_learners queryset past_week_date
    else if is_str learner_activity_param "inactive_past_week"
    then filter_inactive_learners queryset past_week_date
    else if is_str learner_activity_param "inactive_past_month"
    then filter_inactive_learners queryset past_month_date
    else queryset in

  let search_email := QueryDict.get query_filters "search" in
  let queryset :=
    when_given search_email
      (fun v => List.filter (fun e => Lookup.icontains (user_email e) v))
      queryset in
  let search_all_param := QueryDict.get query_filters "search_all" in
  let queryset :=
    when_given search_all_param
      (fun v => List.filter (fun e => Lookup.icontains (user_email e) v
                                    || Lookup.icontains (course_title e) v))
      queryset in
  let search_course := QueryDict.get query_filters "search_course" in
  let queryset :=
    when_given search_course
      (fun v => List.filter (fun e => Lookup.icontains (course_title e) v))
      queryset in
  let search_start_date := QueryDict.get query_filters "search_start_date" in
  queryset ←
    when_given_coerced search_start_date (prep_course_start_date orm)
      (fun d => List.filter (fun e => Lookup.exact_date (course_start_date e) d))
      queryset;

  let offer_id := QueryDict.get query_filters "offer_id" in
  let queryset :=
    when_given offer_id (fun v qs => filter_by_offer_id qs v) queryset in

  let budget_id := QueryDict.get query_filters "budget_id" in
  queryset ←
    when_given_coerced budget_id UUIDField.to_python
      (fun u => List.filter
                  (fun e => Lookup.exact_nullable_uuid
                              (EnterpriseLearnerEnrollment.budget_id e) u))
      queryset;

  let ignore_null_course_list_price :=
    QueryDict.get query_filters "ignore_null_course_list_price" in
  let queryset :=
    when_given ignore_null_course_list_price
      (fun _ => List.filter (fun e => Lookup.not_null (course_list_price e)))
      queryset in

  let course_product_line := QueryDict.get query_filters "course_product_line" in
  let queryset :=
    when_given course_product_line
      (fun v => List.filter
                  (fun e => Lookup.exact_str
                              (EnterpriseLearnerEnrollment.course_product_line e) v))
      queryset in

  let is_subsidy := QueryDict.get query_filters "is_subsidy" in
  queryset ←
    when_given_coerced is_subsidy (prep_is_subsidy orm)
      (fun b => List.filter
                  (fun e => Lookup.exact_bool
                              (EnterpriseLearnerEnrollment.is_subsidy e) b))
      queryset;

  Ok queryset.

Definition get_queryset (fuel : nat) (orm : Coercions) (clock : Clock)
  (db : Database) (self : View) (st : State)
  : result queryset_t * State :=
  if swagger_fake_view self then (Ok [], st)
  else
    let enterprise_customer_uuid := kwargs_enterprise_id self in
    let cache_key :=
      get_cache_key "enterprise-learner" enterprise_customer_uuid in
    let cached_response :=
      TieredCache.get_cached_response cache_key (time clock) (cache st) in
    match cached_response with
    | Some value => (Ok value, st)
    | None =>
        (** [filter(enterprise_customer_uuid=...)] raises for a text
            that is not a UUID, before anything is logged. *)
        match UUIDField.to_python enterprise_customer_uuid with
        | Ok uuid =>
            let enterprise :=
              existsb
                (fun l => Lookup.exact_uuid
                            (EnterpriseLearner.enterprise_customer_uuid l) uuid)
                (learners db) in
            let st :=
              if negb enterprise then
                mkState (cache st)
                  (log st ++
                   [mkLog WARNING
                      "[Data Overview Failure] Wrong Enterprise UUID. UUID [%s], Endpoint ['%s'], User: [%s]"
                      [ArgStr enterprise_customer_uuid;
                       ArgStr (get_full_path (request self));
                       ArgStr (username (request self))]])
              else st in
            let enrollments :=
              List.filter
                (fun e => Lookup.exact_uuid
                            (EnterpriseLearnerEnrollment.enterprise_customer_uuid e)
                            uuid)
                (enrollments db) in
            match apply_filters fuel orm clock self enrollments with
            | Ok enrollments =>
                (Ok enrollments,
                 mkState
                   (TieredCache.set_all_tiers cache_key enrollments
                      DEFAULT_LEARNER_CACHE_TIMEOUT (time clock) (cache st))
                   (log st))
            | Raise e => (Raise e, st)
            | OutOfFuel => (OutOfFuel, st)
            end
        | Raise e => (Raise e, st)
        | OutOfFuel => (OutOfFuel, st)
        end
    end.

Definition filter_distinct_learners (queryset : queryset_t) : list Z :=
  remove_dups (enterprise_user <$> queryset).

Definition filter_distinct_active_learners (queryset : queryset_t)
  (last_activity_date : date) : list Z :=
  filter_distinct_learners
    (filter_active_learners queryset last_activity_date).

Definition filter_course_completions (queryset : queryset_t) : queryset_t :=
  List.filter (fun e => Lookup.exact_bool (has_passed e) true) queryset.

Definition filter_number_of_users (db : Database) (self : View)
  : result (list EnterpriseLearner.t) :=
  uuid ← UUIDField.to_python (kwargs_enterprise_id self);
  Ok (List.filter
        (fun l => Lookup.exact_uuid
                    (EnterpriseLearner.enterprise_customer_uuid l) uuid)
        (learners db)).

Definition get_max_created_date (queryset : queryset_t) : option instant :=
  Lookup.Max created queryset.

(** The content of the response of [overview]. *)
Record content : Type := mkContent {
  enrolled_learners : Z;
  active_learners_past_week : Z;
  active_learners_past_month : Z;
  course_completions : Z;
  last_updated_date : option instant;
  number_of_users : Z
}.

Definition count {A : Type} (rows : list A) : Z := Z.of_nat (length rows).

(** [overview]. [filter_queryset] is the method of the framework that
    runs the filter backends of the view ([AuditEnrollmentsFilterBackend]
    of [enterprise_data.filters], which is not among the sources, and
    the ordering filter). *)
Definition overview (fuel : nat) (orm : Coercions) (clock : Clock)
  (filter_queryset : View -> queryset_t -> queryset_t)
  (db : Database) (self : View) (st : State)
  : result content * State :=
  match get_queryset fuel orm clock db self st with
  | (Ok enrollments, st) =>
      let enrollments := filter_queryset self enrollments in
      let course_completions := filter_course_completions enrollments in
      let distinct_learners := filter_distinct_learners enrollments in
      (past_week_date ← sub_weeks 1 (today clock);
       past_month_date ← subtract_one_month fuel (today clock);
       let active_learners_week :=
         filter_distinct_active_learners enrollments past_week_date in
       let last_updated_date := get_max_created_date enrollments in
       let active_learners_month :=
         filter_distinct_active_learners enrollments past_month_date in
       enterprise_users ← filter_number_of_users db self;
       Ok (mkContent (count distinct_learners)
             (count active_learners_week) (count active_learners_month)
             (count course_completions) last_updated_date
             (count enterprise_users)),
       st)
  | (Raise e, st) => (Raise e, st)
  | (OutOfFuel, st) => (OutOfFuel, st)
  end.

End EnterpriseLearnerEnrollmentViewSet.

Module EnterpriseOfferViewSet.

(** [get_object]: the [offer_id] of the URL is replaced in [self.kwargs]
    by the text without hyphens, and the method of the framework,
    [super_get_object], looks the offer up under the new value. The
    result is the new value and what the lookup gives. *)
Definition get_object {A : Type} (super_get_object : string -> A)
  (kwargs_offer_id : string) : string * A :=
  let kwargs_offer_id := PyStr.replace "-" "" kwargs_offer_id in
  (kwargs_offer_id, super_get_object kwargs_offer_id).

Definition get_queryset (offers : list EnterpriseOffer.t) (self : View)
  : result (list EnterpriseOffer.t) :=
  let enterprise_customer_uuid := kwargs_enterprise_id self in
  uuid ← UUIDField.to_python enterprise_customer_uuid;
  Ok (List.filter
        (fun o => Lookup.exact_uuid
                    (EnterpriseOffer.enterprise_customer_uuid o) uuid)
        offers).

End EnterpriseOfferViewSet.

Module EnterpriseLearnerViewSet.
Import EnterpriseLearnerEnrollment.

(** A row of the learner queryset with its annotations: [None] when the
    annotation was not asked for, [Some None] for SQL NULL. *)
Record annotated : Type := mkAnnotated {
  learner : EnterpriseLearner.t;
  enrollment_count : option (option Z);
  course_completion_count : option (option Z)
}.

(** The rows the relation [enrollments] gives for a learner. *)
Definition related (db : Database) (l : EnterpriseLearner.t)
  : list EnterpriseLearnerEnrollment.t :=
  List.filter (fun e => enterprise_user e =? EnterpriseLearner.enterprise_user_id l)
    (enrollments db).

(** [queryset.filter(enrollments__...)]: a join of its own with the
    enrollments; all the conditions of the call are on the joined row,
    and a learner comes once for every enrollment that meets them. *)
Definition filter_enrollments (db : Database)
  (cond : EnterpriseLearnerEnrollment.t -> bool)
  (queryset : list EnterpriseLearner.t) : list EnterpriseLearner.t :=
  l ← queryset; (fun _ => l) <$> List.filter cond (related db l).

(** [queryset.filter(enrollments__isnull=True)] *)
Definition filter_no_enrollments (db : Database)
  (queryset : list EnterpriseLearner.t) : list EnterpriseLearner.t :=
  List.filter (fun l => match related db l with [] => true | _ => false end)
    queryset.

(** The condition of [active_courses=true] on the joined enrollment. *)
Definition active_courses_true (clock : Clock)
  (e : EnterpriseLearnerEnrollment.t) : bool :=
  Lookup.exact_bool (is_consent_granted e) true
  && Lookup.gte_date (course_end_date e) (localdate clock (now clock)).

(** The condition of [active_courses=false] on the joined enrollment. *)
Definition active_courses_false (clock : Clock)
  (e : EnterpriseLearnerEnrollment.t) : bool :=
  Lookup.exact_bool (is_consent_granted e) true
  && Lookup.lte_date (course_end_date e) (localdate clock (now clock)).

(** The subquery of an annotation:
    [EnterpriseLearnerEnrollment.objects.filter(enterprise_user=OuterRef("enterprise_user_id"), ...)
     .values('enterprise_user').annotate(n=Count('pk', distinct=True)).values('n')]:
    one row for each [enterprise_user] among the filtered rows. *)
Definition count_subquery (db : Database)
  (cond : EnterpriseLearnerEnrollment.t -> bool)
  (outer : EnterpriseLearner.t) : list Z :=
  let rows :=
    List.filter
      (fun e => (enterprise_user e =? EnterpriseLearner.enterprise_user_id outer)
                && cond e)
      (enrollments db) in
  (fun group =>
     Lookup.Count_distinct pk
       (List.filter (fun e => enterprise_user e =? group) rows))
  <$> remove_dups (enterprise_user <$> rows).

Definition enrollment_subquery_1 (db : Database) :=
  count_subquery db
    (fun e => Lookup.exact_bool (is_consent_granted e) true).

Definition enrollment_subquery_2 (db : Database) :=
  count_subquery db
    (fun e => Lookup.exact_bool (has_passed e) true
              && Lookup.exact_bool (is_consent_granted e) true).

(** [prefetch_related] loads the enrollments of the learners the query
    returns; it does not change which rows the query returns. *)
Definition get_queryset (clock : Clock) (db : Database) (self : View)
  (log : list LogRecord) : list annotated * list LogRecord :=
  let params := query_params (request self) in
  let log :=
    log ++ [mkLog INFO "[ELV_ANALYTICS_API_V1] QueryParams: [%s]"
              [ArgParams params]] in
  let queryset := learners db in
  let distinct := false in

  let has_enrollments := QueryDict.get params "has_enrollments" in
  let '(queryset, distinct) :=
    if is_str has_enrollments "true"
    then (filter_enrollments db (fun _ => true) queryset, true)
    else if is_str has_enrollments "false"
    then (filter_no_enrollments db queryset, distinct)
    else (queryset, distinct) in

  let active_courses := QueryDict.get params "active_courses" in
  let queryset :=
    if is_str active_courses "true"
    then filter_enrollments db (active_courses_true clock) queryset
    else if is_str active_courses "false"
    then filter_enrollments db (active_courses_false clock) queryset
    else queryset in

  let all_enrollments_passed := QueryDict.get params "all_enrollments_passed" in
  let queryset :=
    if is_str all_enrollments_passed "true"
    then filter_enrollments db
           (fun e => Lookup.exact_bool (has_passed e) true) queryset
    else if is_str all_enrollments_passed "false"
    then filter_enrollments db
           (fun e => Lookup.exact_bool (has_passed e) false) queryset
    else queryset in

  let extra_fields := QueryDict.getlist params "extra_fields" in
  let annotate_enrollment_count l :=
    if bool_decide ("enrollment_count" ∈ extra_fields)
    then Some (Lookup.Coalesce (Lookup.Subquery (enrollment_subquery_1 db l)) 0)
    else None in
  let annotate_course_completion_count l :=
    if bool_decide ("course_completion_count" ∈ extra_fields)
    then Some (Lookup.Coalesce (Lookup.Subquery (enrollment_subquery_2 db l)) 0)
    else None in

  (** [.distinct()] is a mark on the query: the rows are made distinct
      when the query runs, after all its joins. *)
  let queryset := if distinct then remove_dups queryset else queryset in
  ((fun l => mkAnnotated l (annotate_enrollment_count l)
               (annotate_course_completion_count l)) <$> queryset,
   log).

End EnterpriseLearnerViewSet.

Module EnterpriseLearnerCompletedCoursesViewSet.
Import EnterpriseLearnerEnrollment.

(** A row of [.values('user_email').annotate(completed_courses=...)] *)
Record row : Type := mkRow {
  row_user_email : string;
  completed_courses : Z
}.

(** The ordered list of the distinct values of a text column. *)
Fixpoint insert_sorted (s : string) (l : list string) : list string :=
  match l with
  | [] => [s]
  | x :: rest =>
      if String.eqb s x then l
      else if String.ltb s x then s :: l
      else x :: insert_sorted s rest
  end.

Definition sorted_values (l : list string) : list string :=
  foldr insert_sorted [] l.

Definition get_queryset (db : Database) (self : View) : list row :=
  if swagger_fake_view self then []
  else
    let enrollments :=
      List.filter
        (fun e => String.eqb (enterprise_customer_uuid e) (kwargs_enterprise_id self)
                  && Lookup.exact_bool (has_passed e) true
                  && Lookup.exact_bool (is_consent_granted e) true)
        (enrollments db) in
    (fun email =>
       mkRow email
         (Lookup.Count courserun_key
            (List.filter (fun e => String.eqb (user_email e) email) enrollments)))
    <$> sorted_values (user_email <$> enrollments).

End EnterpriseLearnerCompletedCoursesViewSet.

Module EnterpriseAdminInsightsView.

Definition HTTP_200_OK : Z := 200.
Definition HTTP_404_NOT_FOUND : Z := 404.

Section Insights.
(** The rows of the two snapshot tables, and the data their
    serializers make of a row: a dict from field names to values.
    [models.py] and [serializers.py] are not among the sources. *)
Variables LearnerProgressRow SummarizeInsightsRow Json : Type.
Variable EnterpriseAdminLearnerProgressSerializer :
  LearnerProgressRow -> gmap string Json.
Variable EnterpriseAdminSummarizeInsightsSerializer :
  SummarizeInsightsRow -> gmap string Json.

(** Modelled from the spec: a snapshot table holds "a precomputed,
    periodically refreshed aggregate row per enterprise", so it is a
    finite map from the enterprise id to the row. *)
Record Snapshots : Type := mkSnapshots {
  EnterpriseAdminLearnerProgress : gmap string LearnerProgressRow;
  EnterpriseAdminSummarizeInsights : gmap string SummarizeInsightsRow
}.

(** [Model.objects.get(enterprise_customer_uuid=enterprise_id)] *)
Definition objects_get {Row : Type} (table : gmap string Row)
  (enterprise_id : string) : result Row :=
  match table !! enterprise_id with
  | Some row => Ok row
  | None => Raise DoesNotExist
  end.

Record Response : Type := mkResponse {
  data : gmap string (gmap string Json);
  status : Z
}.

(** The body of [get], once [permission_required] has let the request
    through. [try: ... except DoesNotExist: pass]: the assignments of
    the body take effect only if the lookup returns. *)
Definition get (db : Snapshots) (enterprise_id : string)
  : result Response :=
  let response_data : gmap string (gmap string Json) := ∅ in
  let learner_progress : gmap string Json := ∅ in
  let learner_engagement : gmap string Json := ∅ in

  r1 ← match objects_get (EnterpriseAdminLearnerProgress db) enterprise_id with
       | Ok row =>
           let learner_progress :=
             EnterpriseAdminLearnerProgressSerializer row in
           Ok (learner_progress,
               <["learner_progress" := learner_progress]> response_data)
       | Raise DoesNotExist => Ok (learner_progress, response_data)
       | Raise e => Raise e
       | OutOfFuel => OutOfFuel
       end;
  let '(learner_progress, response_data) := r1 in

  r2 ← match objects_get (EnterpriseAdminSummarizeInsights db) enterprise_id with
       | Ok row =>
           let learner_engagement :=
             EnterpriseAdminSummarizeInsightsSerializer row in
           Ok (learner_engagement,
               <["learner_engagement" := learner_engagement]> response_data)
       | Raise DoesNotExist => Ok (learner_engagement, response_data)
       | Raise e => Raise e
       | OutOfFuel => OutOfFuel
       end;
  let '(learner_engagement, response_data) := r2 in

  let status := HTTP_200_OK in
  let status :=
    if bool_decide (learner_progress = ∅)
       && bool_decide (learner_engagement = ∅)
    then HTTP_404_NOT_FOUND else status in
  Ok (mkResponse response_data status).

End Insights.

End EnterpriseAdminInsightsView.

End V1.

(** ** [enterprise_data/api/v0/views.py] *)

Module V0.
Import PyDate.

(** [ConsentGrantedFilterBackend] of [enterprise_data.filters] is not
    among the sources; the views are given its [filter_queryset]. *)
Definition backend : Type :=
  Request -> list EnterpriseEnrollment.t -> list EnterpriseEnrollment.t.

Module EnterpriseViewSet.

Definition filter_queryset (ConsentGrantedFilterBackend : backend)
  (self : View) (queryset : list EnterpriseEnrollment.t)
  : list EnterpriseEnrollment.t :=
  ConsentGrantedFilterBackend (request self) queryset.

Definition ensure_data_exists {A : Type} (request : Request)
  (data : list A) (error_message : option string) (log : list LogRecord)
  : result unit * list LogRecord :=
  match data with
  | [] =>
      let error_message :=
        if truthy error_message then default "" error_message
        else "Unable to fetch API response from endpoint '"
             +:+ get_full_path request +:+ "'." in
      (Raise (NotFound error_message),
       log ++ [mkLog ERROR error_message []])
  | _ :: _ => (Ok (), log)
  end.

End EnterpriseViewSet.

Module EnterpriseEnrollmentsViewSet.
Import EnterpriseEnrollment.

Abbreviation queryset_t := (list EnterpriseEnrollment.t).

Definition get_queryset (ConsentGrantedFilterBackend : backend)
  (db : queryset_t) (self : View) (log : list LogRecord)
  : result queryset_t * list LogRecord :=
  let enterprise_id := kwargs_enterprise_id self in
  (** [filter(enterprise_id=...)] raises for a text that is not a
      UUID. *)
  match UUIDField.to_python enterprise_id with
  | Ok uuid =>
      let enrollments :=
        List.filter
          (fun e => Lookup.exact_uuid (EnterpriseEnrollment.enterprise_id e) uuid)
          db in
      let enrollments :=
        EnterpriseViewSet.filter_queryset ConsentGrantedFilterBackend self
          enrollments in
      match
        EnterpriseViewSet.ensure_data_exists (request self) enrollments
          (Some ("No course enrollments are associated with Enterprise "
                 +:+ enterprise_id +:+ " from endpoint '"
                 +:+ get_full_path (request self) +:+ "'."))
          log
      with
      | (Ok _, log) => (Ok enrollments, log)
      | (Raise e, log) => (Raise e, log)
      | (OutOfFuel, log) => (OutOfFuel, log)
      end
  | Raise e => (Raise e, log)
  | OutOfFuel => (OutOfFuel, log)
  end.

Definition filter_distinct_learners (queryset : queryset_t) : list Z :=
  remove_dups (enterprise_user_id <$> queryset).

Definition filter_active_learners (queryset : queryset_t)
  (last_activity_date : date) : list Z :=
  filter_distinct_learners
    (List.filter
       (fun e => Lookup.gte_date (EnterpriseEnrollment.last_activity_date e)
                   last_activity_date)
       queryset).

Definition filter_course_completions (queryset : queryset_t) : queryset_t :=
  List.filter (fun e => Lookup.exact_bool (has_passed e) true) queryset.

(** The guard of the [while] loop. *)
Definition keeps_walking (original_date one_month_earlier : date) : bool :=
  (month one_month_earlier =? month original_date)
  || (day original_date <? day one_month_earlier).

(** The [while] loop, its guard evaluated at most [fuel] times. *)
Fixpoint walk_back (fuel : nat) (original_date one_month_earlier : date)
  : result date :=
  match fuel with
  | O => OutOfFuel
  | S fuel' =>
      if keeps_walking original_date one_month_earlier then
        p ← sub_one_day one_month_earlier;
        walk_back fuel' original_date p
      else Ok one_month_earlier
  end.

Definition subtract_one_month (fuel : nat) (original_date : date)
  : result date :=
  one_month_earlier ← sub_one_day original_date;
  walk_back fuel original_date one_month_earlier.

(** The content of the response of [overview]. *)
Record content : Type := mkContent {
  enrolled_learners : Z;
  active_learners_past_week : Z;
  active_learners_past_month : Z;
  course_completions : Z
}.

Definition count {A : Type} (rows : list A) : Z := Z.of_nat (length rows).

Definition overview (fuel : nat) (clock : Clock)
  (ConsentGrantedFilterBackend : backend) (db : queryset_t) (self : View)
  (log : list LogRecord) : result content * list LogRecord :=
  match get_queryset ConsentGrantedFilterBackend db self log with
  | (Ok enrollments, log) =>
      let course_completions := filter_course_completions enrollments in
      let distinct_learners := filter_distinct_learners enrollments in
      (past_week_date ← sub_weeks 1 (today clock);
       past_month_date ← subtract_one_month fuel (today clock);
       let active_learners_week :=
         filter_active_learners enrollments past_week_date in
       let active_learners_month :=
         filter_active_learners enrollments past_month_date in
       Ok (mkContent (count distinct_learners)
             (count active_learners_week) (count active_learners_month)
             (count course_completions)),
       log)
  | (Raise e, log) => (Raise e, log)
  | (OutOfFuel, log) => (OutOfFuel, log)
  end.

(** [list] of [ModelViewSet] (rest_framework): the queryset of the view,
    filtered by its backends, is what the response pages and
    serializes. *)
Definition list (ConsentGrantedFilterBackend : backend) (db : queryset_t)
  (self : View) (log : list LogRecord)
  : result queryset_t * list LogRecord :=
  match get_queryset ConsentGrantedFilterBackend db self log with
  | (Ok queryset, log) =>
      (Ok (EnterpriseViewSet.filter_queryset ConsentGrantedFilterBackend
             self queryset), log)
  | other => other
  end.

End EnterpriseEnrollmentsViewSet.

End V0.

(** ** The words of the specification *)

Module Spec.
Import PyDate.

(** "the latest date R strictly before D such that month(R) differs from
    month(D) and day(R) does not exceed day(D)" *)
Definition latest_month_before (D R : date) : Prop :=
  ltb R D = true /\ month R <> month D /\ day R <= day D
  /\ forall R', valid_date R' = true ->
       ltb R R' = true -> ltb R' D = true ->
       ~ (month R' <> month D /\ day R' <= day D).

(** The dates from 0001-02-01 on: those with a month before them. *)
Definition after_first_month (D : date) : bool :=
  leb (mkdate 1 2 1) D.

(** The day before the first of a month. *)
Definition last_of_previous_month (y m : Z) : result date :=
  sub_one_day (mkdate y m 1).

(** The closed form of [subtract_one_month]: the same day of the month
    before, or the last day of that month if it is shorter. *)
Definition month_before (D : date) : date :=
  if 1 <? month D then
    mkdate (year D) (month D - 1)
      (Z.min (day D) (days_in_month (year D) (month D - 1)))
  else mkdate (year D - 1) 12 (day D).

(** [text] contains [part]. *)
Definition occurs_in (part text : string) : Prop :=
  exists before after, text = before +:+ part +:+ after.

(** An enrollment for which consent is granted. *)
Definition consent_granted (e : EnterpriseLearnerEnrollment.t) : bool :=
  Lookup.exact_bool (EnterpriseLearnerEnrollment.is_consent_granted e) true.

Definition passed (e : EnterpriseLearnerEnrollment.t) : bool :=
  Lookup.exact_bool (EnterpriseLearnerEnrollment.has_passed e) true.


(** The enrollments of a learner that qualify for a count. *)
Definition qualifying (qualifies : EnterpriseLearnerEnrollment.t -> bool)
  (db : V1.Database) (l : EnterpriseLearner.t)
  : list EnterpriseLearnerEnrollment.t :=
  List.filter
    (fun e => (EnterpriseLearnerEnrollment.enterprise_user e
               =? EnterpriseLearner.enterprise_user_id l)
              && qualifies e)
    (V1.enrollments db).

(** "the count of distinct consent-granted enrollments" of a learner, and
    that of the passed ones among them. *)
Definition distinct_count (rows : list EnterpriseLearnerEnrollment.t) : Z :=
  Z.of_nat (length (remove_dups (EnterpriseLearnerEnrollment.pk <$> rows))).

Definition consented_enrollment_count (db : V1.Database)
  (l : EnterpriseLearner.t) : Z :=
  distinct_count (qualifying consent_granted db l).

Definition consented_completion_count (db : V1.Database)
  (l : EnterpriseLearner.t) : Z :=
  distinct_count (qualifying (fun e => passed e && consent_granted e) db l).



(** A row of the learner listing: the learner with the annotations the
    request asks for. *)
Definition annotate (db : V1.Database) (self : View) (l : EnterpriseLearner.t)
  : V1.EnterpriseLearnerViewSet.annotated :=
  let extra_fields :=
    QueryDict.getlist (query_params (request self)) "extra_fields" in
  V1.EnterpriseLearnerViewSet.mkAnnotated l
    (if bool_decide ("enrollment_count" ∈ extra_fields)
     then Some (Lookup.Coalesce (Lookup.Subquery (V1.EnterpriseLearnerViewSet.enrollment_subquery_1 db l)) 0)
     else None)
    (if bool_decide ("course_completion_count" ∈ extra_fields)
     then Some (Lookup.Coalesce (Lookup.Subquery (V1.EnterpriseLearnerViewSet.enrollment_subquery_2 db l)) 0)
     else None).

(** A step of a filter chain that only removes rows keeps what holds of
    all rows. *)
Definition narrowing (P : EnterpriseLearnerEnrollment.t -> Prop)
  (f : list EnterpriseLearnerEnrollment.t -> list EnterpriseLearnerEnrollment.t)
  : Prop :=
  forall queryset, Forall P queryset -> Forall P (f queryset).

(** The rows after the filters of [passed_date] and [learner_activity]. *)
Definition after_learner_activity (clock : Clock) (self : View)
  (past_week_date past_month_date : PyDate.date) (queryset : list EnterpriseLearnerEnrollment.t)
  : list EnterpriseLearnerEnrollment.t :=
  let query_filters := query_params (request self) in
  let passed_date_param := QueryDict.get query_filters "passed_date" in
  let queryset :=
    if is_str passed_date_param "last_week"
    then V1.EnterpriseLearnerEnrollmentViewSet.filter_past_week_completions clock queryset else queryset in
  let learner_activity_param := QueryDict.get query_filters "learner_activity" in
  let queryset :=
    if truthy learner_activity_param
    then V1.EnterpriseLearnerEnrollmentViewSet.filter_active_enrollments clock queryset else queryset in
  if is_str learner_activity_param "active_past_week"
  then V1.EnterpriseLearnerEnrollmentViewSet.filter_active_learners queryset past_week_date
  else if is_str learner_activity_param "inactive_past_week"
  then V1.EnterpriseLearnerEnrollmentViewSet.filter_inactive_learners queryset past_week_date
  else if is_str learner_activity_param "inactive_past_month"
  then V1.EnterpriseLearnerEnrollmentViewSet.filter_inactive_learners queryset past_month_date
  else queryset.

(** "the result contains only enrollments with has_passed false and
    course_end_date >= now": the date of the end of the course is the
    date of [now] or a later one. *)
Definition only_active_enrollments (clock : Clock)
  (rows : list EnterpriseLearnerEnrollment.t) : Prop :=
  Forall
    (fun e => EnterpriseLearnerEnrollment.has_passed e = Some false
              /\ exists d, EnterpriseLearnerEnrollment.course_end_date e = Some d
                           /\ PyDate.leb (localdate clock (now clock)) d = true)
    rows.

(** Rows last active on [since] or later, and on [until] or earlier. *)
Definition active_since (since : PyDate.date)
  (rows : list EnterpriseLearnerEnrollment.t) : Prop :=
  Forall
    (fun e => exists d, EnterpriseLearnerEnrollment.last_activity_date e = Some d
                        /\ PyDate.leb since d = true)
    rows.

Definition inactive_since (until : PyDate.date)
  (rows : list EnterpriseLearnerEnrollment.t) : Prop :=
  Forall
    (fun e => exists d, EnterpriseLearnerEnrollment.last_activity_date e = Some d
                        /\ PyDate.leb d until = true)
    rows.

(** The key under which the enrollment list of the enterprise of a view
    is cached, and the enrollments of that enterprise. *)
Definition enrollment_list_key (self : View) : string * string :=
  get_cache_key "enterprise-learner" (kwargs_enterprise_id self).

Definition of_enterprise (db : V1.Database) (uuid : Z)
  : list EnterpriseLearnerEnrollment.t :=
  List.filter
    (fun e => Lookup.exact_uuid
                (EnterpriseLearnerEnrollment.enterprise_customer_uuid e) uuid)
    (V1.enrollments db).

(** C8, as the specification states it: [learner_activity] is present. *)
Definition learner_activity_present (self : View) : Prop :=
  is_Some (query_params (request self) !! "learner_activity").

(** The parameters [apply_filters] reads with [if param:]. *)
Definition optional_filters : list string :=
  ["learner_activity"; "search"; "search_all"; "search_course";
   "search_start_date"; "offer_id"; "budget_id";
   "ignore_null_course_list_price"; "course_product_line"; "is_subsidy"].

(** A request that asks for no filter: each of these parameters is absent
    or empty, and [passed_date] is not [last_week]. *)
Definition asks_no_filter (self : View) : Prop :=
  Forall
    (fun key => truthy (QueryDict.get (query_params (request self)) key) = false)
    optional_filters
  /\ is_str (QueryDict.get (query_params (request self)) "passed_date")
       "last_week" = false.

(** Rows passed from the date of the point in time seven days before
    [now] to the date of [now]. *)
Definition passed_last_week (clock : Clock)
  (rows : list EnterpriseLearnerEnrollment.t) : Prop :=
  Forall
    (fun e => EnterpriseLearnerEnrollment.has_passed e = Some true
              /\ exists d, EnterpriseLearnerEnrollment.passed_date e = Some d
                           /\ PyDate.leb (localdate clock (now clock - 7 * 86400)) d
                              = true
                           /\ PyDate.leb d (localdate clock (now clock)) = true)
    rows.

(** The record [get_queryset] logs for an enterprise without learners. *)
Definition wrong_enterprise_warning (self : View) : LogRecord :=
  mkLog WARNING
    "[Data Overview Failure] Wrong Enterprise UUID. UUID [%s], Endpoint ['%s'], User: [%s]"
    [ArgStr (kwargs_enterprise_id self);
     ArgStr (get_full_path (request self));
     ArgStr (username (request self))].

(** The enterprise has a learner. *)
Definition known_enterprise (db : V1.Database) (uuid : Z) : bool :=
  existsb
    (fun l => Lookup.exact_uuid (EnterpriseLearner.enterprise_customer_uuid l) uuid)
    (V1.learners db).

(** The digits ['%x'] writes. *)
Definition is_hex_lower (c : ascii) : bool :=
  let n := PyStr.code c in
  ((48 <=? n) && (n <=? 57)) || ((97 <=? n) && (n <=? 102)).

Fixpoint hex_string (s : string) : bool :=
  match s with
  | EmptyString => true
  | String c rest => is_hex_lower c && hex_string rest
  end.

(** The number a string of hexadecimal digits writes, after [acc]. *)
Fixpoint hex_number (acc : Z) (s : string) : Z :=
  match s with
  | EmptyString => acc
  | String c rest =>
      hex_number (acc * 16 + default 0 (PyInt.hex_value c)) rest
  end.

(** The text [filter_by_offer_id] compares the column with, for the UUID
    of integer [int]. *)
Definition canonical_offer_id (int : Z) : string :=
  PyStr.replace "-" "" (PyUUID.str int).

(** The variant and version bits [UUID(hex, version=4)] sets. *)
Definition version4 (int : Z) : Z :=
  let int := Z.land int (Z.lnot (Z.shiftl 0xc000 48)) in
  let int := Z.lor int (Z.shiftl 0x8000 48) in
  let int := Z.land int (Z.lnot (Z.shiftl 0xf000 64)) in
  let int := Z.lor int (Z.shiftl 4 76) in
  int.







End Spec.

(** ** Sample rows and requests *)

Module Sample.

(** The id of an enterprise as the URL gives it, which is the text of its
    UUID; the id of an enterprise that has no row; the id of another
    enterprise. *)
Definition ent : string := "0f0a7e54-8a3c-4d2b-9c6e-5b1d2f3a4c5d".
Definition nobody : string := "7b1e4c2a-5d3f-4a6b-8c9d-0e1f2a3b4c5d".
Definition other : string := "c3d2e1f0-9a8b-4c7d-8e6f-5a4b3c2d1e0f".

Definition enrollment (pk : Z) (enterprise : string) (user : Z)
  (email : string) (consent passed : option bool)
  (end_date last_activity : option PyDate.date)
  (offer : option string) : EnterpriseLearnerEnrollment.t :=
  EnterpriseLearnerEnrollment.mk pk enterprise user consent passed None
    last_activity None end_date email "Course" (Some "course-v1:run") offer
    None None None None None.

Definition with_offer (offer : string) : EnterpriseLearnerEnrollment.t :=
  enrollment 1 ent 1 "a@example.com" (Some true) (Some false) None None
    (Some offer).

Definition params (l : list (string * list string)) : QueryDict :=
  list_to_map l.

Definition view (enterprise path : string) (l : list (string * list string))
  : View :=
  mkView (mkRequest (params l) path "staff") enterprise false.

(** A clock in UTC: the date of a point in time of the year 2024 or
    before it, counted in days back from 2024-12-31, which is day 20088
    after 1970-01-01. *)
Definition utc_date (t : instant) : PyDate.date :=
  match PyDate.sub_days (Z.to_nat (20088 - t / 86400)) (PyDate.mkdate 2024 12 31) with
  | Ok d => d
  | _ => PyDate.mkdate 1 1 1
  end.

(** Noon of 2024-03-31. *)
Definition clock : Clock :=
  mkClock 1711886400 (PyDate.mkdate 2024 3 31) 5000 utc_date.

Definition ann : EnterpriseLearner.t :=
  EnterpriseLearner.mk 1 ent "ann@example.com".
Definition bob : EnterpriseLearner.t :=
  EnterpriseLearner.mk 2 ent "bob@example.com".

(** Ann has two enrollments with consent, one of them passed and the
    other in a course that ends today, and one without consent; Bob has
    one enrollment, without consent. *)
Definition db : V1.Database :=
  V1.mkDatabase [ann; bob]
    [enrollment 10 ent 1 "ann@example.com" (Some true) (Some true)
       (Some (PyDate.mkdate 2024 6 30)) (Some (PyDate.mkdate 2024 3 30)) (Some "42");
     enrollment 11 ent 1 "ann@example.com" (Some true) (Some false)
       (Some (PyDate.mkdate 2024 3 31)) (Some (PyDate.mkdate 2024 2 1)) None;
     enrollment 12 ent 1 "ann@example.com" (Some false) (Some true)
       (Some (PyDate.mkdate 2024 6 30)) None None;
     enrollment 13 ent 2 "bob@example.com" None (Some true)
       (Some (PyDate.mkdate 2023 1 1)) None None].

Definition orm : V1.Coercions :=
  V1.mkCoercions
    (fun s => if String.eqb s "2024-01-01" then Ok (PyDate.mkdate 2024 1 1)
              else Raise ValidationError)
    (fun s => if String.eqb s "True" then Ok true
              else if String.eqb s "False" then Ok false
              else Raise ValidationError).

End Sample.

(** * Properties *)

(** ** Dates and [subtract_one_month] *)

Module DateFacts.
Import PyDate Spec.
Import V1.

Lemma days_in_month_bounds y m : 28 <= days_in_month y m <= 31.
Proof.
  unfold days_in_month.
  destruct (m =? 2); [destruct (is_leap y); lia|].
  destruct ((m =? 4) || (m =? 6) || (m =? 9) || (m =? 11)); lia.
Qed.

Lemma valid_date_spec d :
  valid_date d = true <->
  1 <= year d <= 9999 /\ 1 <= month d <= 12
  /\ 1 <= day d <= days_in_month (year d) (month d).
Proof.
  unfold valid_date, MINYEAR, MAXYEAR.
  rewrite !andb_true_iff, !Z.leb_le. lia.
Qed.

Lemma ltb_spec a b :
  ltb a b = true <->
  year a < year b
  \/ (year a = year b
      /\ (month a < month b \/ (month a = month b /\ day a < day b))).
Proof.
  unfold ltb.
  rewrite !orb_true_iff, !andb_true_iff, !orb_true_iff, !andb_true_iff,
    !Z.ltb_lt, !Z.eqb_eq. tauto.
Qed.

Lemma after_first_month_spec D :
  valid_date D = true ->
  after_first_month D = true <-> ~ (year D = 1 /\ month D = 1).
Proof.
  intros V%valid_date_spec. unfold after_first_month, leb, eqb.
  rewrite orb_true_iff, ltb_spec, !andb_true_iff, !Z.eqb_eq. simpl. lia.
Qed.

(** *** Ordinals: a step back is one day *)

Lemma days_before_year_step y :
  days_before_year (y + 1) =
  days_before_year y + (if is_leap y then 366 else 365).
Proof.
  unfold days_before_year, is_leap. cbv zeta.
  replace (y + 1 - 1) with (y - 1 + 1) by lia.
  destruct (Z.eqb_spec (y mod 4) 0), (Z.eqb_spec (y mod 100) 0),
    (Z.eqb_spec (y mod 400) 0); simpl;
    Z.to_euclidean_division_equations; lia.
Qed.

Lemma days_before_month_step y m :
  2 <= m <= 12 ->
  days_before_month y m =
  days_before_month y (m - 1) + days_in_month y (m - 1).
Proof.
  intros Hm.
  assert (m = 2 \/ m = 3 \/ m = 4 \/ m = 5 \/ m = 6 \/ m = 7 \/ m = 8
          \/ m = 9 \/ m = 10 \/ m = 11 \/ m = 12) as Hcases by lia.
  unfold days_before_month, days_in_month.
  repeat (destruct Hcases as [->|Hcases]); [..|subst m];
    simpl; destruct (is_leap y); reflexivity.
Qed.

Lemma sub_one_day_ordinal c p :
  valid_date c = true -> sub_one_day c = Ok p ->
  valid_date p = true /\ toordinal p = toordinal c - 1.
Proof.
  intros V%valid_date_spec. destruct c as [y m d]. simpl in V.
  unfold sub_one_day, MINYEAR. simpl.
  destruct (Z.ltb_spec 1 d);
    [|destruct (Z.ltb_spec 1 m); [|destruct (Z.ltb_spec 1 y)]];
    intros E; inversion E; subst p; clear E;
    rewrite valid_date_spec; unfold toordinal; simpl.
  - lia.
  - pose proof (days_in_month_bounds y (m - 1)).
    rewrite (days_before_month_step y m) by lia. lia.
  - assert (m = 1) by lia. assert (d = 1) by lia. subst m d.
    pose proof (days_before_year_step (y - 1)) as E.
    replace (y - 1 + 1) with y in E by lia. rewrite E.
    unfold days_before_month, days_in_month. simpl.
    destruct (is_leap (y - 1)); lia.
Qed.

Lemma sub_one_day_raises c :
  valid_date c = true ->
  (sub_one_day c = Raise OverflowError <-> c = mkdate 1 1 1).
Proof.
  intros V%valid_date_spec. split.
  - destruct c as [y m d]. simpl in V.
    unfold sub_one_day, MINYEAR. simpl.
    destruct (Z.ltb_spec 1 d);
      [|destruct (Z.ltb_spec 1 m); [|destruct (Z.ltb_spec 1 y)]];
      intros E; try discriminate E.
    f_equal; lia.
  - intros ->. reflexivity.
Qed.

(** *** The loop *)

Lemma walk_back_more_fuel k fuel o c :
  walk_back fuel o c <> OutOfFuel ->
  walk_back (fuel + k) o c = walk_back fuel o c.
Proof.
  revert c. induction fuel as [|fuel IH]; intros c H; simpl in *.
  - congruence.
  - destruct (keeps_walking o c); [|reflexivity].
    destruct (sub_one_day c) as [p| |]; simpl in *; auto.
Qed.

Lemma subtract_one_month_more_fuel k fuel D :
  subtract_one_month fuel D <> OutOfFuel ->
  subtract_one_month (fuel + k) D = subtract_one_month fuel D.
Proof.
  unfold subtract_one_month.
  destruct (sub_one_day D) as [p| |]; simpl; auto.
  apply walk_back_more_fuel.
Qed.

(** Phase one: the days of the month of [o] itself are all skipped. *)
Lemma walk_back_same_month o n fuel :
  walk_back (S n + fuel) o (mkdate (year o) (month o) (Z.of_nat (S n))) =
  (p ← last_of_previous_month (year o) (month o); walk_back fuel o p).
Proof.
  induction n as [|n IH].
  - simpl. unfold keeps_walking. simpl. rewrite Z.eqb_refl. simpl.
    reflexivity.
  - change (S (S n) + fuel)%nat with (S (S n + fuel)).
    cbn [walk_back]. unfold keeps_walking at 1. cbn [month day].
    rewrite Z.eqb_refl. cbn [orb].
    unfold sub_one_day at 1. cbn [year month day].
    replace (1 <? Z.of_nat (S (S n))) with true by (symmetry; apply Z.ltb_lt; lia).
    replace (Z.of_nat (S (S n)) - 1) with (Z.of_nat (S n)) by lia.
    exact IH.
Qed.

Lemma walk_back_stops o c fuel :
  month c <> month o -> day c <= day o ->
  walk_back (S fuel) o c = Ok c.
Proof.
  intros Hm Hd. simpl. unfold keeps_walking.
  replace (month c =? month o) with false by (symmetry; apply Z.eqb_neq; lia).
  replace (day o <? day c) with false by (symmetry; apply Z.ltb_ge; lia).
  reflexivity.
Qed.

(** Phase two: in another month, the days above [day o] are skipped. *)
Lemma walk_back_other_month o y m n fuel :
  m <> month o -> 1 <= day o ->
  walk_back (S n + fuel) o (mkdate y m (day o + Z.of_nat n)) =
  Ok (mkdate y m (day o)).
Proof.
  intros Hm Hd. induction n as [|n IH].
  - replace (day o + Z.of_nat 0) with (day o) by lia.
    apply walk_back_stops; simpl; lia.
  - change (S (S n) + fuel)%nat with (S (S n + fuel)).
    cbn [walk_back]. unfold keeps_walking at 1. cbn [month day].
    replace (m =? month o) with false by (symmetry; apply Z.eqb_neq; lia).
    replace (day o <? day o + Z.of_nat (S n)) with true
      by (symmetry; apply Z.ltb_lt; lia).
    cbn [orb]. unfold sub_one_day at 1. cbn [year month day].
    replace (1 <? day o + Z.of_nat (S n)) with true
      by (symmetry; apply Z.ltb_lt; lia).
    replace (day o + Z.of_nat (S n) - 1) with (day o + Z.of_nat n) by lia.
    exact IH.
Qed.

Lemma last_of_previous_month_ok y m :
  1 <= m -> ~ (y <= 1 /\ m = 1) ->
  last_of_previous_month y m =
  Ok (if 1 <? m then mkdate y (m - 1) (days_in_month y (m - 1))
      else mkdate (y - 1) 12 31).
Proof.
  intros Hm Hy. unfold last_of_previous_month, sub_one_day, MINYEAR. simpl.
  destruct (Z.ltb_spec 1 m); [reflexivity|].
  destruct (Z.ltb_spec 1 y); [reflexivity|lia].
Qed.

Lemma walk_back_from_month_end o y m L fuel :
  m <> month o -> 1 <= day o -> 0 <= L ->
  (Z.to_nat (L - day o) < fuel)%nat ->
  walk_back fuel o (mkdate y m L) = Ok (mkdate y m (Z.min (day o) L)).
Proof.
  intros Hm Hd HL Hf.
  destruct (Z.le_gt_cases L (day o)) as [Hle|Hgt].
  - replace (Z.min (day o) L) with L by lia.
    destruct fuel as [|fuel]; [lia|].
    apply walk_back_stops; simpl; lia.
  - replace (Z.min (day o) L) with (day o) by lia.
    remember (Z.to_nat (L - day o)) as n eqn:En.
    assert (EL : L = day o + Z.of_nat n) by lia.
    assert (Ef : fuel = (S n + (fuel - S n))%nat) by lia.
    rewrite EL, Ef. apply walk_back_other_month; assumption.
Qed.

Lemma subtract_one_month_closed_form D fuel :
  valid_date D = true -> after_first_month D = true -> (31 <= fuel)%nat ->
  subtract_one_month fuel D = Ok (month_before D).
Proof.
  intros V A Hf. apply after_first_month_spec in A; [|assumption].
  apply valid_date_spec in V. destruct D as [y m d]. simpl in *.
  pose proof (days_in_month_bounds y (m - 1)) as HL.
  pose proof (days_in_month_bounds y m) as HLm.
  assert (Hprev : forall f,
             (31 <= f + Z.to_nat (d - 1))%nat ->
             (p ← last_of_previous_month y m; walk_back f (mkdate y m d) p)
             = Ok (month_before (mkdate y m d))).
  { intros f Hf'. rewrite last_of_previous_month_ok by lia.
    unfold month_before. simpl.
    destruct (Z.ltb_spec 1 m).
    - apply (walk_back_from_month_end (mkdate y m d)); simpl; lia.
    - replace (d) with (Z.min d 31) at 2 by lia.
      apply (walk_back_from_month_end (mkdate y m d)); simpl; lia. }
  unfold subtract_one_month, sub_one_day. simpl.
  destruct (Z.ltb_spec 1 d) as [Hd|Hd].
  - simpl.
    pose proof (walk_back_same_month (mkdate y m d) (Z.to_nat (d - 2))
                  (fuel - S (Z.to_nat (d - 2)))) as E.
    simpl year in E. simpl month in E.
    replace (S (Z.to_nat (d - 2)) + (fuel - S (Z.to_nat (d - 2))))%nat
      with fuel in E by lia.
    replace (Z.of_nat (S (Z.to_nat (d - 2)))) with (d - 1) in E by lia.
    rewrite E. apply Hprev. lia.
  - assert (d = 1) by lia. subst d.
    fold (sub_one_day (mkdate y m 1)).
    apply (Hprev fuel). lia.
Qed.

Lemma month_before_valid D :
  valid_date D = true -> after_first_month D = true ->
  valid_date (month_before D) = true.
Proof.
  intros V A. apply after_first_month_spec in A; [|assumption].
  apply valid_date_spec in V. apply valid_date_spec.
  destruct D as [y m d]. unfold month_before. simpl in *.
  pose proof (days_in_month_bounds y (m - 1)).
  destruct (Z.ltb_spec 1 m); simpl.
  - lia.
  - assert (m = 1) by lia. subst m.
    change (days_in_month (y - 1) 12) with 31.
    change (days_in_month y 1) with 31 in V. lia.
Qed.

Lemma month_before_latest D :
  valid_date D = true -> after_first_month D = true ->
  latest_month_before D (month_before D).
Proof.
  intros V A. apply after_first_month_spec in A; [|assumption].
  apply valid_date_spec in V.
  destruct D as [y m d]. unfold latest_month_before, month_before.
  simpl in *.
  pose proof (days_in_month_bounds y (m - 1)) as HL.
  destruct (Z.ltb_spec 1 m) as [Hm|Hm]; rewrite !ltb_spec; simpl.
  - repeat split; try lia.
    intros [y' m' d'] V'%valid_date_spec. rewrite !ltb_spec. simpl in *.
    intros H1 H2 [H3 H4].
    assert (y' = y) by lia. subst y'.
    assert (m' = m - 1) by lia. subst m'. lia.
  - assert (m = 1) by lia. subst m.
    change (days_in_month y 1) with 31 in V.
    repeat split; try lia.
    intros [y' m' d'] V'%valid_date_spec. rewrite !ltb_spec. simpl in *.
    intros H1 H2 [H3 H4]. lia.
Qed.

Lemma month_before_ordinal D :
  valid_date D = true -> after_first_month D = true ->
  1 <= toordinal D - toordinal (month_before D) <= 31.
Proof.
  intros V A. apply after_first_month_spec in A; [|assumption].
  apply valid_date_spec in V.
  destruct D as [y m d]. unfold month_before, toordinal. simpl in *.
  pose proof (days_in_month_bounds y (m - 1)) as HL.
  pose proof (days_in_month_bounds y m) as HLm.
  destruct (Z.ltb_spec 1 m) as [Hm|Hm]; simpl.
  - rewrite (days_before_month_step y m) by lia. lia.
  - assert (m = 1) by lia. subst m.
    pose proof (days_before_year_step (y - 1)) as E.
    replace (y - 1 + 1) with y in E by lia. rewrite E.
    unfold days_before_month. simpl.
    destruct (is_leap (y - 1)); lia.
Qed.

(** The two copies of the function are the same function. *)
Lemma v0_subtract_one_month fuel D :
  V0.EnterpriseEnrollmentsViewSet.subtract_one_month fuel D =
  V1.subtract_one_month fuel D.
Proof. reflexivity. Qed.

(** In the first month of year 1 the walk leaves the range of [date]. *)
Lemma walk_back_first_month n fuel o :
  year o = 1 -> month o = 1 ->
  walk_back (S n + fuel) o (mkdate 1 1 (Z.of_nat (S n))) = Raise OverflowError.
Proof.
  intros Hy Hm.
  pose proof (walk_back_same_month o n fuel) as E.
  rewrite Hy, Hm in E. rewrite E. reflexivity.
Qed.

Lemma subtract_one_month_first_month D fuel :
  valid_date D = true -> after_first_month D = false ->
  (31 <= fuel)%nat ->
  subtract_one_month fuel D = Raise OverflowError.
Proof.
  intros V A Hf.
  assert (year D = 1 /\ month D = 1) as [Hy Hm].
  { destruct (after_first_month_spec D V) as [_ H].
    destruct (Z.eq_dec (year D) 1), (Z.eq_dec (month D) 1); try lia;
      rewrite H in A by lia; discriminate. }
  apply valid_date_spec in V. destruct D as [y m d]. simpl in *. subst y m.
  change (days_in_month 1 1) with 31 in V.
  unfold subtract_one_month, sub_one_day, MINYEAR. simpl.
  destruct (Z.ltb_spec 1 d) as [Hd|Hd]; [|reflexivity].
  simpl.
  pose proof (walk_back_first_month (Z.to_nat (d - 2))
                (fuel - S (Z.to_nat (d - 2))) (mkdate 1 1 d) eq_refl eq_refl) as E.
  replace (S (Z.to_nat (d - 2)) + (fuel - S (Z.to_nat (d - 2))))%nat
    with fuel in E by lia.
  replace (Z.of_nat (S (Z.to_nat (d - 2)))) with (d - 1) in E by lia.
  exact E.
Qed.

(** A result is the same for every amount of fuel that gives one. *)
Lemma subtract_one_month_fuel_irrelevant f1 f2 D r1 r2 :
  subtract_one_month f1 D = r1 -> r1 <> OutOfFuel ->
  subtract_one_month f2 D = r2 -> r2 <> OutOfFuel ->
  r1 = r2.
Proof.
  intros E1 N1 E2 N2. subst r1 r2.
  destruct (Nat.le_ge_cases f1 f2) as [H|H].
  - replace f2 with (f1 + (f2 - f1))%nat by lia.
    symmetry. apply subtract_one_month_more_fuel. assumption.
  - replace f1 with (f2 + (f1 - f2))%nat by lia.
    apply subtract_one_month_more_fuel. assumption.
Qed.

Lemma sub_days_ordinal n d p :
  valid_date d = true -> sub_days n d = Ok p ->
  valid_date p = true /\ toordinal p = toordinal d - Z.of_nat n.
Proof.
  revert d. induction n as [|n IH]; intros d V E.
  - inversion E; subst. split; [assumption|]. lia.
  - cbn [sub_days] in E.
    destruct (sub_one_day d) as [q| |] eqn:Eq; try discriminate E.
    destruct (sub_one_day_ordinal d q V Eq) as [Vq Oq].
    destruct (IH q Vq E) as [Vp Op]. split; [assumption|]. lia.
Qed.

Lemma subtract_one_month_inv fuel D R :
  valid_date D = true ->
  subtract_one_month fuel D = Ok R ->
  after_first_month D = true /\ R = month_before D.
Proof.
  intros V E.
  assert (E' : subtract_one_month (fuel + 31) D = Ok R).
  { rewrite subtract_one_month_more_fuel; rewrite E;
      [reflexivity|discriminate]. }
  destruct (after_first_month D) eqn:A.
  - rewrite subtract_one_month_closed_form in E'
      by (assumption || lia).
    split; congruence.
  - rewrite subtract_one_month_first_month in E'
      by (assumption || lia).
    discriminate E'.
Qed.


(** *** When the date arithmetic returns *)

Lemma days_before_year_lower y : 1 <= y -> 365 * (y - 1) <= days_before_year y.
Proof.
  intros H. unfold days_before_year. cbv zeta.
  Z.to_euclidean_division_equations. lia.
Qed.

Lemma days_before_month_lower y m :
  1 <= m <= 12 ->
  0 <= days_before_month y m /\ (2 <= m -> 31 <= days_before_month y m).
Proof.
  intros Hm.
  assert (m = 1 \/ m = 2 \/ m = 3 \/ m = 4 \/ m = 5 \/ m = 6 \/ m = 7
          \/ m = 8 \/ m = 9 \/ m = 10 \/ m = 11 \/ m = 12) as Hcases by lia.
  unfold days_before_month.
  repeat (destruct Hcases as [->|Hcases]); [..|subst m];
    simpl; destruct (is_leap y); lia.
Qed.

Lemma toordinal_after_first_month D :
  valid_date D = true -> after_first_month D = true -> 32 <= toordinal D.
Proof.
  intros V A. apply after_first_month_spec in A; [|assumption].
  apply valid_date_spec in V. destruct D as [y m d].
  unfold toordinal. simpl in *.
  pose proof (days_before_year_lower y ltac:(lia)).
  pose proof (days_before_month_lower y m ltac:(lia)).
  destruct (Z.eq_dec y 1) as [->|]; lia.
Qed.

Lemma sub_one_day_ok d :
  valid_date d = true -> 1 < toordinal d -> exists p, sub_one_day d = Ok p.
Proof.
  intros V H. destruct (sub_one_day d) as [p|e|] eqn:E; [eauto| |].
  - assert (e = OverflowError) as ->.
    { unfold sub_one_day in E.
      repeat match type of E with
             | (if ?b then _ else _) = _ => destruct b
             end; congruence. }
    apply sub_one_day_raises in E; [|assumption]. subst d.
    vm_compute in H. discriminate H.
  - unfold sub_one_day in E.
    repeat match type of E with
           | (if ?b then _ else _) = _ => destruct b
           end; discriminate E.
Qed.

Lemma sub_days_ok n d :
  valid_date d = true -> Z.of_nat n < toordinal d ->
  exists p, sub_days n d = Ok p.
Proof.
  revert d. induction n as [|n IH]; intros d V H; [simpl; eauto|].
  destruct (sub_one_day_ok d V ltac:(lia)) as [q Eq].
  destruct (sub_one_day_ordinal d q V Eq) as [Vq Oq].
  destruct (IH q Vq ltac:(lia)) as [p Ep].
  exists p. cbn [sub_days]. rewrite Eq. exact Ep.
Qed.

End DateFacts.

(** ** Dates: order, ordinals and the month before *)

Module DateOrder.
Import PyDate Spec DateFacts.
Import V1.

Lemma leb_spec a b :
  leb a b = true <->
  year a < year b
  \/ (year a = year b
      /\ (month a < month b \/ (month a = month b /\ day a <= day b))).
Proof.
  unfold leb, eqb. rewrite orb_true_iff, ltb_spec, !andb_true_iff, !Z.eqb_eq.
  lia.
Qed.

Lemma leb_trans a b c : leb a b = true -> leb b c = true -> leb a c = true.
Proof. rewrite !leb_spec. lia. Qed.

Lemma leb_total a b : leb a b = true \/ ltb b a = true.
Proof. rewrite leb_spec, ltb_spec. lia. Qed.

Lemma days_before_year_mono y y' :
  y <= y' -> days_before_year y <= days_before_year y'.
Proof.
  intros H. unfold days_before_year. cbv zeta.
  Z.to_euclidean_division_equations. lia.
Qed.

Lemma days_before_month_mono y m m' :
  1 <= m -> m <= m' -> m' <= 12 ->
  days_before_month y m <= days_before_month y m'.
Proof.
  intros H1 H2 H3.
  replace m' with (m + Z.of_nat (Z.to_nat (m' - m))) in * by lia.
  generalize dependent (Z.to_nat (m' - m)). intros k.
  induction k as [|k IH]; intros _ Hk.
  - replace (m + Z.of_nat 0) with m by lia. lia.
  - pose proof (days_before_month_step y (m + Z.of_nat (S k)) ltac:(lia)) as E.
    replace (m + Z.of_nat (S k) - 1) with (m + Z.of_nat k) in E by lia.
    pose proof (days_in_month_bounds y (m + Z.of_nat k)).
    specialize (IH ltac:(lia) ltac:(lia)). lia.
Qed.

(** The days of a year up to the end of a month fit in the year. *)
Lemma days_before_month_end y m :
  1 <= m <= 12 ->
  days_before_month y m + days_in_month y m
  <= (if is_leap y then 366 else 365).
Proof.
  intros Hm.
  assert (m = 1 \/ m = 2 \/ m = 3 \/ m = 4 \/ m = 5 \/ m = 6 \/ m = 7
          \/ m = 8 \/ m = 9 \/ m = 10 \/ m = 11 \/ m = 12) as Hcases by lia.
  unfold days_before_month, days_in_month.
  repeat (destruct Hcases as [-> | Hcases]); [..|subst m];
    simpl; destruct (is_leap y); lia.
Qed.

(** [toordinal] grows with the order of the dates. *)
Lemma toordinal_lt a b :
  valid_date a = true -> valid_date b = true ->
  ltb a b = true -> toordinal a < toordinal b.
Proof.
  intros Va%valid_date_spec Vb%valid_date_spec H%ltb_spec.
  destruct a as [y m d], b as [y' m' d']. unfold toordinal. simpl in *.
  destruct H as [Hy|[-> [Hm|[-> Hd]]]].
  - pose proof (days_before_month_end y m ltac:(lia)).
    pose proof (days_before_year_step y) as E.
    pose proof (days_before_year_mono (y + 1) y' ltac:(lia)).
    pose proof (days_before_month_lower y' m' ltac:(lia)).
    destruct (is_leap y); lia.
  - pose proof (days_before_month_step y' (m + 1) ltac:(lia)) as E.
    replace (m + 1 - 1) with m in E by lia.
    pose proof (days_before_month_mono y' (m + 1) m' ltac:(lia) ltac:(lia) ltac:(lia)).
    lia.
  - lia.
Qed.

Lemma toordinal_leb a b :
  valid_date a = true -> valid_date b = true ->
  (leb a b = true <-> toordinal a <= toordinal b).
Proof.
  intros Va Vb. split.
  - intros H. unfold leb in H. apply orb_true_iff in H as [H|H].
    + pose proof (toordinal_lt a b Va Vb H). lia.
    + unfold eqb in H. rewrite !andb_true_iff, !Z.eqb_eq in H.
      destruct a, b; simpl in *. destruct H as [[-> ->] ->]. lia.
  - intros H. destruct (leb_total a b) as [Hle|Hlt]; [exact Hle|].
    pose proof (toordinal_lt b a Vb Va Hlt). lia.
Qed.

Lemma month_before_ordinal_28 D :
  valid_date D = true -> after_first_month D = true ->
  28 <= toordinal D - toordinal (month_before D) <= 31.
Proof.
  intros V A. apply after_first_month_spec in A; [|assumption].
  apply valid_date_spec in V.
  destruct D as [y m d]. unfold month_before, toordinal. simpl in *.
  pose proof (days_in_month_bounds y (m - 1)) as HL.
  pose proof (days_in_month_bounds y m) as HLm.
  destruct (Z.ltb_spec 1 m) as [Hm|Hm]; simpl.
  - rewrite (days_before_month_step y m) by lia. lia.
  - assert (m = 1) by lia. subst m.
    pose proof (days_before_year_step (y - 1)) as E.
    replace (y - 1 + 1) with y in E by lia. rewrite E.
    unfold days_before_month. simpl.
    destruct (is_leap (y - 1)); lia.
Qed.

(** The day a month ago is not later than the day a week ago. *)
Lemma month_ago_before_week_ago fuel D W M :
  valid_date D = true ->
  sub_weeks 1 D = Ok W -> subtract_one_month fuel D = Ok M ->
  leb M W = true.
Proof.
  intros V HW HM.
  destruct (subtract_one_month_inv _ _ _ V HM) as [A ->].
  destruct (sub_days_ordinal _ _ _ V HW) as [VW OW].
  pose proof (month_before_ordinal_28 D V A).
  apply toordinal_leb; [apply month_before_valid; assumption|assumption|].
  lia.
Qed.

End DateOrder.

(** ** The claims on [subtract_one_month] *)

Section SubtractOneMonthClaims.
Import PyDate Spec DateFacts.

(** C2 (counterexample). The specification states it "for every date".
    0001-01-01 is a date, and on it [subtract_one_month] raises
    [OverflowError] whatever the fuel: it returns no date. *)
Lemma subtract_one_month_of_date_min :
  valid_date (mkdate 1 1 1) = true
  /\ (forall fuel, V1.subtract_one_month fuel (mkdate 1 1 1) = Raise OverflowError)
  /\ ~ (exists fuel R,
          V1.subtract_one_month fuel (mkdate 1 1 1) = Ok R
          /\ latest_month_before (mkdate 1 1 1) R).
Proof.
  split; [reflexivity|]. split; [reflexivity|].
  intros (fuel & R & H & _). discriminate H.
Qed.

(** C2 (amended). For every date [D] from 0001-02-01 on,
    [subtract_one_month] (of v1 and of v0) returns the latest date before
    [D] whose month differs from that of [D] and whose day of the month
    does not exceed that of [D]; 2024-03-31 gives 2024-02-29 and
    2023-03-31 gives 2023-02-28. On the dates of January of year 1 the
    function raises [OverflowError]. *)
Theorem subtract_one_month_latest :
  (forall (D : date) (fuel : nat),
      valid_date D = true -> after_first_month D = true ->
      (31 <= fuel)%nat ->
      exists R,
        V1.subtract_one_month fuel D = Ok R
        /\ V0.EnterpriseEnrollmentsViewSet.subtract_one_month fuel D = Ok R
        /\ valid_date R = true
        /\ latest_month_before D R)
  /\ (forall fuel, (31 <= fuel)%nat ->
        V1.subtract_one_month fuel (mkdate 2024 3 31) = Ok (mkdate 2024 2 29))
  /\ (forall fuel, (31 <= fuel)%nat ->
        V1.subtract_one_month fuel (mkdate 2023 3 31) = Ok (mkdate 2023 2 28))
  /\ (forall (D : date) (fuel : nat),
        valid_date D = true -> after_first_month D = false ->
        (31 <= fuel)%nat ->
        V1.subtract_one_month fuel D = Raise OverflowError).
Proof.
  split; [|split; [|split]]; [| | |exact subtract_one_month_first_month].
  - intros D fuel V A Hf. exists (month_before D).
    change (V0.EnterpriseEnrollmentsViewSet.subtract_one_month fuel D)
      with (V1.subtract_one_month fuel D).
    rewrite subtract_one_month_closed_form by assumption.
    auto using month_before_valid, month_before_latest.
  - intros fuel Hf.
    rewrite subtract_one_month_closed_form by (reflexivity || assumption).
    reflexivity.
  - intros fuel Hf.
    rewrite subtract_one_month_closed_form by (reflexivity || assumption).
    reflexivity.
Qed.

Lemma subtract_one_month_latest_witness :
  exists R,
    V1.subtract_one_month 31 (mkdate 2024 5 31) = Ok R
    /\ V0.EnterpriseEnrollmentsViewSet.subtract_one_month 31 (mkdate 2024 5 31) = Ok R
    /\ valid_date R = true
    /\ latest_month_before (mkdate 2024 5 31) R.
Proof.
  apply (proj1 subtract_one_month_latest (mkdate 2024 5 31) 31%nat);
    [reflexivity | reflexivity | lia].
Defined.

(** C10 (counterexample). The specification states it "for every
    representable input date". From 0001-01-31 the walk passes the thirty
    earlier days of January of year 1 and then leaves the range of
    [date]: with 31 steps or more it raises [OverflowError], and no
    number of steps reaches a date. *)
Lemma subtract_one_month_walks_out_of_range :
  valid_date (mkdate 1 1 31) = true
  /\ V1.subtract_one_month 31 (mkdate 1 1 31) = Raise OverflowError
  /\ ~ (exists fuel R,
          V1.subtract_one_month fuel (mkdate 1 1 31) = Ok R
          /\ month R <> month (mkdate 1 1 31)
          /\ day R <= day (mkdate 1 1 31)).
Proof.
  split; [reflexivity|]. split; [reflexivity|].
  intros (fuel & R & H & _).
  assert (Ok R = Raise OverflowError) as E; [|discriminate E].
  apply (subtract_one_month_fuel_irrelevant fuel 31 (mkdate 1 1 31));
    [exact H | discriminate | reflexivity | discriminate].
Qed.

(** C10 (amended). For every date [D] from 0001-02-01 on the loop of
    [subtract_one_month] terminates: a step of the walk is one day back,
    and after at most 31 evaluations of its guard (so within the bound of
    about 62 days) it has reached a date, between 1 and 31 days before
    [D], whose month differs from that of [D] and whose day of the month
    does not exceed that of [D]. On the dates of January of year 1 the
    walk leaves the range of [date] and raises [OverflowError]. *)
Theorem subtract_one_month_total :
  (forall c p : date,
      valid_date c = true -> sub_one_day c = Ok p ->
      valid_date p = true /\ toordinal p = toordinal c - 1)
  /\ (forall D : date,
        valid_date D = true -> after_first_month D = true ->
        exists R,
          (forall fuel, (31 <= fuel)%nat ->
             V1.subtract_one_month fuel D = Ok R
             /\ V0.EnterpriseEnrollmentsViewSet.subtract_one_month fuel D = Ok R)
          /\ month R <> month D /\ day R <= day D
          /\ 1 <= toordinal D - toordinal R <= 31)
  /\ (forall (D : date) (fuel : nat),
        valid_date D = true -> after_first_month D = false ->
        (31 <= fuel)%nat ->
        V1.subtract_one_month fuel D = Raise OverflowError).
Proof.
  split; [exact sub_one_day_ordinal|].
  split; [|exact subtract_one_month_first_month].
  intros D V A. exists (month_before D).
  destruct (month_before_latest D V A) as (_ & Hm & Hd & _).
  repeat split; try assumption.
  - apply subtract_one_month_closed_form; assumption.
  - change (V0.EnterpriseEnrollmentsViewSet.subtract_one_month fuel D)
      with (V1.subtract_one_month fuel D).
    apply subtract_one_month_closed_form; assumption.
  - apply month_before_ordinal; assumption.
  - apply month_before_ordinal; assumption.
Qed.

Lemma subtract_one_month_total_witness :
  exists R,
    (forall fuel, (31 <= fuel)%nat ->
       V1.subtract_one_month fuel (mkdate 2023 3 1) = Ok R
       /\ V0.EnterpriseEnrollmentsViewSet.subtract_one_month fuel (mkdate 2023 3 1) = Ok R)
    /\ month R <> month (mkdate 2023 3 1) /\ day R <= day (mkdate 2023 3 1)
    /\ 1 <= toordinal (mkdate 2023 3 1) - toordinal R <= 31.
Proof.
  apply (proj1 (proj2 subtract_one_month_total) (mkdate 2023 3 1));
    reflexivity.
Defined.

End SubtractOneMonthClaims.

(** ** The [offer_id] filter *)

Section OfferId.
Import EnterpriseLearnerEnrollment.
Import V1.EnterpriseLearnerEnrollmentViewSet.

(** What the filter compares the column with, for the two values the
    specification gives. *)
Lemma filter_by_offer_id_uuid4 queryset :
  filter_by_offer_id queryset "123e4567-e89b-42d3-a456-426614174000" =
  List.filter
    (fun e => Lookup.exact_str (offer_id e) "123e4567e89b42d3a456426614174000")
    queryset.
Proof. reflexivity. Qed.

Lemma filter_by_offer_id_integer queryset :
  filter_by_offer_id queryset "42" =
  List.filter (fun e => Lookup.exact_str (offer_id e) "42") queryset.
Proof. reflexivity. Qed.

(** A value that is not 32 characters long once [urn:], [uuid:], braces
    and hyphens are removed is compared as it is given. *)
Lemma filter_by_offer_id_as_given queryset value :
  String.length
    (PyStr.replace "-" ""
       (PyStr.strip "{}"
          (PyStr.replace "uuid:" "" (PyStr.replace "urn:" "" value))))
  <> 32%nat ->
  filter_by_offer_id queryset value =
  List.filter (fun e => Lookup.exact_str (offer_id e) value) queryset.
Proof.
  intros H. unfold filter_by_offer_id, PyUUID.UUID.
  apply Nat.eqb_neq in H. rewrite H. reflexivity.
Qed.

Lemma small_testbit_high (k n i : Z) :
  0 <= k < 2 ^ n -> 0 <= n <= i -> Z.testbit k i = false.
Proof.
  intros Hk Hi. destruct (Z.eq_dec k 0) as [->|Hne]; [apply Z.bits_0|].
  apply Z.bits_above_log2; [lia|].
  apply Z.log2_lt_pow2; [lia|].
  apply Z.lt_le_trans with (2 ^ n); [lia|].
  apply Z.pow_le_mono_r; lia.
Qed.

(** Whatever text [UUID(offer_id, version=4)] accepts, the UUID it makes
    has version 4 and the RFC 4122 variant: the version of the text is
    overwritten, not checked. *)
Lemma UUID_forces_version hex n :
  PyUUID.UUID hex 4 = Ok n ->
  Z.land (Z.shiftr n 76) 15 = 4 /\ Z.land (Z.shiftr n 62) 3 = 2.
Proof.
  unfold PyUUID.UUID.
  destruct (negb _); [discriminate|].
  destruct (PyInt.int16 _) as [x| |]; simpl; try discriminate.
  destruct (negb _); [discriminate|].
  intros E. inversion E; subst n; clear E. split.
  - apply Z.bits_inj'. intros i Hi.
    rewrite Z.land_spec, Z.shiftr_spec by lia.
    rewrite Z.lor_spec, Z.land_spec, Z.lnot_spec by lia.
    rewrite !Z.shiftl_spec by lia.
    replace (i + 76 - 64) with (i + 12) by lia.
    replace (i + 76 - 76) with i by lia.
    destruct (Z.lt_ge_cases i 4) as [Hlt|Hge].
    + assert (i = 0 \/ i = 1 \/ i = 2 \/ i = 3) as [-> | [-> | [-> | ->]]] by lia;
        simpl; rewrite ?andb_false_r; reflexivity.
    + rewrite (small_testbit_high 15 4 i) by lia.
      rewrite (small_testbit_high 4 4 i) by lia.
      rewrite andb_false_r. reflexivity.
  - apply Z.bits_inj'. intros i Hi.
    rewrite Z.land_spec, Z.shiftr_spec by lia.
    rewrite Z.lor_spec, Z.land_spec, Z.lnot_spec by lia.
    rewrite Z.lor_spec, Z.land_spec, Z.lnot_spec by lia.
    rewrite !Z.shiftl_spec by lia.
    replace (i + 62 - 64) with (i - 2) by lia.
    replace (i + 62 - 76) with (i - 14) by lia.
    replace (i + 62 - 48) with (i + 14) by lia.
    destruct (Z.lt_ge_cases i 2) as [Hlt|Hge].
    + assert (i = 0 \/ i = 1) as [-> | ->] by lia;
        simpl; rewrite ?andb_false_r, ?andb_true_r, ?orb_false_r, ?orb_true_r; reflexivity.
    + rewrite (small_testbit_high 3 2 i) by lia.
      rewrite (small_testbit_high 2 2 i) by lia.
      rewrite andb_false_r. reflexivity.
Qed.

(** C3 (the code at the failing input). The text
    123e4567-e89b-12d3-a456-426614174000 is a UUID of version 1.
    [UUID(offer_id, version=4)] does not reject it: it sets the version
    and variant bits, so the column is compared with
    123e4567e89b42d3a456426614174000, which is neither the value as given
    nor its lower-case form without hyphens. An enrollment stored under
    the latter is not found, one stored under the other offer is. *)
Theorem filter_by_offer_id_overwrites_version :
  (forall queryset,
      filter_by_offer_id queryset "123e4567-e89b-12d3-a456-426614174000" =
      List.filter
        (fun e => Lookup.exact_str (offer_id e) "123e4567e89b42d3a456426614174000")
        queryset)
  /\ PyStr.replace "-" "" (PyStr.lower "123e4567-e89b-12d3-a456-426614174000")
     = "123e4567e89b12d3a456426614174000"
  /\ filter_by_offer_id [Sample.with_offer "123e4567e89b12d3a456426614174000"]
       "123e4567-e89b-12d3-a456-426614174000" = []
  /\ filter_by_offer_id [Sample.with_offer "123e4567e89b42d3a456426614174000"]
       "123e4567-e89b-12d3-a456-426614174000"
     = [Sample.with_offer "123e4567e89b42d3a456426614174000"].
Proof. repeat split; reflexivity. Qed.

End OfferId.

(** ** Lists and lookups *)

Section ListFacts.
Context {A : Type}.

Lemma filter_absorb (p q : A -> bool) (l : list A) :
  (forall x, p x = true -> q x = true) ->
  List.filter p (List.filter q l) = List.filter p l.
Proof.
  intros Hpq. induction l as [|x l IH]; simpl; [reflexivity|].
  destruct (q x) eqn:Hq; simpl.
  - rewrite IH. reflexivity.
  - destruct (p x) eqn:Hp; [|exact IH].
    apply Hpq in Hp. congruence.
Qed.

Lemma filter_all (p : A -> bool) (l : list A) :
  Forall (fun x => p x = true) l -> List.filter p l = l.
Proof.
  induction 1 as [|x l Hx _ IH]; simpl; [reflexivity|].
  rewrite Hx, IH. reflexivity.
Qed.

Lemma filter_Forall (p : A -> bool) (l : list A) :
  Forall (fun x => p x = true) (List.filter p l).
Proof.
  apply Forall_forall. intros x Hx%list_elem_of_In%filter_In. tauto.
Qed.

Lemma filter_keeps (P : A -> Prop) (p : A -> bool) (l : list A) :
  Forall P l -> Forall P (List.filter p l).
Proof.
  induction 1 as [|x l Hx _ IH]; simpl; [constructor|].
  destruct (p x); [constructor|]; assumption.
Qed.


Lemma remove_dups_constant `{EqDecision A} (c : A) (l : list A) :
  l <> [] -> Forall (fun x => x = c) l -> remove_dups l = [c].
Proof.
  intros Hne Hall. induction Hall as [|x l -> Hall IH]; [congruence|].
  simpl. destruct l as [|y l].
  - destruct (decide_rel elem_of c []) as [Hin|_]; [|reflexivity].
    inversion Hin.
  - destruct (decide_rel elem_of c (y :: l)) as [_|Hnin].
    + apply IH. discriminate.
    + exfalso. apply Hnin. inversion Hall; subst. left.
Qed.

End ListFacts.

(** ** The learner listing and the completed courses *)

Module LearnerFacts.
Import EnterpriseLearnerEnrollment Spec.
Import V1 V1.EnterpriseLearnerViewSet.

(** The value an annotation gets from the rows of its subquery. *)
Lemma count_subquery_value db cond l :
  Lookup.Coalesce (Lookup.Subquery (count_subquery db cond l)) 0 =
  Some (distinct_count (qualifying cond db l)).
Proof.
  unfold count_subquery, qualifying.
  generalize (filter_Forall
                (fun e => (enterprise_user e
                           =? EnterpriseLearner.enterprise_user_id l) && cond e)
                (enrollments db)).
  generalize (List.filter
                (fun e => (enterprise_user e
                           =? EnterpriseLearner.enterprise_user_id l) && cond e)
                (enrollments db)).
  intros rows Hrows.
  assert (Hall : Forall (fun e => (enterprise_user e
                            =? EnterpriseLearner.enterprise_user_id l) = true) rows).
  { eapply Forall_impl; [exact Hrows|].
    simpl. intros e He. apply andb_true_iff in He. tauto. }
  clear Hrows. destruct rows as [|e rows']; [reflexivity|].
  rewrite (remove_dups_constant (EnterpriseLearner.enterprise_user_id l)).
  - unfold Lookup.Subquery, Lookup.Coalesce.
    cbn [fmap list_fmap head]. rewrite (filter_all _ _ Hall). reflexivity.
  - discriminate.
  - apply Forall_fmap. eapply Forall_impl; [exact Hall|].
    simpl. intros x Hx. apply Z.eqb_eq. exact Hx.
Qed.


Lemma get_queryset_rows clock db self log :
  exists queryset,
    (get_queryset clock db self log).1 = annotate db self <$> queryset.
Proof.
  unfold get_queryset. cbv zeta.
  destruct (is_str (QueryDict.get _ "has_enrollments") "true");
    [|destruct (is_str (QueryDict.get _ "has_enrollments") "false")];
    simpl; eexists; reflexivity.
Qed.

Lemma annotate_counts db self l :
  let extra_fields :=
    QueryDict.getlist (query_params (request self)) "extra_fields" in
  ("enrollment_count" ∈ extra_fields ->
   enrollment_count (annotate db self l)
   = Some (Some (consented_enrollment_count db l)))
  /\ ("course_completion_count" ∈ extra_fields ->
      course_completion_count (annotate db self l)
      = Some (Some (consented_completion_count db l))).
Proof.
  unfold annotate, enrollment_subquery_1, enrollment_subquery_2. simpl.
  split; intros H; rewrite bool_decide_eq_true_2 by exact H;
    rewrite count_subquery_value; reflexivity.
Qed.


End LearnerFacts.

(** ** The claims on consent and on the counts *)

Section ConsentClaims.
Import EnterpriseLearnerEnrollment Spec LearnerFacts.
Import V1.




(** C7. With [enrollment_count] (respectively [course_completion_count])
    among the [extra_fields] of the request, every learner the listing
    returns carries the number of distinct enrollments of that learner
    for which consent is granted (respectively that are also passed); it
    is 0, not NULL and not missing, for a learner with no such
    enrollment. *)
Theorem learner_counts clock db self log row :
  row ∈ (EnterpriseLearnerViewSet.get_queryset clock db self log).1 ->
  let extra_fields :=
    QueryDict.getlist (query_params (request self)) "extra_fields" in
  let l := EnterpriseLearnerViewSet.learner row in
  ("enrollment_count" ∈ extra_fields ->
   EnterpriseLearnerViewSet.enrollment_count row
   = Some (Some (consented_enrollment_count db l))
   /\ (qualifying consent_granted db l = [] ->
       EnterpriseLearnerViewSet.enrollment_count row = Some (Some 0)))
  /\ ("course_completion_count" ∈ extra_fields ->
      EnterpriseLearnerViewSet.course_completion_count row
      = Some (Some (consented_completion_count db l))
      /\ (qualifying (fun e => passed e && consent_granted e) db l = [] ->
          EnterpriseLearnerViewSet.course_completion_count row
          = Some (Some 0))).
Proof.
  intros Hin extra_fields l. subst l.
  destruct (get_queryset_rows clock db self log) as [qs Hqs].
  rewrite Hqs in Hin. apply list_elem_of_fmap in Hin as [l [-> _]].
  destruct (annotate_counts db self l) as [H1 H2].
  cbn [EnterpriseLearnerViewSet.learner annotate].
  split; intros Hf.
  - rewrite (H1 Hf). split; [reflexivity|].
    unfold consented_enrollment_count. intros ->. reflexivity.
  - rewrite (H2 Hf). split; [reflexivity|].
    unfold consented_completion_count. intros ->. reflexivity.
Qed.

Lemma learner_counts_witness :
  let self :=
    Sample.view Sample.ent "/learners/"
      [("extra_fields", ["enrollment_count"; "course_completion_count"])] in
  let row := EnterpriseLearnerViewSet.mkAnnotated Sample.bob (Some (Some 0))
               (Some (Some 0)) in
  row ∈ (EnterpriseLearnerViewSet.get_queryset Sample.clock Sample.db self []).1
  /\ EnterpriseLearnerViewSet.enrollment_count row = Some (Some 0)
  /\ EnterpriseLearnerViewSet.course_completion_count row = Some (Some 0).
Proof.
  intros self row.
  assert (Hin : row ∈ (EnterpriseLearnerViewSet.get_queryset Sample.clock
                         Sample.db self []).1).
  { apply list_elem_of_In. vm_compute. right. left. reflexivity. }
  split; [exact Hin|].
  pose proof (learner_counts Sample.clock Sample.db self [] row Hin) as [H1 H2].
  split.
  - apply H1; [apply list_elem_of_In; vm_compute; tauto | reflexivity].
  - apply H2; [apply list_elem_of_In; vm_compute; tauto | reflexivity].
Defined.

End ConsentClaims.

(** ** The [active_courses] filter of the learner listing *)

Section ActiveCoursesClaims.
Import EnterpriseLearnerEnrollment Spec.
Import V1 V1.EnterpriseLearnerViewSet.

Lemma filter_enrollments_spec db cond (queryset : list EnterpriseLearner.t) l :
  l ∈ filter_enrollments db cond queryset
  <-> l ∈ queryset /\ exists e, e ∈ related db l /\ cond e = true.
Proof.
  unfold filter_enrollments. rewrite list_elem_of_bind. split.
  - intros (l' & Hin & Hl'). apply list_elem_of_fmap in Hin as (e & -> & He).
    split; [exact Hl'|]. exists e.
    apply list_elem_of_In, filter_In in He as [He Hc].
    split; [|exact Hc]. apply list_elem_of_In. exact He.
  - intros (Hl & e & He & Hc). exists l. split; [|exact Hl].
    apply list_elem_of_fmap. exists e. split; [reflexivity|].
    apply list_elem_of_In, filter_In. split; [|exact Hc].
    apply list_elem_of_In. exact He.
Qed.

Lemma learner_of_annotated (f g : EnterpriseLearner.t -> option (option Z))
  (queryset : list EnterpriseLearner.t) :
  learner <$> ((fun l => mkAnnotated l (f l) (g l)) <$> queryset) = queryset.
Proof.
  induction queryset as [|l qs IH]; [reflexivity|].
  cbn [fmap list_fmap] in *. rewrite IH. reflexivity.
Qed.





End ActiveCoursesClaims.

(** ** The insights view *)

Section InsightsClaims.
Import V1.EnterpriseAdminInsightsView.

(** C6. The payload of [insights] has the key [learner_progress] iff the
    enterprise has a learner-progress row and the key
    [learner_engagement] iff it has a learner-engagement row, each with
    the serialized row; a missing row raises nothing; the status is 404
    iff both rows are missing and 200 iff at least one is there. The
    serializers give every row at least one field. *)
Theorem insights_payload
  (LearnerProgressRow SummarizeInsightsRow Json : Type)
  (progress_serializer : LearnerProgressRow -> gmap string Json)
  (insights_serializer : SummarizeInsightsRow -> gmap string Json)
  (db : Snapshots LearnerProgressRow SummarizeInsightsRow)
  (enterprise_id : string) :
  (forall row, progress_serializer row <> ∅) ->
  (forall row, insights_serializer row <> ∅) ->
  let progress := EnterpriseAdminLearnerProgress _ _ db !! enterprise_id in
  let engagement := EnterpriseAdminSummarizeInsights _ _ db !! enterprise_id in
  exists response,
    get _ _ _ progress_serializer insights_serializer db enterprise_id
    = Ok response
    /\ data _ response !! "learner_progress" = progress_serializer <$> progress
    /\ data _ response !! "learner_engagement" = insights_serializer <$> engagement
    /\ (forall key, is_Some (data _ response !! key) ->
          key = "learner_progress" \/ key = "learner_engagement")
    /\ (status _ response = HTTP_404_NOT_FOUND
        <-> progress = None /\ engagement = None)
    /\ (status _ response = HTTP_200_OK
        <-> is_Some progress \/ is_Some engagement)
    /\ HTTP_404_NOT_FOUND = 404 /\ HTTP_200_OK = 200.
Proof.
  intros Hp He progress engagement. subst progress engagement.
  unfold get, objects_get.
  destruct (EnterpriseAdminLearnerProgress _ _ db !! enterprise_id) as [p|];
    destruct (EnterpriseAdminSummarizeInsights _ _ db !! enterprise_id) as [s|];
    simpl; eexists; (split; [reflexivity|]); simpl.
  - rewrite (bool_decide_eq_false_2 (progress_serializer p = ∅)) by apply Hp.
    simpl. rewrite lookup_insert_ne by discriminate.
    rewrite !lookup_insert_eq.
    repeat split; try discriminate; eauto.
    + intros key [v Hv]. destruct (decide (key = "learner_engagement")); [tauto|].
      rewrite lookup_insert_ne in Hv by congruence.
      destruct (decide (key = "learner_progress")); [tauto|].
      rewrite lookup_insert_ne in Hv by congruence.
      rewrite lookup_empty in Hv. discriminate Hv.
    + intros [H _]; discriminate H.
  - rewrite (bool_decide_eq_false_2 (progress_serializer p = ∅)) by apply Hp.
    simpl. rewrite lookup_insert_eq, lookup_insert_ne by discriminate.
    rewrite lookup_empty.
    repeat split; try discriminate; eauto.
    + intros key [v Hv].
      destruct (decide (key = "learner_progress")); [tauto|].
      rewrite lookup_insert_ne in Hv by congruence.
      rewrite lookup_empty in Hv. discriminate Hv.
    + intros [H _]; discriminate H.
  - rewrite (bool_decide_eq_false_2 (insights_serializer s = ∅)) by apply He.
    rewrite andb_false_r.
    rewrite lookup_insert_ne by discriminate.
    rewrite lookup_insert_eq, lookup_empty.
    repeat split; try discriminate; eauto.
    + intros key [v Hv].
      destruct (decide (key = "learner_engagement")); [tauto|].
      rewrite lookup_insert_ne in Hv by congruence.
      rewrite lookup_empty in Hv. discriminate Hv.
    + intros [_ H]; discriminate H.
  - rewrite !lookup_empty.
    repeat split; try discriminate; eauto.
    + intros key [v Hv]. rewrite lookup_empty in Hv. discriminate Hv.
    + intros [[? H]|[? H]]; discriminate H.
Qed.

Lemma insights_payload_witness :
  let serializer : Z -> gmap string Z := fun row => {[ "total" := row ]} in
  let db := mkSnapshots Z Z {[ Sample.ent := 7 ]} ∅ in
  exists response,
    get Z Z Z serializer serializer db Sample.ent = Ok response
    /\ data Z response !! "learner_progress" = Some (serializer 7)
    /\ data Z response !! "learner_engagement" = None
    /\ status Z response = 200.
Proof.
  intros serializer db.
  destruct (insights_payload Z Z Z serializer serializer db Sample.ent)
    as (response & H1 & H2 & H3 & _ & _ & H6 & _ & H8);
    [intros row; apply map_non_empty_singleton
    |intros row; apply map_non_empty_singleton|].
  exists response. split; [exact H1|].
  split; [rewrite H2; reflexivity|].
  split; [rewrite H3; reflexivity|].
  rewrite <- H8. apply H6. left. exists 7. reflexivity.
Defined.

End InsightsClaims.

(** ** The filters of the enrollment list *)

Module FilterFacts.
Import PyDate Spec DateFacts.
Import EnterpriseLearnerEnrollment.
Import V1 V1.EnterpriseLearnerEnrollmentViewSet.

Section Keeps.
Variable P : EnterpriseLearnerEnrollment.t -> Prop.

Lemma when_given_keeps param f queryset :
  (forall v, narrowing P (f v)) ->
  Forall P queryset -> Forall P (when_given param f queryset).
Proof.
  intros Hf Hq. unfold when_given.
  destruct param as [v|]; [|exact Hq].
  destruct (truthy (Some v)); [apply Hf|]; exact Hq.
Qed.

Lemma when_given_coerced_keeps {A : Type} param (prep : string -> result A)
  f queryset result :
  (forall a, narrowing P (f a)) ->
  when_given_coerced param prep f queryset = Ok result ->
  Forall P queryset -> Forall P result.
Proof.
  intros Hf E Hq. unfold when_given_coerced in E.
  destruct param as [v|]; [|congruence].
  destruct (truthy (Some v)); [|congruence].
  destruct (prep v) as [a| |]; simpl in E; try discriminate E.
  inversion E; subst. apply Hf. exact Hq.
Qed.

Lemma filter_narrowing p : narrowing P (List.filter p).
Proof. intros queryset. apply filter_keeps. Qed.

Lemma filter_by_offer_id_narrowing v :
  narrowing P (fun queryset => filter_by_offer_id queryset v).
Proof. intros queryset. unfold filter_by_offer_id. apply filter_keeps. Qed.
End Keeps.

Lemma apply_filters_inv fuel orm clock self queryset result :
  apply_filters fuel orm clock self queryset = Ok result ->
  exists past_week_date past_month_date,
    sub_weeks 1 (today clock) = Ok past_week_date
    /\ subtract_one_month fuel (today clock) = Ok past_month_date
    /\ forall P : EnterpriseLearnerEnrollment.t -> Prop,
         Forall P (after_learner_activity clock self past_week_date
                     past_month_date queryset) ->
         Forall P result.
Proof.
  unfold apply_filters. cbv zeta.
  destruct (sub_weeks 1 (today clock)) as [w| |]; try discriminate.
  destruct (subtract_one_month fuel (today clock)) as [m| |]; try discriminate.
  cbn [mbind result_bind].
  fold (after_learner_activity clock self w m queryset).
  intros H. exists w, m. split; [reflexivity|]. split; [reflexivity|].
  intros P HP. revert H HP.
  generalize (after_learner_activity clock self w m queryset) as qs.
  intros qs H HP.
  match type of H with
  | context [when_given_coerced ?p ?prep ?f ?q] =>
      destruct (when_given_coerced p prep f q) as [qs1| |] eqn:E1;
      try discriminate H
  end.
  cbn [mbind result_bind] in H.
  match type of H with
  | context [when_given_coerced ?p ?prep ?f ?q] =>
      destruct (when_given_coerced p prep f q) as [qs2| |] eqn:E2;
      try discriminate H
  end.
  cbn [mbind result_bind] in H.
  match type of H with
  | context [when_given_coerced ?p ?prep ?f ?q] =>
      destruct (when_given_coerced p prep f q) as [qs3| |] eqn:E3;
      try discriminate H
  end.
  cbn [mbind result_bind] in H. inversion H; subst result; clear H.
  eapply when_given_coerced_keeps; [|exact E3|].
  { intros a. apply filter_narrowing. }
  repeat (apply when_given_keeps;
          [intros v; first [apply filter_narrowing
                           |apply filter_by_offer_id_narrowing]|]).
  eapply when_given_coerced_keeps; [|exact E2|].
  { intros a. apply filter_narrowing. }
  repeat (apply when_given_keeps;
          [intros v; first [apply filter_narrowing
                           |apply filter_by_offer_id_narrowing]|]).
  eapply when_given_coerced_keeps; [|exact E1|].
  { intros a. apply filter_narrowing. }
  repeat (apply when_given_keeps;
          [intros v; first [apply filter_narrowing
                           |apply filter_by_offer_id_narrowing]|]).
  exact HP.
Qed.

Lemma when_given_coerced_ok {A : Type} param (prep : string -> result A)
  f queryset :
  (forall v, param = Some v -> v <> "" -> exists a, prep v = Ok a) ->
  exists result, when_given_coerced param prep f queryset = Ok result.
Proof.
  intros H. unfold when_given_coerced.
  destruct param as [v|]; [|eauto].
  destruct (truthy (Some v)) eqn:T; [|eauto].
  destruct (H v eq_refl) as [a Ea].
  - intros ->. discriminate T.
  - rewrite Ea. simpl. eauto.
Qed.

(** [apply_filters] returns when today is a date with a month before it
    and the ORM can coerce the values of [search_start_date], [budget_id]
    and [is_subsidy]. *)
Lemma apply_filters_returns fuel orm clock self queryset :
  let query_filters := query_params (request self) in
  valid_date (today clock) = true ->
  after_first_month (today clock) = true ->
  (31 <= fuel)%nat ->
  (forall v, QueryDict.get query_filters "search_start_date" = Some v ->
             v <> "" -> exists t, prep_course_start_date orm v = Ok t) ->
  (forall v, QueryDict.get query_filters "budget_id" = Some v ->
             v <> "" -> exists u, UUIDField.to_python v = Ok u) ->
  (forall v, QueryDict.get query_filters "is_subsidy" = Some v ->
             v <> "" -> exists b, prep_is_subsidy orm v = Ok b) ->
  exists result, apply_filters fuel orm clock self queryset = Ok result.
Proof.
  intros query_filters V A Hf H1 H3 H2. subst query_filters.
  unfold apply_filters. cbv zeta.
  pose proof (toordinal_after_first_month _ V A) as Ho.
  destruct (sub_days_ok 7 (today clock) V ltac:(lia)) as [w Ew].
  change (sub_weeks 1 (today clock)) with (sub_days 7 (today clock)).
  rewrite Ew.
  rewrite subtract_one_month_closed_form by assumption.
  cbn [mbind result_bind].
  match goal with
  | |- context [when_given_coerced ?p ?prep ?f ?q] =>
      destruct (when_given_coerced_ok p prep f q H1) as [qs1 E1]
  end.
  rewrite E1. cbn [mbind result_bind].
  match goal with
  | |- context [when_given_coerced ?p ?prep ?f ?q] =>
      destruct (when_given_coerced_ok p prep f q H3) as [qs3 E3]
  end.
  rewrite E3. cbn [mbind result_bind].
  match goal with
  | |- context [when_given_coerced ?p ?prep ?f ?q] =>
      destruct (when_given_coerced_ok p prep f q H2) as [qs2 E2]
  end.
  rewrite E2. cbn [mbind result_bind]. eauto.
Qed.

End FilterFacts.

Module LookupFacts.
Import PyDate.

Lemma exact_bool_true column value :
  Lookup.exact_bool column value = true <-> column = Some value.
Proof.
  destruct column as [[]|], value; simpl; split; congruence.
Qed.

Lemma gte_date_true column value :
  Lookup.gte_date column value = true
  <-> exists d, column = Some d /\ leb value d = true.
Proof.
  destruct column as [d|]; simpl.
  - split; [eauto|]. intros (d' & E & H). congruence.
  - split; [discriminate|]. intros (d' & E & _). discriminate E.
Qed.

Lemma lte_date_true column value :
  Lookup.lte_date column value = true
  <-> exists d, column = Some d /\ leb d value = true.
Proof.
  destruct column as [d|]; simpl.
  - split; [eauto|]. intros (d' & E & H). congruence.
  - split; [discriminate|]. intros (d' & E & _). discriminate E.
Qed.

Lemma truthy_Some value : value <> "" -> truthy (Some value) = true.
Proof.
  intros H. simpl. apply negb_true_iff, String.eqb_neq. exact H.
Qed.

End LookupFacts.

Section LearnerActivityClaims.
Import PyDate Spec DateFacts FilterFacts LookupFacts.
Import EnterpriseLearnerEnrollment.
Import V1 V1.EnterpriseLearnerEnrollmentViewSet.

(** C8 (counterexample). [learner_activity] is present with the empty
    value: [if learner_activity_param:] is false, no filter is applied and
    a passed enrollment stays in the result. *)
Lemma learner_activity_empty_value :
  let self := Sample.view Sample.ent "/enrollments/?learner_activity="
                [("learner_activity", [""])] in
  let e := Sample.enrollment 10 Sample.ent 1 "ann@example.com" (Some true)
             (Some true) (Some (PyDate.mkdate 2024 6 30)) None None in
  learner_activity_present self
  /\ apply_filters 31 Sample.orm Sample.clock self [e] = Ok [e]
  /\ ~ only_active_enrollments Sample.clock [e].
Proof.
  intros self e. split; [|split].
  - exists [""]. reflexivity.
  - vm_compute. reflexivity.
  - intros H. inversion H as [|? ? [Hp _] _]. discriminate Hp.
Qed.

(** C8 (amended). If [learner_activity] has a value that is not empty,
    the result of [apply_filters] holds only rows of the given set with
    [has_passed] false and a [course_end_date] that is the date of [now],
    in the default time zone, or a later date; for the
    value [active_past_week] only rows with [last_activity_date] on the
    day seven days before today or later, for [inactive_past_week] on
    that day or earlier, and for [inactive_past_month] on the day
    [subtract_one_month] gives for today (the calendar month before) or
    earlier. *)
Theorem learner_activity_filter fuel orm clock self queryset filtered value :
  apply_filters fuel orm clock self queryset = Ok filtered ->
  QueryDict.get (query_params (request self)) "learner_activity" = Some value ->
  value <> "" ->
  only_active_enrollments clock filtered
  /\ Forall (fun e => e ∈ queryset) filtered
  /\ (exists week_ago,
        sub_weeks 1 (today clock) = Ok week_ago
        /\ (valid_date (today clock) = true ->
            toordinal week_ago = toordinal (today clock) - 7)
        /\ (value = "active_past_week" -> active_since week_ago filtered)
        /\ (value = "inactive_past_week" -> inactive_since week_ago filtered))
  /\ (exists month_ago,
        subtract_one_month fuel (today clock) = Ok month_ago
        /\ (valid_date (today clock) = true ->
            latest_month_before (today clock) month_ago)
        /\ (value = "inactive_past_month" -> inactive_since month_ago filtered)).
Proof.
  intros H Hget Hne.
  destruct (apply_filters_inv _ _ _ _ _ _ H) as (w & m & Hw & Hm & Hall).
  pose proof (truthy_Some value Hne) as Ht.
  (* the rows after the learner-activity stage *)
  assert (Hactive : forall P,
             (forall e, e ∈ queryset ->
                        Lookup.exact_bool (has_passed e) false
                        && Lookup.gte_date (course_end_date e)
                             (localdate clock (now clock)) = true ->
                        P e) ->
             Forall P (after_learner_activity clock self w m queryset)).
  { intros P HP. unfold after_learner_activity. cbv zeta.
    rewrite Hget, Ht.
    assert (Forall P
              (filter_active_enrollments clock
                 (if is_str (QueryDict.get (query_params (request self))
                               "passed_date") "last_week"
                  then filter_past_week_completions clock queryset
                  else queryset))) as Hbase.
    { apply Forall_forall. intros e He.
      apply list_elem_of_In, filter_In in He as [He Hc].
      apply HP; [|exact Hc].
      destruct (is_str _ "last_week"); apply list_elem_of_In;
        [apply filter_In in He; tauto | exact He]. }
    repeat match goal with
           | |- context [if is_str ?a ?b then _ else _] =>
               destruct (is_str a b)
           end;
      try exact Hbase; apply filter_keeps; exact Hbase. }
  split; [|split; [|split]].
  - apply Hall, Hactive. intros e _ Hc.
    apply andb_true_iff in Hc as [Hp Hd].
    apply exact_bool_true in Hp. apply gte_date_true in Hd. auto.
  - apply Hall, Hactive. intros e He _. exact He.
  - exists w. split; [exact Hw|]. split; [|split].
    + intros V. destruct (sub_days_ordinal _ _ _ V Hw) as [_ E].
      rewrite E. reflexivity.
    + intros ->. apply Hall. unfold after_learner_activity. cbv zeta.
      rewrite Hget. change (is_str (Some "active_past_week") "active_past_week")
        with true. cbv iota.
      eapply Forall_impl; [apply filter_Forall|].
      intros e He. apply gte_date_true. exact He.
    + intros ->. apply Hall. unfold after_learner_activity. cbv zeta.
      rewrite Hget.
      change (is_str (Some "inactive_past_week") "active_past_week") with false.
      change (is_str (Some "inactive_past_week") "inactive_past_week") with true.
      cbv iota.
      eapply Forall_impl; [apply filter_Forall|].
      intros e He. apply lte_date_true. exact He.
  - exists m. split; [exact Hm|]. split.
    + intros V. destruct (subtract_one_month_inv _ _ _ V Hm) as [A ->].
      apply month_before_latest; assumption.
    + intros ->. apply Hall. unfold after_learner_activity. cbv zeta.
      rewrite Hget.
      change (is_str (Some "inactive_past_month") "active_past_week") with false.
      change (is_str (Some "inactive_past_month") "inactive_past_week") with false.
      change (is_str (Some "inactive_past_month") "inactive_past_month") with true.
      cbv iota.
      eapply Forall_impl; [apply filter_Forall|].
      intros e He. apply lte_date_true. exact He.
Qed.

Lemma learner_activity_filter_witness :
  let self := Sample.view Sample.ent "/enrollments/?learner_activity=inactive_past_month"
                [("learner_activity", ["inactive_past_month"])] in
  let filtered := [Sample.enrollment 11 Sample.ent 1 "ann@example.com" (Some true)
                   (Some false) (Some (PyDate.mkdate 2024 3 31)) (Some (mkdate 2024 2 1)) None] in
  apply_filters 31 Sample.orm Sample.clock self (enrollments Sample.db) = Ok filtered
  /\ only_active_enrollments Sample.clock filtered
  /\ exists month_ago,
       subtract_one_month 31 (today Sample.clock) = Ok month_ago
       /\ (valid_date (today Sample.clock) = true ->
           latest_month_before (today Sample.clock) month_ago)
       /\ ("inactive_past_month" = "inactive_past_month" ->
           inactive_since month_ago filtered).
Proof.
  intros self filtered.
  assert (E : apply_filters 31 Sample.orm Sample.clock self
                (enrollments Sample.db) = Ok filtered)
    by (vm_compute; reflexivity).
  split; [exact E|].
  destruct (learner_activity_filter 31 Sample.orm Sample.clock self
              (enrollments Sample.db) filtered "inactive_past_month" E)
    as (H1 & _ & _ & H4); [reflexivity | discriminate |].
  split; [exact H1 | exact H4].
Defined.

End LearnerActivityClaims.
(** ** The cache of the enrollment list *)

Section CacheClaims.
Import Spec.
Import V1 V1.EnterpriseLearnerEnrollmentViewSet.

(** Nothing is found under a key that has no entry, or whose entry is
    past its timeout. *)
Lemma get_cached_response_None {A : Type} (key : string * string) (clock : Z)
  (cache : gmap (string * string) (TieredCache.entry A)) :
  TieredCache.get_cached_response key clock cache = None
  <-> cache !! key = None
      \/ exists entry, cache !! key = Some entry
                       /\ TieredCache.expires entry <= clock.
Proof.
  unfold TieredCache.get_cached_response.
  destruct (cache !! key) as [entry|]; [|split; auto].
  destruct (Z.ltb_spec clock (TieredCache.expires entry)); split.
  - discriminate.
  - intros [H'|(entry' & E & H')]; [discriminate H'|].
    inversion E; subst. lia.
  - intros _. right. eauto.
  - reflexivity.
Qed.

Lemma get_queryset_hit fuel orm clock db self st entry :
  swagger_fake_view self = false ->
  cache st !! enrollment_list_key self = Some entry ->
  time clock < TieredCache.expires entry ->
  get_queryset fuel orm clock db self st = (Ok (TieredCache.value entry), st).
Proof.
  intros Hs Hc Ht. unfold get_queryset. rewrite Hs.
  unfold TieredCache.get_cached_response. fold (enrollment_list_key self). rewrite Hc.
  apply Z.ltb_lt in Ht. rewrite Ht. reflexivity.
Qed.

Lemma get_queryset_miss fuel orm clock db self st uuid enrollments :
  swagger_fake_view self = false ->
  TieredCache.get_cached_response (enrollment_list_key self) (time clock) (cache st) = None ->
  UUIDField.to_python (kwargs_enterprise_id self) = Ok uuid ->
  apply_filters fuel orm clock self (of_enterprise db uuid) = Ok enrollments ->
  exists st',
    get_queryset fuel orm clock db self st = (Ok enrollments, st')
    /\ cache st'
       = <[enrollment_list_key self := TieredCache.mkEntry enrollments (time clock + 600)]>
           (cache st).
Proof.
  intros Hs Hc Hu Ha. unfold get_queryset. rewrite Hs.
  fold (enrollment_list_key self). rewrite Hc, Hu.
  fold (of_enterprise db uuid). rewrite Ha.
  eexists. split; [reflexivity|].
  destruct (negb _); reflexivity.
Qed.

(** What a request that computes the set leaves in the cache. *)
Lemma get_queryset_stores fuel orm clock db self st enrollments st' :
  swagger_fake_view self = false ->
  TieredCache.get_cached_response (enrollment_list_key self) (time clock) (cache st) = None ->
  get_queryset fuel orm clock db self st = (Ok enrollments, st') ->
  cache st' !! enrollment_list_key self
  = Some (TieredCache.mkEntry enrollments (time clock + 600)).
Proof.
  intros Hs Hmiss H. unfold get_queryset in H. rewrite Hs in H.
  fold (enrollment_list_key self) in H. rewrite Hmiss in H.
  destruct (UUIDField.to_python _); [|inversion H|inversion H].
  destruct (apply_filters _ _ _ _ _); inversion H; subst; clear H.
  cbn [cache]. unfold TieredCache.set_all_tiers. apply lookup_insert_eq.
Qed.

(** C4. When the cache holds a value under the key of the resource and
    the enterprise and its timeout has not passed, [get_queryset] returns
    it and computes nothing. Otherwise, that is when the cache holds
    nothing under the key or the timeout of what it holds has passed, it
    stores the filtered enrollments it computes under that key for 600
    seconds and returns them (the id being a UUID and the filters
    returning). Different enterprises or resources have different keys,
    and a request leaves the entries of all other keys as they are. A
    request that follows one that computed the set, for the same
    enterprise, returns the same set when it comes less than 600 seconds
    later, and computes the set anew when it comes 600 seconds later or
    more. *)
Theorem enrollment_list_cache :
  (forall fuel orm clock db self st entry,
      swagger_fake_view self = false ->
      cache st !! enrollment_list_key self = Some entry ->
      time clock < TieredCache.expires entry ->
      get_queryset fuel orm clock db self st
      = (Ok (TieredCache.value entry), st))
  /\ (forall fuel orm clock db self st uuid enrollments,
        swagger_fake_view self = false ->
        (cache st !! enrollment_list_key self = None
         \/ exists entry,
             cache st !! enrollment_list_key self = Some entry
             /\ TieredCache.expires entry <= time clock) ->
        UUIDField.to_python (kwargs_enterprise_id self) = Ok uuid ->
        apply_filters fuel orm clock self (of_enterprise db uuid)
        = Ok enrollments ->
        exists st',
          get_queryset fuel orm clock db self st = (Ok enrollments, st')
          /\ cache st'
             = <[enrollment_list_key self := TieredCache.mkEntry enrollments (time clock + 600)]>
                 (cache st))
  /\ DEFAULT_LEARNER_CACHE_TIMEOUT = 600
  /\ (forall resource1 enterprise1 resource2 enterprise2,
        get_cache_key resource1 enterprise1 = get_cache_key resource2 enterprise2
        -> resource1 = resource2 /\ enterprise1 = enterprise2)
  /\ (forall fuel orm clock db self st r st' other,
        get_queryset fuel orm clock db self st = (r, st') ->
        other <> enrollment_list_key self ->
        cache st' !! other = cache st !! other)
  /\ (forall fuel orm clock db self st enrollments st'
             fuel2 orm2 clock2 db2 self2,
        swagger_fake_view self = false ->
        swagger_fake_view self2 = false ->
        kwargs_enterprise_id self2 = kwargs_enterprise_id self ->
        (cache st !! enrollment_list_key self = None
         \/ exists entry,
             cache st !! enrollment_list_key self = Some entry
             /\ TieredCache.expires entry <= time clock) ->
        get_queryset fuel orm clock db self st = (Ok enrollments, st') ->
        time clock <= time clock2 < time clock + 600 ->
        get_queryset fuel2 orm2 clock2 db2 self2 st' = (Ok enrollments, st'))
  /\ (forall fuel orm clock db self st enrollments st'
             fuel2 orm2 clock2 db2 self2 uuid enrollments2,
        swagger_fake_view self = false ->
        swagger_fake_view self2 = false ->
        kwargs_enterprise_id self2 = kwargs_enterprise_id self ->
        (cache st !! enrollment_list_key self = None
         \/ exists entry,
             cache st !! enrollment_list_key self = Some entry
             /\ TieredCache.expires entry <= time clock) ->
        get_queryset fuel orm clock db self st = (Ok enrollments, st') ->
        time clock + 600 <= time clock2 ->
        UUIDField.to_python (kwargs_enterprise_id self2) = Ok uuid ->
        apply_filters fuel2 orm2 clock2 self2 (of_enterprise db2 uuid)
        = Ok enrollments2 ->
        exists st'',
          get_queryset fuel2 orm2 clock2 db2 self2 st' = (Ok enrollments2, st'')
          /\ cache st'' !! enrollment_list_key self
             = Some (TieredCache.mkEntry enrollments2 (time clock2 + 600))).
Proof.
  split; [exact get_queryset_hit|]. split; [|split; [|split; [|split; [|split]]]].
  - intros fuel orm clock db self st uuid enrollments Hs Hmiss.
    apply get_queryset_miss; [exact Hs|].
    apply get_cached_response_None. exact Hmiss.
  - reflexivity.
  - intros r1 e1 r2 e2 H. inversion H. auto.
  - intros fuel orm clock db self st r st' other H Hne.
    unfold get_queryset in H. fold (enrollment_list_key self) in H.
    destruct (swagger_fake_view self); [inversion H; reflexivity|].
    destruct (TieredCache.get_cached_response _ _ _);
      [inversion H; reflexivity|].
    destruct (UUIDField.to_python _);
      [|inversion H; reflexivity|inversion H; reflexivity].
    destruct (apply_filters _ _ _ _ _); inversion H; subst; clear H;
      cbn [cache]; unfold TieredCache.set_all_tiers;
      rewrite ?lookup_insert_ne by congruence;
      destruct (negb _); reflexivity.
  - intros fuel orm clock db self st enrollments st'
      fuel2 orm2 clock2 db2 self2 Hs Hs2 Hid Hmiss H Ht.
    apply get_cached_response_None in Hmiss.
    pose proof (get_queryset_stores _ _ _ _ _ _ _ _ Hs Hmiss H) as Hc.
    apply (get_queryset_hit fuel2 orm2 clock2 db2 self2 st'
             (TieredCache.mkEntry enrollments (time clock + 600)));
      [exact Hs2 | | simpl; lia].
    unfold enrollment_list_key in *. rewrite Hid. exact Hc.
  - intros fuel orm clock db self st enrollments st'
      fuel2 orm2 clock2 db2 self2 uuid enrollments2
      Hs Hs2 Hid Hmiss H Ht Hu Ha.
    apply get_cached_response_None in Hmiss.
    pose proof (get_queryset_stores _ _ _ _ _ _ _ _ Hs Hmiss H) as Hc.
    assert (Hk : enrollment_list_key self2 = enrollment_list_key self)
      by (unfold enrollment_list_key; rewrite Hid; reflexivity).
    destruct (get_queryset_miss fuel2 orm2 clock2 db2 self2 st' uuid
                enrollments2 Hs2) as (st'' & E & Hst''); [|exact Hu|exact Ha|].
    + apply get_cached_response_None. right. rewrite Hk.
      eexists. split; [exact Hc|]. simpl. lia.
    + exists st''. split; [exact E|].
      rewrite Hst'', Hk. apply lookup_insert_eq.
Qed.

Lemma enrollment_list_cache_witness :
  let self := Sample.view Sample.ent "/enrollments/" [("offer_id", ["42"])] in
  let entry := TieredCache.mkEntry (enrollments Sample.db) 5600 in
  let st := mkState {[ enrollment_list_key self := entry ]} [] in
  let later := mkClock (now Sample.clock) (today Sample.clock) 5600
                 (localdate Sample.clock) in
  get_queryset 0 Sample.orm Sample.clock (mkDatabase [] []) self st
  = (Ok (enrollments Sample.db), st)
  /\ exists st',
       get_queryset 31 Sample.orm later Sample.db self st
       = (Ok (take 1 (enrollments Sample.db)), st')
       /\ cache st'
          = <[enrollment_list_key self
              := TieredCache.mkEntry (take 1 (enrollments Sample.db)) 6200]>
              (cache st).
Proof.
  intros self entry st later. split.
  - apply (proj1 enrollment_list_cache 0%nat Sample.orm Sample.clock
             (mkDatabase [] []) self st entry);
      [reflexivity | apply lookup_singleton_eq | reflexivity].
  - apply (proj1 (proj2 enrollment_list_cache) 31%nat Sample.orm later
             Sample.db self st 0x0f0a7e548a3c4d2b9c6e5b1d2f3a4c5d
             (take 1 (enrollments Sample.db)));
      [reflexivity | | reflexivity | vm_compute; reflexivity].
    right. exists entry. split; [apply lookup_singleton_eq | simpl; lia].
Defined.

End CacheClaims.

(** ** The v0 views without data *)

Section NotFoundClaims.
Import Spec.
Import V0 V0.EnterpriseEnrollmentsViewSet.

Lemma append_assoc (a b c : string) : (a +:+ b) +:+ c = a +:+ (b +:+ c).
Proof.
  induction a as [|x a IH]; [reflexivity|].
  change (String x ((a +:+ b) +:+ c) = String x (a +:+ (b +:+ c))).
  f_equal. exact IH.
Qed.

(** With data the queryset is returned and nothing is logged. *)
Lemma v0_get_queryset_with_data (ConsentGrantedFilterBackend : backend)
  (db : queryset_t) self log uuid :
  let enrollments :=
    EnterpriseViewSet.filter_queryset ConsentGrantedFilterBackend self
      (List.filter
         (fun e => Lookup.exact_uuid (EnterpriseEnrollment.enterprise_id e) uuid)
         db) in
  UUIDField.to_python (kwargs_enterprise_id self) = Ok uuid ->
  enrollments <> [] ->
  get_queryset ConsentGrantedFilterBackend db self log = (Ok enrollments, log).
Proof.
  intros enrollments Hu H. unfold get_queryset. cbv zeta. rewrite Hu.
  fold enrollments. destruct enrollments; [congruence|reflexivity].
Qed.

(** C9. In the v0 API, for an enterprise id that is a UUID, when the
    consent filter leaves no enrollment of the enterprise,
    [get_queryset], and with it the list and the overview, raise
    [NotFound] instead of returning an empty result; the message names
    the enterprise id and the request path and is logged as an error. *)
Theorem v0_no_data_not_found fuel clock (ConsentGrantedFilterBackend : backend)
  (db : queryset_t) self log uuid :
  UUIDField.to_python (kwargs_enterprise_id self) = Ok uuid ->
  EnterpriseViewSet.filter_queryset ConsentGrantedFilterBackend self
    (List.filter
       (fun e => Lookup.exact_uuid (EnterpriseEnrollment.enterprise_id e) uuid)
       db) = [] ->
  exists message,
    get_queryset ConsentGrantedFilterBackend db self log
    = (Raise (NotFound message), log ++ [mkLog ERROR message []])
    /\ list ConsentGrantedFilterBackend db self log
       = (Raise (NotFound message), log ++ [mkLog ERROR message []])
    /\ overview fuel clock ConsentGrantedFilterBackend db self log
       = (Raise (NotFound message), log ++ [mkLog ERROR message []])
    /\ occurs_in (kwargs_enterprise_id self) message
    /\ occurs_in (get_full_path (request self)) message.
Proof.
  intros Hu H.
  assert (E : get_queryset ConsentGrantedFilterBackend db self log
              = (Raise (NotFound
                   ("No course enrollments are associated with Enterprise "
                    +:+ kwargs_enterprise_id self +:+ " from endpoint '"
                    +:+ get_full_path (request self) +:+ "'.")),
                 log ++ [mkLog ERROR
                   ("No course enrollments are associated with Enterprise "
                    +:+ kwargs_enterprise_id self +:+ " from endpoint '"
                    +:+ get_full_path (request self) +:+ "'.") []])).
  { unfold get_queryset. cbv zeta. rewrite Hu, H. reflexivity. }
  eexists. split; [exact E|]. split; [|split; [|split]].
  - unfold list. rewrite E. reflexivity.
  - unfold overview. rewrite E. reflexivity.
  - eexists _, _. reflexivity.
  - exists ("No course enrollments are associated with Enterprise "
            +:+ kwargs_enterprise_id self +:+ " from endpoint '"), "'.".
    rewrite !append_assoc. reflexivity.
Qed.

Lemma v0_no_data_not_found_witness :
  let consent : backend :=
    fun _ => List.filter
               (fun e => Lookup.exact_bool (EnterpriseEnrollment.consent_granted e) true) in
  let db := [EnterpriseEnrollment.mk Sample.ent 1 (Some false) (Some true) None;
             EnterpriseEnrollment.mk Sample.other 2 (Some true) (Some true) None] in
  let self :=
    Sample.view Sample.ent
      "/enterprise/0f0a7e54-8a3c-4d2b-9c6e-5b1d2f3a4c5d/enrollments/overview/"
      [] in
  exists message,
    get_queryset consent db self []
    = (Raise (NotFound message), [] ++ [mkLog ERROR message []])
    /\ list consent db self []
       = (Raise (NotFound message), [] ++ [mkLog ERROR message []])
    /\ overview 31 Sample.clock consent db self []
       = (Raise (NotFound message), [] ++ [mkLog ERROR message []])
    /\ occurs_in (kwargs_enterprise_id self) message
    /\ occurs_in (get_full_path (request self)) message.
Proof.
  intros consent db self.
  apply (v0_no_data_not_found 31 Sample.clock consent db self []
           0x0f0a7e548a3c4d2b9c6e5b1d2f3a4c5d);
    reflexivity.
Defined.

End NotFoundClaims.
(** * Further properties of the views *)

Section SubtractOneMonthMore.
Import PyDate Spec DateFacts DateOrder.
Import V1.

(** X1. When [subtract_one_month] returns, the date is in the month
    before that of its argument (December of the year before for a date
    in January), on the same day of the month, or on the last day of that
    month if the month has no such day. *)
Theorem subtract_one_month_same_day_or_month_end fuel D R :
  valid_date D = true ->
  subtract_one_month fuel D = Ok R ->
  valid_date R = true
  /\ (if 1 <? month D
      then year R = year D /\ month R = month D - 1
      else year R = year D - 1 /\ month R = 12)
  /\ day R = Z.min (day D) (days_in_month (year R) (month R)).
Proof.
  intros V H. destruct (subtract_one_month_inv _ _ _ V H) as [A ->].
  split; [apply month_before_valid; assumption|].
  apply valid_date_spec in V. unfold month_before.
  destruct (Z.ltb_spec 1 (month D)); simpl; repeat split; try reflexivity.
  change (days_in_month (year D - 1) 12) with 31.
  pose proof (days_in_month_bounds (year D) (month D)). lia.
Qed.

Lemma subtract_one_month_same_day_or_month_end_witness :
  valid_date (mkdate 2024 2 29) = true
  /\ (year (mkdate 2024 2 29) = year (mkdate 2024 3 31)
      /\ month (mkdate 2024 2 29) = month (mkdate 2024 3 31) - 1)
  /\ day (mkdate 2024 2 29)
     = Z.min (day (mkdate 2024 3 31))
         (days_in_month (year (mkdate 2024 2 29)) (month (mkdate 2024 2 29))).
Proof.
  apply (subtract_one_month_same_day_or_month_end 31 (mkdate 2024 3 31)
           (mkdate 2024 2 29)); reflexivity.
Defined.

(** X2. The date [subtract_one_month] returns is at least 28 and at
    most 31 days before its argument. *)
Theorem subtract_one_month_days_back fuel D R :
  valid_date D = true ->
  subtract_one_month fuel D = Ok R ->
  28 <= toordinal D - toordinal R <= 31.
Proof.
  intros V H. destruct (subtract_one_month_inv _ _ _ V H) as [A ->].
  apply month_before_ordinal_28; assumption.
Qed.

Lemma subtract_one_month_days_back_witness :
  28 <= toordinal (mkdate 2023 3 1) - toordinal (mkdate 2023 2 1) <= 31.
Proof.
  apply (subtract_one_month_days_back 31 (mkdate 2023 3 1) (mkdate 2023 2 1));
    reflexivity.
Defined.

(** X3. [subtract_one_month] keeps the order of dates: of two dates, the
    later one is never given the earlier result. *)
Theorem subtract_one_month_monotone fuel1 fuel2 D1 D2 R1 R2 :
  valid_date D1 = true -> valid_date D2 = true ->
  leb D1 D2 = true ->
  subtract_one_month fuel1 D1 = Ok R1 ->
  subtract_one_month fuel2 D2 = Ok R2 ->
  leb R1 R2 = true.
Proof.
  intros V1 V2 Hle H1 H2.
  destruct (subtract_one_month_inv _ _ _ V1 H1) as [_ ->].
  destruct (subtract_one_month_inv _ _ _ V2 H2) as [_ ->].
  apply valid_date_spec in V1, V2. apply leb_spec in Hle. apply leb_spec.
  destruct D1 as [y1 m1 d1], D2 as [y2 m2 d2]. unfold month_before.
  simpl in *.
  destruct (Z.ltb_spec 1 m1), (Z.ltb_spec 1 m2); simpl; try lia.
  destruct (Z.eq_dec y1 y2) as [->|]; [|lia].
  destruct (Z.eq_dec m1 m2) as [->|]; lia.
Qed.

Lemma subtract_one_month_monotone_witness :
  leb (mkdate 2023 2 28) (mkdate 2023 2 28) = true.
Proof.
  apply (subtract_one_month_monotone 31 31 (mkdate 2023 3 29)
           (mkdate 2023 3 31) (mkdate 2023 2 28) (mkdate 2023 2 28));
    reflexivity.
Defined.

End SubtractOneMonthMore.

(** ** [apply_filters] as one filter *)

Module ApplyFiltersFacts.
Import PyDate Spec DateFacts FilterFacts LookupFacts.
Import EnterpriseLearnerEnrollment.
Import V1 V1.EnterpriseLearnerEnrollmentViewSet.

Lemma filter_fuse {A : Type} (p q : A -> bool) (l : list A) :
  List.filter p (List.filter q l) = List.filter (fun x => q x && p x) l.
Proof.
  induction l as [|x l IH]; [reflexivity|]. simpl.
  destruct (q x); simpl; [destruct (p x)|]; rewrite IH; reflexivity.
Qed.

Lemma filter_sublist {A : Type} (p : A -> bool) (l : list A) :
  List.filter p l `sublist_of` l.
Proof.
  induction l as [|x l IH]; simpl; [constructor|].
  destruct (p x); constructor; exact IH.
Qed.

Lemma filter_idempotent {A : Type} (p : A -> bool) (l : list A) :
  List.filter p (List.filter p l) = List.filter p l.
Proof. apply filter_absorb. auto. Qed.

Lemma filter_if {A : Type} (c : bool) (p : A -> bool) (l : list A) :
  (if c then List.filter p l else l)
  = List.filter (fun x => if c then p x else true) l.
Proof.
  destruct c; [reflexivity|].
  symmetry. apply filter_all. apply Forall_forall. auto.
Qed.

Lemma filter_if_else {A : Type} (c : bool) (p q : A -> bool) (l : list A) :
  (if c then List.filter p l else List.filter q l)
  = List.filter (fun x => if c then p x else q x) l.
Proof. destruct c; reflexivity. Qed.

Lemma when_given_filter param (p : string -> t -> bool) (l : queryset_t) :
  when_given param (fun v => List.filter (p v)) l =
  List.filter
    (fun e => match param with
              | Some v => if truthy param then p v e else true
              | None => true
              end)
    l.
Proof.
  unfold when_given. destruct param as [v|].
  - destruct (truthy (Some v)); [reflexivity|].
    symmetry. apply filter_all. apply Forall_forall. auto.
  - symmetry. apply filter_all. apply Forall_forall. auto.
Qed.

Lemma when_given_offer_id param (l : queryset_t) :
  when_given param (fun v qs => filter_by_offer_id qs v) l =
  when_given param
    (fun v =>
       List.filter
         (fun e => Lookup.exact_str (offer_id e)
                     match PyUUID.UUID v 4 with
                     | Ok offer_id_uuid_obj =>
                         PyStr.replace "-" "" (PyUUID.str offer_id_uuid_obj)
                     | _ => v
                     end))
    l.
Proof. reflexivity. Qed.

(** Whether [apply_filters] keeps a row does not depend on the other
    rows. *)
Lemma apply_filters_as_filter fuel orm clock self queryset filtered :
  apply_filters fuel orm clock self queryset = Ok filtered ->
  exists keep : t -> bool,
    forall rows, apply_filters fuel orm clock self rows
                 = Ok (List.filter keep rows).
Proof.
  unfold apply_filters. cbv zeta.
  destruct (sub_weeks 1 (today clock)) as [w| |]; try discriminate.
  destruct (subtract_one_month fuel (today clock)) as [m| |];
    try discriminate.
  cbn [mbind result_bind]. unfold when_given_coerced.
  destruct (QueryDict.get (query_params (request self)) "search_start_date")
    as [v1|];
    [destruct (truthy (Some v1));
     [destruct (prep_course_start_date orm v1) as [t1| |];
      cbn [mbind result_bind]; try discriminate|]|];
    (destruct (QueryDict.get (query_params (request self)) "budget_id")
       as [v3|];
     [destruct (truthy (Some v3));
      [destruct (UUIDField.to_python v3) as [u3| |];
       cbn [mbind result_bind]; try discriminate|]|]);
    (destruct (QueryDict.get (query_params (request self)) "is_subsidy")
       as [v2|];
     [destruct (truthy (Some v2));
      [destruct (prep_is_subsidy orm v2) as [b2| |];
       cbn [mbind result_bind]; try discriminate|]|]);
    intros _; eexists; intros rows; cbn [mbind result_bind];
    rewrite when_given_offer_id, !when_given_filter;
    unfold filter_past_week_completions, filter_active_enrollments,
      filter_active_learners, filter_inactive_learners;
    rewrite !filter_if, !filter_if_else;
    rewrite !filter_fuse; reflexivity.
Qed.

End ApplyFiltersFacts.

Section ApplyFiltersMore.
Import PyDate Spec DateFacts FilterFacts LookupFacts ApplyFiltersFacts.
Import EnterpriseLearnerEnrollment.
Import V1 V1.EnterpriseLearnerEnrollmentViewSet.

(** X4. The result of [apply_filters] is a sublist of the queryset it is
    given: it adds no row, repeats none and keeps the order. *)
Theorem apply_filters_sublist fuel orm clock self queryset filtered :
  apply_filters fuel orm clock self queryset = Ok filtered ->
  filtered `sublist_of` queryset.
Proof.
  intros H. destruct (apply_filters_as_filter _ _ _ _ _ _ H) as [keep Hk].
  rewrite Hk in H. inversion H; subst. apply filter_sublist.
Qed.

Lemma apply_filters_sublist_witness :
  [Sample.enrollment 11 Sample.ent 1 "ann@example.com" (Some true) (Some false)
     (Some (PyDate.mkdate 2024 3 31)) (Some (mkdate 2024 2 1)) None]
  `sublist_of` enrollments Sample.db.
Proof.
  apply (apply_filters_sublist 31 Sample.orm Sample.clock
           (Sample.view Sample.ent "/enrollments/"
              [("learner_activity", ["inactive_past_month"])])).
  vm_compute. reflexivity.
Defined.

(** X5. [apply_filters] works row by row: the result for two querysets
    put one after the other is the two results put one after the other. *)
Theorem apply_filters_app fuel orm clock self queryset1 queryset2
  filtered1 filtered2 :
  apply_filters fuel orm clock self queryset1 = Ok filtered1 ->
  apply_filters fuel orm clock self queryset2 = Ok filtered2 ->
  apply_filters fuel orm clock self (queryset1 ++ queryset2)
  = Ok (filtered1 ++ filtered2).
Proof.
  intros H1 H2.
  destruct (apply_filters_as_filter _ _ _ _ _ _ H1) as [keep Hk].
  rewrite Hk in H1, H2. inversion H1; inversion H2; subst.
  rewrite Hk, List.filter_app. reflexivity.
Qed.

Lemma apply_filters_app_witness :
  let self := Sample.view Sample.ent "/enrollments/" [("offer_id", ["42"])] in
  apply_filters 31 Sample.orm Sample.clock self
    (take 1 (enrollments Sample.db) ++ drop 1 (enrollments Sample.db))
  = Ok (take 1 (enrollments Sample.db) ++ []).
Proof.
  intros self.
  apply (apply_filters_app 31 Sample.orm Sample.clock self);
    vm_compute; reflexivity.
Defined.

(** X6. [apply_filters] is idempotent: applied to its own result, with
    the same request and clock, it returns this result unchanged. *)
Theorem apply_filters_idempotent fuel orm clock self queryset filtered :
  apply_filters fuel orm clock self queryset = Ok filtered ->
  apply_filters fuel orm clock self filtered = Ok filtered.
Proof.
  intros H. destruct (apply_filters_as_filter _ _ _ _ _ _ H) as [keep Hk].
  rewrite Hk in H. inversion H; subst.
  rewrite Hk, filter_idempotent. reflexivity.
Qed.

Lemma apply_filters_idempotent_witness :
  let self := Sample.view Sample.ent "/enrollments/" [("search", ["ANN@"])] in
  apply_filters 31 Sample.orm Sample.clock self (take 3 (enrollments Sample.db))
  = Ok (take 3 (enrollments Sample.db)).
Proof.
  intros self.
  apply (apply_filters_idempotent 31 Sample.orm Sample.clock self
           (enrollments Sample.db)).
  vm_compute. reflexivity.
Defined.

Lemma not_truthy param :
  truthy param = false -> param = None \/ param = Some "".
Proof.
  destruct param as [v|]; [|auto]. simpl. intros H.
  apply negb_false_iff, String.eqb_eq in H. subst. auto.
Qed.

Lemma when_given_not_truthy param f (queryset : queryset_t) :
  truthy param = false -> when_given param f queryset = queryset.
Proof.
  intros H. unfold when_given. destruct param; [rewrite H|]; reflexivity.
Qed.

Lemma when_given_coerced_not_truthy {A : Type} param
  (prep : string -> result A) f (queryset : queryset_t) :
  truthy param = false ->
  when_given_coerced param prep f queryset = Ok queryset.
Proof.
  intros H. unfold when_given_coerced.
  destruct param; [rewrite H|]; reflexivity.
Qed.

(** X7. A request that asks for no filter (every parameter of
    [apply_filters] absent or empty, [passed_date] not [last_week]) gets
    the queryset back unchanged, whenever today has a month before it. *)
Theorem apply_filters_no_filter fuel orm clock self queryset :
  valid_date (today clock) = true ->
  after_first_month (today clock) = true ->
  (31 <= fuel)%nat ->
  asks_no_filter self ->
  apply_filters fuel orm clock self queryset = Ok queryset.
Proof.
  intros V A Hf [Hopt Hpassed].
  unfold optional_filters in Hopt.
  repeat match goal with
         | H : Forall _ (_ :: _) |- _ =>
             apply Forall_cons in H; destruct H as [? H]
         end.
  pose proof (toordinal_after_first_month _ V A) as Ho.
  destruct (sub_days_ok 7 (today clock) V ltac:(lia)) as [w Ew].
  unfold apply_filters. cbv zeta.
  change (sub_weeks 1 (today clock)) with (sub_days 7 (today clock)).
  rewrite Ew, subtract_one_month_closed_form by assumption.
  cbn [mbind result_bind]. rewrite Hpassed.
  match goal with
  | H : truthy (QueryDict.get _ "learner_activity") = false |- _ =>
      rewrite H; destruct (not_truthy _ H) as [-> | ->]
  end;
    cbn [is_str String.eqb Ascii.eqb Bool.eqb];
    repeat first
      [ rewrite when_given_not_truthy by assumption
      | rewrite when_given_coerced_not_truthy by assumption;
        cbn [mbind result_bind] ];
    reflexivity.
Qed.

Lemma apply_filters_no_filter_witness :
  apply_filters 31 Sample.orm Sample.clock
    (Sample.view Sample.ent "/enrollments/?search=&page=2"
       [("search", [""]); ("page", ["2"])])
    (enrollments Sample.db)
  = Ok (enrollments Sample.db).
Proof.
  apply apply_filters_no_filter; [reflexivity | reflexivity | lia |].
  split; [|reflexivity].
  unfold optional_filters. repeat constructor.
Defined.

Lemma sub_one_day_outcome d :
  (exists p, sub_one_day d = Ok p) \/ sub_one_day d = Raise OverflowError.
Proof.
  unfold sub_one_day.
  repeat match goal with
         | |- context [if ?b then _ else _] => destruct b
         end; eauto.
Qed.

Lemma sub_days_outcome n d :
  (exists p, sub_days n d = Ok p) \/ sub_days n d = Raise OverflowError.
Proof.
  revert d. induction n as [|n IH]; intros d; [simpl; eauto|].
  cbn [sub_days]. destruct (sub_one_day_outcome d) as [[p ->] | ->];
    [apply IH | right; reflexivity].
Qed.

(** X8. [apply_filters] computes the dates of a week and of a month ago
    before it looks at any parameter: when today is a day of January of
    year 1 it raises [OverflowError], whatever the request and the
    queryset. *)
Theorem apply_filters_first_month fuel orm clock self queryset :
  valid_date (today clock) = true ->
  after_first_month (today clock) = false ->
  (31 <= fuel)%nat ->
  apply_filters fuel orm clock self queryset = Raise OverflowError.
Proof.
  intros V A Hf. unfold apply_filters. cbv zeta.
  change (sub_weeks 1 (today clock)) with (sub_days 7 (today clock)).
  destruct (sub_days_outcome 7 (today clock)) as [[w ->] | ->];
    [|reflexivity].
  rewrite subtract_one_month_first_month by assumption. reflexivity.
Qed.

Lemma apply_filters_first_month_witness :
  apply_filters 31 Sample.orm (mkClock 0 (mkdate 1 1 20) 0 Sample.utc_date)
    (Sample.view Sample.ent "/enrollments/" []) []
  = Raise OverflowError.
Proof.
  apply apply_filters_first_month; [reflexivity | reflexivity | lia].
Defined.

(** X9. With [passed_date=last_week] the result of [apply_filters] holds
    only rows with [has_passed] true and a [passed_date] from the date of
    the point in time seven days before [now] to the date of [now], both
    dates taken in the default time zone and both included. *)
Theorem apply_filters_passed_last_week fuel orm clock self queryset filtered :
  apply_filters fuel orm clock self queryset = Ok filtered ->
  QueryDict.get (query_params (request self)) "passed_date" = Some "last_week" ->
  passed_last_week clock filtered.
Proof.
  intros H Hget.
  destruct (apply_filters_inv _ _ _ _ _ _ H) as (w & m & _ & _ & Hall).
  apply Hall. unfold after_learner_activity. cbv zeta.
  rewrite Hget. change (is_str (Some "last_week") "last_week") with true.
  cbv iota.
  assert (Hbase : Forall
                    (fun e => has_passed e = Some true
                              /\ exists d, passed_date e = Some d
                                           /\ leb (localdate clock (now clock - 7 * 86400)) d
                                              = true
                                           /\ leb d (localdate clock (now clock)) = true)
                    (filter_past_week_completions clock queryset)).
  { eapply Forall_impl; [apply filter_Forall|].
    intros e He. cbv beta in He.
    apply andb_true_iff in He as [He H3]. apply andb_true_iff in He as [H1 H2].
    apply exact_bool_true in H1. apply gte_date_true in H3 as (d & Ed & Hd).
    apply lte_date_true in H2 as (d' & Ed' & Hd').
    rewrite Ed in Ed'. inversion Ed'; subst d'.
    split; [exact H1|]. exists d. auto. }
  repeat match goal with
         | |- context [if ?c then _ else _] => destruct c
         end;
    repeat first [exact Hbase | apply filter_keeps].
Qed.

Lemma apply_filters_passed_last_week_witness :
  let row passed :=
    EnterpriseLearnerEnrollment.mk 20 Sample.ent 1 (Some true) (Some true)
      (Some passed) None None None "ann@example.com" "Course" None
      None None None None None None in
  let kept := [row (mkdate 2024 3 24); row (mkdate 2024 3 31)] in
  apply_filters 31 Sample.orm Sample.clock
    (Sample.view Sample.ent "/enrollments/" [("passed_date", ["last_week"])])
    (row (mkdate 2024 3 23) :: kept ++ [row (mkdate 2024 4 1)]) = Ok kept
  /\ passed_last_week Sample.clock kept.
Proof.
  intros row kept.
  assert (E : apply_filters 31 Sample.orm Sample.clock
                (Sample.view Sample.ent "/enrollments/"
                   [("passed_date", ["last_week"])])
                (row (mkdate 2024 3 23) :: kept ++ [row (mkdate 2024 4 1)])
              = Ok kept)
    by (vm_compute; reflexivity).
  split; [exact E|].
  apply (apply_filters_passed_last_week _ _ _ _ _ _ E). reflexivity.
Defined.

End ApplyFiltersMore.

(** ** The enrollment list: logging, scoping and failures *)

Section EnrollmentListMore.
Import PyDate Spec DateFacts FilterFacts LookupFacts ApplyFiltersFacts.
Import EnterpriseLearnerEnrollment.
Import V1 V1.EnterpriseLearnerEnrollmentViewSet.

(** X10. On a cache miss, for an enterprise id that is a UUID,
    [get_queryset] logs one warning (with the enterprise id, the request
    path and the user name) when the enterprise has no learner, and
    nothing when it has one; it does so before the filters run, so also
    when they raise, and it still computes the enrollments of that
    enterprise. For an id that is not a UUID it raises [ValidationError]
    and neither logs nor stores anything. *)
Theorem get_queryset_warns_unknown_enterprise fuel orm clock db self st :
  swagger_fake_view self = false ->
  TieredCache.get_cached_response (enrollment_list_key self) (time clock)
    (cache st) = None ->
  (forall uuid,
      UUIDField.to_python (kwargs_enterprise_id self) = Ok uuid ->
      fst (get_queryset fuel orm clock db self st)
      = apply_filters fuel orm clock self (of_enterprise db uuid)
      /\ log (snd (get_queryset fuel orm clock db self st))
         = if known_enterprise db uuid then log st
           else log st ++ [wrong_enterprise_warning self])
  /\ (UUIDField.to_python (kwargs_enterprise_id self) = Raise ValidationError ->
      get_queryset fuel orm clock db self st = (Raise ValidationError, st)).
Proof.
  intros Hs Hc. unfold get_queryset. rewrite Hs.
  fold (enrollment_list_key self). rewrite Hc. split.
  - intros uuid Hu. rewrite Hu.
    fold (of_enterprise db uuid). fold (known_enterprise db uuid).
    fold (wrong_enterprise_warning self).
    destruct (apply_filters fuel orm clock self (of_enterprise db uuid));
      destruct (known_enterprise db uuid); split; reflexivity.
  - intros Hu. rewrite Hu. reflexivity.
Qed.

Lemma get_queryset_warns_unknown_enterprise_witness :
  let self := Sample.view Sample.nobody
                "/enterprise/7b1e4c2a-5d3f-4a6b-8c9d-0e1f2a3b4c5d/enrollments/"
                [] in
  let st := mkState ∅ [] in
  fst (get_queryset 31 Sample.orm Sample.clock Sample.db self st) = Ok []
  /\ log (snd (get_queryset 31 Sample.orm Sample.clock Sample.db self st))
     = [wrong_enterprise_warning self].
Proof.
  intros self st.
  exact (proj1 (get_queryset_warns_unknown_enterprise 31 Sample.orm
                  Sample.clock Sample.db self st eq_refl eq_refl)
           0x7b1e4c2a5d3f4a6b8c9d0e1f2a3b4c5d eq_refl).
Defined.

(** X11. On a cache miss every row [get_queryset] returns is a row of the
    enrollment table that belongs to the enterprise of the URL, whose id
    is then a UUID: no parameter of the request widens the result to
    another enterprise. *)
Theorem get_queryset_enterprise_scoped fuel orm clock db self st rows st' :
  swagger_fake_view self = false ->
  TieredCache.get_cached_response (enrollment_list_key self) (time clock)
    (cache st) = None ->
  get_queryset fuel orm clock db self st = (Ok rows, st') ->
  exists uuid,
    UUIDField.to_python (kwargs_enterprise_id self) = Ok uuid
    /\ Forall
         (fun e => e ∈ enrollments db
                   /\ EnterpriseLearnerEnrollment.enterprise_customer_uuid e
                      = PyUUID.str uuid)
         rows.
Proof.
  intros Hs Hc. unfold get_queryset. rewrite Hs.
  fold (enrollment_list_key self). rewrite Hc.
  destruct (UUIDField.to_python (kwargs_enterprise_id self)) as [uuid| |];
    try (intros H; discriminate H).
  fold (of_enterprise db uuid).
  destruct (apply_filters fuel orm clock self (of_enterprise db uuid))
    as [r| |] eqn:E; intros H; inversion H; subst.
  exists uuid. split; [reflexivity|].
  destruct (apply_filters_as_filter _ _ _ _ _ _ E) as [keep Hk].
  rewrite Hk in E. inversion E; subst.
  apply filter_keeps. unfold of_enterprise.
  apply Forall_forall. intros e He.
  apply list_elem_of_In, filter_In in He as [He Hu].
  split; [apply list_elem_of_In, He | apply String.eqb_eq, Hu].
Qed.

Lemma get_queryset_enterprise_scoped_witness :
  exists uuid,
    UUIDField.to_python "{0F0A7E54-8A3C-4D2B-9C6E-5B1D2F3A4C5D}" = Ok uuid
    /\ Forall
         (fun e => e ∈ enrollments Sample.db
                   /\ EnterpriseLearnerEnrollment.enterprise_customer_uuid e
                      = PyUUID.str uuid)
         (take 1 (enrollments Sample.db)).
Proof.
  apply (get_queryset_enterprise_scoped 31 Sample.orm Sample.clock Sample.db
           (Sample.view "{0F0A7E54-8A3C-4D2B-9C6E-5B1D2F3A4C5D}" "/enrollments/"
              [("offer_id", ["42"])])
           (mkState ∅ [])
           (take 1 (enrollments Sample.db))
           (snd (get_queryset 31 Sample.orm Sample.clock Sample.db
                   (Sample.view "{0F0A7E54-8A3C-4D2B-9C6E-5B1D2F3A4C5D}"
                      "/enrollments/" [("offer_id", ["42"])])
                   (mkState ∅ [])))).
  - reflexivity.
  - reflexivity.
  - vm_compute. reflexivity.
Defined.

Lemma when_given_coerced_raises {A : Type} value (prep : string -> result A)
  f (queryset : queryset_t) e :
  value <> "" -> prep value = Raise e ->
  when_given_coerced (Some value) prep f queryset = Raise e.
Proof.
  intros Hv Hp. unfold when_given_coerced, truthy.
  destruct (String.eqb value "") eqn:E;
    [apply String.eqb_eq in E; contradiction|].
  cbn [negb]. rewrite Hp. reflexivity.
Qed.

(** X12. For an enterprise id that is a UUID, a [search_start_date] the
    ORM cannot read as a date makes [get_queryset] raise the ORM's error
    on a cache miss, whatever the other parameters are, and nothing is
    stored in the cache. *)
Theorem get_queryset_bad_start_date fuel orm clock db self st uuid value e :
  swagger_fake_view self = false ->
  TieredCache.get_cached_response (enrollment_list_key self) (time clock)
    (cache st) = None ->
  UUIDField.to_python (kwargs_enterprise_id self) = Ok uuid ->
  valid_date (today clock) = true ->
  after_first_month (today clock) = true ->
  (31 <= fuel)%nat ->
  QueryDict.get (query_params (request self)) "search_start_date" = Some value ->
  value <> "" ->
  prep_course_start_date orm value = Raise e ->
  fst (get_queryset fuel orm clock db self st) = Raise e
  /\ cache (snd (get_queryset fuel orm clock db self st)) = cache st.
Proof.
  intros Hs Hc Hu V A Hf Hget Hv Hp.
  assert (E : forall rows, apply_filters fuel orm clock self rows = Raise e).
  { intros rows.
    pose proof (toordinal_after_first_month _ V A) as Ho.
    destruct (sub_days_ok 7 (today clock) V ltac:(lia)) as [w Ew].
    unfold apply_filters. cbv zeta.
    change (sub_weeks 1 (today clock)) with (sub_days 7 (today clock)).
    rewrite Ew, subtract_one_month_closed_form by assumption.
    cbn [mbind result_bind]. rewrite Hget.
    rewrite (when_given_coerced_raises _ _ _ _ _ Hv Hp). reflexivity. }
  unfold get_queryset. rewrite Hs.
  fold (enrollment_list_key self). rewrite Hc, Hu. cbv zeta. rewrite E.
  destruct (negb _); split; reflexivity.
Qed.

Lemma get_queryset_bad_start_date_witness :
  let self := Sample.view Sample.ent "/enrollments/"
                [("search_start_date", ["yesterday"]); ("offer_id", ["42"])] in
  let st := mkState ∅ [] in
  fst (get_queryset 31 Sample.orm Sample.clock Sample.db self st)
  = Raise ValidationError
  /\ cache (snd (get_queryset 31 Sample.orm Sample.clock Sample.db self st)) = ∅.
Proof.
  intros self st.
  apply (get_queryset_bad_start_date 31 Sample.orm Sample.clock Sample.db
           self st 0x0f0a7e548a3c4d2b9c6e5b1d2f3a4c5d "yesterday"
           ValidationError);
    [reflexivity | reflexivity | reflexivity | reflexivity | reflexivity | lia
    | reflexivity | discriminate | reflexivity].
Defined.

End EnrollmentListMore.

(** ** More on the [offer_id] filter *)

Module OfferIdFacts.
Import PyStr PyInt Spec.

Lemma hex_lower_cases c :
  is_hex_lower c = true ->
  In c ["0"; "1"; "2"; "3"; "4"; "5"; "6"; "7"; "8"; "9";
        "a"; "b"; "c"; "d"; "e"; "f"]%char.
Proof.
  destruct c as [[] [] [] [] [] [] [] []]; vm_compute; intros H;
    try discriminate H; tauto.
Qed.

Lemma hex_lower_value c :
  is_hex_lower c = true ->
  exists v, hex_value c = Some v /\ 0 <= v < 16 /\ hex_digit v = c.
Proof.
  intros H. apply hex_lower_cases in H. simpl in H.
  repeat (destruct H as [<- | H];
          [eexists; split; [cbv; reflexivity|]; split; [lia | reflexivity]|]).
  contradiction.
Qed.

Lemma hex_digit_lower v :
  0 <= v < 16 ->
  is_hex_lower (hex_digit v) = true /\ hex_value (hex_digit v) = Some v.
Proof.
  intros H.
  assert (v = 0 \/ v = 1 \/ v = 2 \/ v = 3 \/ v = 4 \/ v = 5 \/ v = 6 \/ v = 7
          \/ v = 8 \/ v = 9 \/ v = 10 \/ v = 11 \/ v = 12 \/ v = 13 \/ v = 14
          \/ v = 15) as Hc by lia.
  repeat (destruct Hc as [-> | Hc]; [split; reflexivity|]).
  subst; split; reflexivity.
Qed.

Lemma hex_string_app a b :
  hex_string (a +:+ b) = hex_string a && hex_string b.
Proof.
  induction a as [|c a IH]; [reflexivity|].
  change (String c a +:+ b) with (String c (a +:+ b)).
  cbn [hex_string]. rewrite IH, andb_assoc. reflexivity.
Qed.

Lemma length_app (a b : string) :
  String.length (a +:+ b) = (String.length a + String.length b)%nat.
Proof.
  induction a as [|c a IH]; [reflexivity|].
  change (String c a +:+ b) with (String c (a +:+ b)).
  cbn [String.length]. rewrite IH. reflexivity.
Qed.

(** The scan of [int(s, 16)] over a string of digits. *)
Lemma scan_digits_hex s acc digits :
  hex_string s = true ->
  scan_digits false acc digits s
  = Some (hex_number acc s, (digits + String.length s)%nat, "").
Proof.
  revert acc digits. induction s as [|c s IH]; intros acc digits H.
  - cbn. rewrite Nat.add_0_r. reflexivity.
  - cbn [hex_string] in H. apply andb_true_iff in H as [Hc Hs].
    destruct (hex_lower_value c Hc) as (v & Hv & _).
    cbn [scan_digits hex_number String.length]. rewrite Hv.
    rewrite IH by assumption.
    replace (S digits + String.length s)%nat
      with (digits + S (String.length s))%nat by lia.
    reflexivity.
Qed.

(** ['%x' % n] writes [n]: digits only, as many as [n] needs. *)
Lemma hex_digits_spec fuel : forall n acc,
  0 <= n < 16 ^ Z.of_nat fuel ->
  (1 <= fuel)%nat ->
  exists len : nat,
    (1 <= len <= fuel)%nat
    /\ n < 16 ^ Z.of_nat len
    /\ (len = 1%nat \/ 16 ^ (Z.of_nat len - 1) <= n)
    /\ String.length (hex_digits fuel n acc) = (len + String.length acc)%nat
    /\ (hex_string acc = true -> hex_string (hex_digits fuel n acc) = true)
    /\ forall a, hex_number a (hex_digits fuel n acc)
                 = hex_number (a * 16 ^ Z.of_nat len + n) acc.
Proof.
  induction fuel as [|fuel IH]; intros n acc Hn Hfuel; [lia|].
  - cbn [hex_digits].
    assert (Hm : 0 <= n mod 16 < 16) by (apply Z.mod_pos_bound; lia).
    destruct (hex_digit_lower _ Hm) as [Hl Hv].
    destruct (n <? 16) eqn:E.
    + apply Z.ltb_lt in E. exists 1%nat.
      split; [lia|]. split; [exact E|]. split; [left; reflexivity|].
      split; [reflexivity|].
      split.
      * intros Ha. cbn [hex_string]. rewrite Hl, Ha. reflexivity.
      * intros a. cbn [hex_number]. rewrite Hv. cbn [default].
        unfold id. rewrite Z.mod_small by lia. reflexivity.
    + apply Z.ltb_ge in E.
      assert (Hd : 0 <= n / 16 < 16 ^ Z.of_nat fuel).
      { rewrite Nat2Z.inj_succ, Z.pow_succ_r in Hn by lia.
        split; [apply Z.div_pos; lia|].
        apply Z.div_lt_upper_bound; lia. }
      assert (Hfuel' : (1 <= fuel)%nat).
      { destruct fuel; [|lia].
        change (Z.of_nat 0) with 0 in Hd. rewrite Z.pow_0_r in Hd.
        pose proof (Z.div_mod n 16 ltac:(lia)). lia. }
      destruct (IH (n / 16) (String (hex_digit (n mod 16)) acc) Hd Hfuel')
        as (len & Hlen & Hlt & Hmin & HL & HS & HN).
      pose proof (Z.div_mod n 16 ltac:(lia)) as Hdm.
      exists (S len). split; [lia|]. split.
      { rewrite Nat2Z.inj_succ, Z.pow_succ_r by lia. lia. }
      split.
      { right. replace (Z.of_nat (S len) - 1) with (Z.succ (Z.of_nat len - 1)) by lia.
        rewrite Z.pow_succ_r by lia.
        destruct Hmin as [-> | Hmin]; [change (16 ^ (Z.of_nat 1 - 1)) with 1; lia | lia]. }
      split; [rewrite HL; cbn [String.length]; lia|].
      split.
      * intros Ha. apply HS. cbn [hex_string]. rewrite Hl, Ha. reflexivity.
      * intros a. rewrite HN. cbn [hex_number]. rewrite Hv. cbn [default].
        f_equal. rewrite Nat2Z.inj_succ, Z.pow_succ_r by lia.
        unfold id. set (p := 16 ^ Z.of_nat len). clearbody p. nia.
Qed.

Lemma length_zeros k : String.length (zeros k) = k.
Proof. induction k as [|k IH]; [reflexivity|]. cbn. rewrite IH. reflexivity. Qed.

Lemma hex_string_zeros k : hex_string (zeros k) = true.
Proof. induction k as [|k IH]; [reflexivity|]. exact IH. Qed.

Lemma hex_number_zeros k s : hex_number 0 (zeros k +:+ s) = hex_number 0 s.
Proof. induction k as [|k IH]; [reflexivity|]. exact IH. Qed.

(** ['%032x' % n] writes [n] in 32 digits when [n] is below [2^128]. *)
Lemma format_032x_spec n :
  0 <= n < 2 ^ 128 ->
  String.length (format_032x n) = 32%nat
  /\ hex_string (format_032x n) = true
  /\ hex_number 0 (format_032x n) = n.
Proof.
  intros Hn. unfold format_032x, format_x. cbv zeta.
  set (fuel := S (Z.to_nat (Z.log2 n))).
  assert (Hfuel : 0 <= n < 16 ^ Z.of_nat fuel).
  { split; [lia|]. unfold fuel.
    rewrite Nat2Z.inj_succ, Z2Nat.id by apply Z.log2_nonneg.
    apply Z.lt_le_trans with (2 ^ Z.succ (Z.log2 n)).
    - destruct (Z.eq_dec n 0) as [-> | Hne]; [reflexivity|].
      apply Z.log2_spec. lia.
    - pose proof (Z.log2_nonneg n).
      change 16 with (2 ^ 4). rewrite <- Z.pow_mul_r by lia.
      apply Z.pow_le_mono_r; lia. }
  destruct (hex_digits_spec fuel n "" Hfuel ltac:(unfold fuel; lia))
    as (len & Hlen & Hlt & Hmin & HL & HS & HN).
  assert (Hlen32 : (len <= 32)%nat).
  { destruct Hmin as [-> | Hmin]; [lia|].
    assert (16 ^ (Z.of_nat len - 1) < 16 ^ 32)
      by (change (16 ^ 32) with (2 ^ 128); lia).
    apply Z.pow_lt_mono_r_iff in H; lia. }
  rewrite HL. cbn [String.length]. rewrite Nat.add_0_r.
  rewrite length_app, hex_string_app, hex_number_zeros, length_zeros.
  rewrite hex_string_zeros, HL, HS, HN by reflexivity.
  cbn [String.length hex_number andb]. split; [lia|]. split; [reflexivity|].
  lia.
Qed.

Lemma bounded_by_bits n k :
  0 <= n -> 0 <= k -> (forall i, k <= i -> Z.testbit n i = false) ->
  n < 2 ^ k.
Proof.
  intros Hn Hk Hbits. destruct (Z.lt_ge_cases n (2 ^ k)) as [|Hge]; [assumption|].
  assert (Hpos : 0 < n) by (pose proof (Z.pow_pos_nonneg 2 k); lia).
  apply Z.log2_le_pow2 in Hge; [|assumption].
  pose proof (Z.bit_log2 n Hpos) as Hb.
  rewrite Hbits in Hb; [discriminate Hb | assumption].
Qed.

Lemma version4_range x : 0 <= x < 2 ^ 128 -> 0 <= version4 x < 2 ^ 128.
Proof.
  intros Hx. unfold version4. cbv zeta.
  assert (Hnn : 0 <=
    Z.lor (Z.land (Z.lor (Z.land x (Z.lnot (Z.shiftl 49152 48)))
                     (Z.shiftl 32768 48))
             (Z.lnot (Z.shiftl 61440 64)))
      (Z.shiftl 4 76)).
  { apply Z.lor_nonneg. split; [|apply Z.shiftl_nonneg; lia].
    apply Z.land_nonneg. left.
    apply Z.lor_nonneg. split; [|apply Z.shiftl_nonneg; lia].
    apply Z.land_nonneg. left. lia. }
  split; [exact Hnn|].
  apply bounded_by_bits; [exact Hnn | lia |]. intros i Hi.
  rewrite Z.lor_spec, Z.land_spec, Z.lor_spec, Z.land_spec.
  rewrite !Z.shiftl_spec by lia.
  rewrite (small_testbit_high x 128 i) by lia.
  rewrite (small_testbit_high 32768 16 (i - 48)) by lia.
  rewrite (small_testbit_high 4 3 (i - 76)) by lia.
  reflexivity.
Qed.

Lemma version4_idempotent x : version4 (version4 x) = version4 x.
Proof.
  unfold version4. cbv zeta. apply Z.bits_inj'. intros i Hi.
  repeat rewrite ?Z.lor_spec, ?Z.land_spec, ?Z.lnot_spec by lia.
  destruct (Z.testbit x i), (Z.testbit (Z.shiftl 49152 48) i),
    (Z.testbit (Z.shiftl 32768 48) i), (Z.testbit (Z.shiftl 61440 64) i),
    (Z.testbit (Z.shiftl 4 76) i); reflexivity.
Qed.


Lemma replace_from_other o old new c s :
  o <> c ->
  replace_from (String o old) new O (String c s)
  = String c (replace_from (String o old) new O s).
Proof.
  intros H. cbn [replace_from String.prefix].
  destruct (ascii_dec o c); [contradiction | reflexivity].
Qed.

Lemma replace_from_hyphen s :
  replace_from "-" "" O (String "-" s) = replace_from "-" "" O s.
Proof. destruct s; reflexivity. Qed.

Lemma hex_lower_other o c :
  is_hex_lower o = false -> is_hex_lower c = true -> o <> c.
Proof. intros Ho Hc ->. congruence. Qed.

(** [replace] leaves a string of digits as it is when [old] does not
    start with a digit. *)
Lemma replace_hex o old new s :
  is_hex_lower o = false -> hex_string s = true ->
  replace (String o old) new s = s.
Proof.
  intros Ho. unfold replace. cbn [String.eqb].
  induction s as [|c s IH]; intros H; [reflexivity|].
  cbn [hex_string] in H. apply andb_true_iff in H as [Hc Hs].
  rewrite replace_from_other by (apply hex_lower_other; assumption).
  rewrite IH by assumption. reflexivity.
Qed.

Lemma mem_braces c : is_hex_lower c = true -> mem c "{}" = false.
Proof.
  intros H. apply hex_lower_cases in H. simpl in H.
  repeat (destruct H as [<- | H]; [reflexivity|]). contradiction.
Qed.

Lemma strip_hex s : hex_string s = true -> strip "{}" s = s.
Proof.
  intros H. unfold strip.
  assert (Hl : lstrip "{}" s = s).
  { destruct s as [|c s]; [reflexivity|].
    cbn [hex_string] in H. apply andb_true_iff in H as [Hc _].
    cbn [lstrip]. rewrite (mem_braces c Hc). reflexivity. }
  rewrite Hl. induction s as [|c s IH]; [reflexivity|].
  cbn [hex_string] in H. apply andb_true_iff in H as [Hc Hs].
  cbn [rstrip]. rewrite (mem_braces c Hc), andb_false_r.
  rewrite IH; [reflexivity | assumption |].
  destruct s as [|c' s]; [reflexivity|].
  cbn [hex_string] in Hs. apply andb_true_iff in Hs as [Hc' _].
  cbn [lstrip]. rewrite (mem_braces c' Hc'). reflexivity.
Qed.

(** [int(s, 16)] of a string of digits. *)
Lemma int16_hex s :
  hex_string s = true -> s <> "" -> int16 s = Ok (hex_number 0 s).
Proof.
  intros H Hne.
  assert (E : int16 s
              = match scan_digits false 0 O s with
                | None => Raise ValueError
                | Some (n, digits, rest) =>
                    if (digits =? 0)%nat then Raise ValueError
                    else if String.eqb (skip_spaces rest) "" then Ok (1 * n)
                    else Raise ValueError
                end).
  { destruct s as [|c s]; [contradiction|].
    cbn [hex_string] in H. apply andb_true_iff in H as [Hc Hs].
    apply hex_lower_cases in Hc. simpl in Hc.
    destruct Hc as [<- | Hc].
    - destruct s as [|c' s]; [reflexivity|].
      cbn [hex_string] in Hs. apply andb_true_iff in Hs as [Hc' _].
      apply hex_lower_cases in Hc'. simpl in Hc'.
      repeat (destruct Hc' as [<- | Hc']; [reflexivity|]). contradiction.
    - repeat (destruct Hc as [<- | Hc]; [reflexivity|]). contradiction. }
  rewrite E, scan_digits_hex by assumption.
  destruct s as [|c s]; [contradiction|].
  cbn [String.length Nat.add Nat.eqb skip_spaces String.eqb].
  rewrite Z.mul_1_l. reflexivity.
Qed.

(** [str(u)] without its hyphens is ['%032x' % u.int]. *)
Lemma canonical_of_hex s :
  String.length s = 32%nat -> hex_string s = true ->
  replace "-" ""
    (slice 0 8 s +:+ "-" +:+ slice 8 12 s +:+ "-" +:+ slice 12 16 s
     +:+ "-" +:+ slice 16 20 s +:+ "-" +:+ slice_from 20 s)
  = s.
Proof.
  intros HL H.
  do 32 (destruct s as [|? s]; [discriminate HL|]).
  destruct s; [|discriminate HL]. clear HL.
  cbn [hex_string] in H.
  repeat match type of H with
         | (_ && _) = true => apply andb_true_iff in H as [? H]
         end.
  unfold replace. cbn [String.eqb].
  lazy beta iota zeta
    delta [slice slice_from String.substring String.length Nat.sub
           String.append].
  repeat first
    [ rewrite replace_from_hyphen
    | rewrite replace_from_other
        by (apply hex_lower_other; [reflexivity | assumption]) ].
  reflexivity.
Qed.


Lemma UUID_version4 hex int :
  PyUUID.UUID hex 4 = Ok int ->
  exists x, 0 <= x < 2 ^ 128 /\ int = version4 x.
Proof.
  unfold PyUUID.UUID. cbv zeta.
  destruct (negb _); [discriminate|].
  destruct (int16 _) as [x| |]; cbn [mbind result_bind]; try discriminate.
  destruct ((0 <=? x) && (x <? Z.shiftl 1 128)) eqn:E;
    cbn [negb]; [|discriminate].
  apply andb_true_iff in E as [E1 E2].
  apply Z.leb_le in E1. apply Z.ltb_lt in E2.
  change (Z.shiftl 1 128) with (2 ^ 128) in E2.
  intros H. cbn in H. inversion H. exists x. split; [lia | reflexivity].
Qed.

Lemma UUID_of_hex s :
  String.length s = 32%nat -> hex_string s = true ->
  0 <= hex_number 0 s < 2 ^ 128 ->
  PyUUID.UUID s 4 = Ok (version4 (hex_number 0 s)).
Proof.
  intros HL H Hn. unfold PyUUID.UUID. cbv zeta.
  rewrite (replace_hex "u" "rn:" "" s) by (reflexivity || assumption).
  rewrite (replace_hex "u" "uid:" "" s) by (reflexivity || assumption).
  rewrite strip_hex by assumption.
  rewrite (replace_hex "-" "" "" s) by (reflexivity || assumption).
  rewrite HL. cbn [Nat.eqb negb].
  rewrite int16_hex by (assumption || (intros ->; discriminate HL)).
  cbn [mbind result_bind].
  destruct Hn as [Hn1 Hn2]. apply Z.leb_le in Hn1.
  change (2 ^ 128) with (Z.shiftl 1 128) in Hn2. apply Z.ltb_lt in Hn2.
  rewrite Hn1, Hn2. reflexivity.
Qed.

Lemma canonical_offer_id_spec int :
  0 <= int < 2 ^ 128 ->
  canonical_offer_id int = format_032x int.
Proof.
  intros H. destruct (format_032x_spec int H) as (HL & HS & _).
  unfold canonical_offer_id, PyUUID.str. cbv zeta.
  apply canonical_of_hex; assumption.
Qed.

Lemma length_replace_from old skip s :
  (String.length (replace_from old "" skip s) <= String.length s)%nat.
Proof.
  revert skip. induction s as [|c s IH]; intros skip; [reflexivity|].
  cbn [replace_from String.length]. destruct skip as [|k].
  - destruct (String.prefix old (String c s)).
    + change ("" +:+ ?x) with x. specialize (IH (String.length old - 1)%nat). lia.
    + cbn [String.length]. specialize (IH O). lia.
  - specialize (IH k). lia.
Qed.

Lemma length_lstrip chars s :
  (String.length (lstrip chars s) <= String.length s)%nat.
Proof.
  induction s as [|c s IH]; [reflexivity|].
  cbn [lstrip]. destruct (mem c chars); cbn [String.length]; lia.
Qed.

Lemma length_rstrip chars s :
  (String.length (rstrip chars s) <= String.length s)%nat.
Proof.
  induction s as [|c s IH]; [reflexivity|].
  cbn [rstrip]. destruct (_ && _); cbn [String.length]; lia.
Qed.

End OfferIdFacts.

Section OfferIdMore.
Import PyStr PyInt Spec OfferIdFacts.
Import EnterpriseLearnerEnrollment.
Import V1.EnterpriseLearnerEnrollmentViewSet.

(** X13. When [filter_by_offer_id] reads the value as a UUID, it compares
    the column with 32 lower-case hexadecimal digits, and this text is a
    fixed point of the normalisation: filtering by it gives the same
    rows as filtering by the value that was given. *)
Theorem filter_by_offer_id_canonical queryset value int :
  PyUUID.UUID value 4 = Ok int ->
  String.length (canonical_offer_id int) = 32%nat
  /\ hex_string (canonical_offer_id int) = true
  /\ filter_by_offer_id queryset value
     = List.filter
         (fun e => Lookup.exact_str (offer_id e) (canonical_offer_id int))
         queryset
  /\ filter_by_offer_id queryset (canonical_offer_id int)
     = filter_by_offer_id queryset value.
Proof.
  intros H. destruct (UUID_version4 _ _ H) as (x & Hx & ->).
  pose proof (version4_range x Hx) as Hr.
  destruct (format_032x_spec _ Hr) as (HL & HS & HN).
  rewrite (canonical_offer_id_spec _ Hr).
  assert (E : PyUUID.UUID (format_032x (version4 x)) 4 = Ok (version4 x)).
  { rewrite UUID_of_hex by (rewrite ?HN; assumption).
    rewrite HN, version4_idempotent. reflexivity. }
  split; [exact HL|]. split; [exact HS|].
  unfold filter_by_offer_id. cbv zeta. rewrite H, E.
  fold (canonical_offer_id (version4 x)).
  rewrite (canonical_offer_id_spec _ Hr). split; reflexivity.
Qed.

Lemma filter_by_offer_id_canonical_witness :
  filter_by_offer_id [Sample.with_offer "123e4567e89b42d3a456426614174000"]
    "123e4567e89b42d3a456426614174000"
  = filter_by_offer_id [Sample.with_offer "123e4567e89b42d3a456426614174000"]
      "{123E4567-E89B-12D3-A456-426614174000}".
Proof.
  exact (proj2 (proj2 (proj2
           (filter_by_offer_id_canonical
              [Sample.with_offer "123e4567e89b42d3a456426614174000"]
              "{123E4567-E89B-12D3-A456-426614174000}"
              0x123e4567e89b42d3a456426614174000 eq_refl)))).
Defined.

(** X14. A value shorter than 32 characters, such as a plain integer id,
    is never read as a UUID: the column is compared with the value as it
    is given. *)
Theorem filter_by_offer_id_short queryset value :
  (String.length value < 32)%nat ->
  filter_by_offer_id queryset value
  = List.filter (fun e => Lookup.exact_str (offer_id e) value) queryset.
Proof.
  intros H. apply filter_by_offer_id_as_given.
  unfold replace, strip. cbn [String.eqb Ascii.eqb Bool.eqb].
  pose proof (length_replace_from "-" O
                (rstrip "{}" (lstrip "{}"
                   (replace_from "uuid:" "" O (replace_from "urn:" "" O value))))).
  pose proof (length_rstrip "{}"
                (lstrip "{}"
                   (replace_from "uuid:" "" O (replace_from "urn:" "" O value)))).
  pose proof (length_lstrip "{}"
                (replace_from "uuid:" "" O (replace_from "urn:" "" O value))).
  pose proof (length_replace_from "uuid:" O (replace_from "urn:" "" O value)).
  pose proof (length_replace_from "urn:" O value).
  lia.
Qed.

Lemma filter_by_offer_id_short_witness :
  filter_by_offer_id [Sample.with_offer "urn:uuid:7"; Sample.with_offer "7"]
    "urn:uuid:7"
  = [Sample.with_offer "urn:uuid:7"].
Proof.
  rewrite (filter_by_offer_id_short _ "urn:uuid:7") by (cbn; lia).
  reflexivity.
Defined.

End OfferIdMore.

(** ** The overviews *)

Module CountFacts.
Import PyDate DateFacts DateOrder LookupFacts.

(** A queryset with no more rows has no more distinct values. *)
Lemma distinct_count_mono {A : Type} (f : A -> Z) (l1 l2 : list A) :
  (forall x, x ∈ l1 -> x ∈ l2) ->
  (length (remove_dups (f <$> l1)) <= length (remove_dups (f <$> l2)))%nat.
Proof.
  intros H. apply submseteq_length, NoDup_submseteq; [apply NoDup_remove_dups|].
  intros x. rewrite !elem_of_remove_dups, !list_elem_of_fmap.
  intros (y & -> & Hy). eauto.
Qed.

Lemma elem_of_filter_list {A : Type} (p : A -> bool) (l : list A) x :
  x ∈ List.filter p l <-> x ∈ l /\ p x = true.
Proof. rewrite !list_elem_of_In. apply filter_In. Qed.

(** A later cutoff keeps no more rows. *)
Lemma gte_date_antitone column c1 c2 :
  leb c1 c2 = true ->
  Lookup.gte_date column c2 = true -> Lookup.gte_date column c1 = true.
Proof.
  intros H. rewrite !gte_date_true. intros (d & -> & Hd).
  exists d. split; [reflexivity|]. eapply leb_trans; eassumption.
Qed.

Lemma distinct_count_nil {A : Type} (f : A -> Z) (l : list A) :
  length (remove_dups (f <$> l)) = 0%nat -> l = [].
Proof.
  destruct l as [|x l]; [reflexivity|]. intros H.
  apply length_zero_iff_nil in H.
  assert (Hx : f x ∈ remove_dups (f <$> x :: l))
    by (apply elem_of_remove_dups; left).
  rewrite H in Hx. inversion Hx.
Qed.

End CountFacts.

Section Overview.
Import PyDate Spec DateFacts DateOrder LookupFacts CountFacts.

(** X15. Whenever the [overview] of the enrollments returns, its counts
    are ordered: the learners active in the past week are among those
    active in the past month, who are among the enrolled learners; and
    with no enrolled learner there is no completion and no
    [last_updated_date]. *)
Theorem overview_counts_ordered fuel orm clock filter_queryset db self st
  content st' :
  valid_date (today clock) = true ->
  V1.EnterpriseLearnerEnrollmentViewSet.overview fuel orm clock
    filter_queryset db self st = (Ok content, st') ->
  0 <= V1.EnterpriseLearnerEnrollmentViewSet.active_learners_past_week content
    <= V1.EnterpriseLearnerEnrollmentViewSet.active_learners_past_month content
  /\ V1.EnterpriseLearnerEnrollmentViewSet.active_learners_past_month content
     <= V1.EnterpriseLearnerEnrollmentViewSet.enrolled_learners content
  /\ 0 <= V1.EnterpriseLearnerEnrollmentViewSet.course_completions content
  /\ (V1.EnterpriseLearnerEnrollmentViewSet.enrolled_learners content = 0 ->
      V1.EnterpriseLearnerEnrollmentViewSet.course_completions content = 0
      /\ V1.EnterpriseLearnerEnrollmentViewSet.last_updated_date content = None).
Proof.
  intros V. unfold V1.EnterpriseLearnerEnrollmentViewSet.overview.
  destruct (V1.EnterpriseLearnerEnrollmentViewSet.get_queryset _ _ _ _ _ _)
    as [[rows| |] st0]; try (intros H; discriminate H).
  cbv zeta. set (q := filter_queryset self rows). clearbody q.
  destruct (sub_weeks 1 (today clock)) as [w| |] eqn:Ew;
    try (intros H; discriminate H).
  destruct (V1.subtract_one_month fuel (today clock)) as [m| |] eqn:Em;
    try (intros H; discriminate H).
  cbn [mbind result_bind].
  destruct (V1.EnterpriseLearnerEnrollmentViewSet.filter_number_of_users db self)
    as [users| |]; try (intros H; discriminate H).
  cbn [mbind result_bind]. intros H. inversion H; subst; clear H.
  cbn [V1.EnterpriseLearnerEnrollmentViewSet.enrolled_learners
       V1.EnterpriseLearnerEnrollmentViewSet.active_learners_past_week
       V1.EnterpriseLearnerEnrollmentViewSet.active_learners_past_month
       V1.EnterpriseLearnerEnrollmentViewSet.course_completions
       V1.EnterpriseLearnerEnrollmentViewSet.last_updated_date].
  pose proof (month_ago_before_week_ago _ _ _ _ V Ew Em) as Hmw.
  unfold V1.EnterpriseLearnerEnrollmentViewSet.count,
    V1.EnterpriseLearnerEnrollmentViewSet.filter_distinct_active_learners,
    V1.EnterpriseLearnerEnrollmentViewSet.filter_distinct_learners,
    V1.EnterpriseLearnerEnrollmentViewSet.filter_active_learners.
  split; [split; [lia|]|split; [|split; [lia|]]].
  - apply inj_le, distinct_count_mono. intros x.
    rewrite !elem_of_filter_list. intros [Hx Hg]. split; [exact Hx|].
    eapply gte_date_antitone; eassumption.
  - apply inj_le, distinct_count_mono. intros x.
    rewrite elem_of_filter_list. tauto.
  - intros H0. apply (f_equal Z.to_nat) in H0. rewrite Nat2Z.id in H0.
    apply distinct_count_nil in H0. subst q. split; reflexivity.
Qed.

Lemma overview_counts_ordered_witness :
  0 <= 1 <= 1 /\ 1 <= 2 /\ 0 <= 3 /\ (2 = 0 -> 3 = 0 /\ @None instant = None).
Proof.
  exact (overview_counts_ordered 31 Sample.orm Sample.clock (fun _ q => q)
           Sample.db (Sample.view Sample.ent "/enrollments/overview/" [])
           (V1.mkState ∅ [])
           (V1.EnterpriseLearnerEnrollmentViewSet.mkContent 2 1 1 3 None 2)
           (snd (V1.EnterpriseLearnerEnrollmentViewSet.overview 31 Sample.orm
                   Sample.clock (fun _ q => q) Sample.db
                   (Sample.view Sample.ent "/enrollments/overview/" [])
                   (V1.mkState ∅ [])))
           eq_refl eq_refl).
Defined.

(** X16. Whenever the v0 [overview] returns, there is at least one
    enrolled learner, the learners active in the past week are among
    those active in the past month, who are among the enrolled learners,
    and nothing was logged. *)
Theorem v0_overview_counts_ordered fuel clock backend db self log content log' :
  valid_date (today clock) = true ->
  V0.EnterpriseEnrollmentsViewSet.overview fuel clock backend db self log
  = (Ok content, log') ->
  1 <= V0.EnterpriseEnrollmentsViewSet.enrolled_learners content
  /\ 0 <= V0.EnterpriseEnrollmentsViewSet.active_learners_past_week content
       <= V0.EnterpriseEnrollmentsViewSet.active_learners_past_month content
  /\ V0.EnterpriseEnrollmentsViewSet.active_learners_past_month content
     <= V0.EnterpriseEnrollmentsViewSet.enrolled_learners content
  /\ 0 <= V0.EnterpriseEnrollmentsViewSet.course_completions content
  /\ log' = log.
Proof.
  intros V. unfold V0.EnterpriseEnrollmentsViewSet.overview,
    V0.EnterpriseEnrollmentsViewSet.get_queryset. cbv zeta.
  destruct (UUIDField.to_python (kwargs_enterprise_id self)) as [uuid| |];
    try (intros H; discriminate H).
  set (q := V0.EnterpriseViewSet.filter_queryset backend self _). clearbody q.
  destruct q as [|e q]; cbn [V0.EnterpriseViewSet.ensure_data_exists];
    [intros H; discriminate H|].
  set (rows := e :: q).
  destruct (sub_weeks 1 (today clock)) as [w| |] eqn:Ew;
    try (intros H; discriminate H).
  change (V0.EnterpriseEnrollmentsViewSet.subtract_one_month fuel (today clock))
    with (V1.subtract_one_month fuel (today clock)).
  destruct (V1.subtract_one_month fuel (today clock)) as [m| |] eqn:Em;
    try (intros H; discriminate H).
  cbn [mbind result_bind]. intros H. inversion H; subst; clear H.
  cbn [V0.EnterpriseEnrollmentsViewSet.enrolled_learners
       V0.EnterpriseEnrollmentsViewSet.active_learners_past_week
       V0.EnterpriseEnrollmentsViewSet.active_learners_past_month
       V0.EnterpriseEnrollmentsViewSet.course_completions].
  pose proof (month_ago_before_week_ago _ _ _ _ V Ew Em) as Hmw.
  unfold V0.EnterpriseEnrollmentsViewSet.count,
    V0.EnterpriseEnrollmentsViewSet.filter_active_learners,
    V0.EnterpriseEnrollmentsViewSet.filter_distinct_learners.
  split; [|split; [split; [lia|]|split; [|split; [lia|reflexivity]]]].
  - destruct (length (remove_dups (EnterpriseEnrollment.enterprise_user_id <$> rows)))
      eqn:E; [|lia].
    apply distinct_count_nil in E. discriminate E.
  - apply inj_le, distinct_count_mono. intros x.
    rewrite !elem_of_filter_list. intros [Hx Hg]. split; [exact Hx|].
    eapply gte_date_antitone; eassumption.
  - apply inj_le, distinct_count_mono. intros x.
    rewrite elem_of_filter_list. tauto.
Qed.

Lemma v0_overview_counts_ordered_witness :
  let rows :=
    [EnterpriseEnrollment.mk Sample.ent 1 (Some true) (Some true)
       (Some (mkdate 2024 3 30));
     EnterpriseEnrollment.mk Sample.ent 2 (Some true) (Some false)
       (Some (mkdate 2024 3 1));
     EnterpriseEnrollment.mk Sample.ent 3 (Some true) None None] in
  1 <= 3 /\ 0 <= 1 <= 2 /\ 2 <= 3 /\ 0 <= 1 /\ @nil LogRecord = [].
Proof.
  intros rows.
  exact (v0_overview_counts_ordered 31 Sample.clock (fun _ q => q) rows
           (Sample.view Sample.ent "/enrollments/overview/" []) []
           (V0.EnterpriseEnrollmentsViewSet.mkContent 3 1 2 1) []
           eq_refl eq_refl).
Defined.

End Overview.

(** ** The learner listing *)

Module LearnerListFacts.
Import EnterpriseLearnerEnrollment Spec.
Import V1 V1.EnterpriseLearnerViewSet.





Lemma filter_enrollments_subset db cond (queryset : list EnterpriseLearner.t) l :
  l ∈ filter_enrollments db cond queryset -> l ∈ queryset.
Proof.
  unfold filter_enrollments. rewrite list_elem_of_bind.
  intros (l' & Hin & Hl'). apply list_elem_of_fmap in Hin as (e & -> & _).
  exact Hl'.
Qed.

Lemma join_subset db param if_true if_false (queryset : list EnterpriseLearner.t) l :
  l ∈ (if is_str param "true" then filter_enrollments db if_true queryset
       else if is_str param "false" then filter_enrollments db if_false queryset
       else queryset) ->
  l ∈ queryset.
Proof.
  destruct (is_str param "true"); [apply filter_enrollments_subset|].
  destruct (is_str param "false"); [apply filter_enrollments_subset|]. auto.
Qed.


End LearnerListFacts.

Section LearnerList.
Import EnterpriseLearnerEnrollment Spec LearnerListFacts.
Import V1 V1.EnterpriseLearnerViewSet.

(** X17. With [has_enrollments=true] the learner listing has no row
    twice, whatever the other parameters join, and every learner of it is
    a learner of the table with at least one enrollment. *)
Theorem learners_with_enrollments_distinct clock db self log :
  QueryDict.get (query_params (request self)) "has_enrollments" = Some "true" ->
  NoDup (get_queryset clock db self log).1
  /\ Forall
       (fun row => learner row ∈ learners db /\ related db (learner row) <> [])
       (get_queryset clock db self log).1.
Proof.
  intros Hhe. unfold get_queryset. cbv zeta. rewrite Hhe.
  change (is_str (Some "true") "true") with true. cbv iota beta.
  cbn [fst].
  match goal with
  | |- NoDup (?f <$> remove_dups ?q) /\ _ =>
      set (annot := f); set (joined := q)
  end.
  assert (Hl : learner <$> (annot <$> remove_dups joined) = remove_dups joined)
    by apply learner_of_annotated.
  split.
  - apply (NoDup_fmap_1 learner). rewrite Hl. apply NoDup_remove_dups.
  - apply Forall_forall. intros row Hrow.
    assert (Hin : learner row ∈ remove_dups joined)
      by (rewrite <- Hl; apply list_elem_of_fmap; eauto).
    rewrite elem_of_remove_dups in Hin. unfold joined in Hin.
    apply join_subset, join_subset in Hin.
    apply filter_enrollments_spec in Hin as (Hdb & e & He & _).
    split; [exact Hdb|]. intros E. rewrite E in He. inversion He.
Qed.

Lemma learners_with_enrollments_distinct_witness :
  let self := Sample.view Sample.ent "/learners/"
                [("has_enrollments", ["true"]); ("active_courses", ["true"])] in
  NoDup (get_queryset Sample.clock Sample.db self []).1
  /\ Forall
       (fun row => learner row ∈ learners Sample.db
                   /\ related Sample.db (learner row) <> [])
       (get_queryset Sample.clock Sample.db self []).1.
Proof.
  intros self.
  exact (learners_with_enrollments_distinct Sample.clock Sample.db self []
           eq_refl).
Defined.





End LearnerList.

(** ** Offers and completed courses *)

Module TextFacts.
Import PyStr Spec OfferIdFacts.

Lemma replace_hyphen_cons c s :
  replace "-" "" (String c s)
  = if Ascii.eqb "-" c then replace "-" "" s else String c (replace "-" "" s).
Proof.
  unfold replace. cbn [String.eqb].
  destruct (Ascii.eqb_spec "-" c) as [<- | Hne].
  - apply replace_from_hyphen.
  - apply replace_from_other. exact Hne.
Qed.

Lemma replace_hyphen_mem s : mem "-" (replace "-" "" s) = false.
Proof.
  induction s as [|c s IH]; [reflexivity|].
  rewrite replace_hyphen_cons.
  destruct (Ascii.eqb "-" c) eqn:E; [exact IH|].
  cbn [mem]. rewrite E, IH. reflexivity.
Qed.

Lemma replace_hyphen_id s : mem "-" s = false -> replace "-" "" s = s.
Proof.
  induction s as [|c s IH]; [reflexivity|].
  cbn [mem]. intros H. apply orb_false_iff in H as [Hc Hs].
  rewrite replace_hyphen_cons, Hc, IH by exact Hs. reflexivity.
Qed.








End TextFacts.

Section Offers.
Import PyStr Spec TextFacts.
Import V1.EnterpriseOfferViewSet.

(** X20. [get_object] looks the offer up under an id without hyphens;
    an id that has none is looked up as it is, so the ids that differ
    only in hyphens look up the same offer, and the lookup of the id
    already stripped is the same lookup. *)
Theorem get_object_strips_hyphens {A : Type} (super_get_object : string -> A)
  (offer_id : string) :
  mem "-" (get_object super_get_object offer_id).1 = false
  /\ (mem "-" offer_id = false ->
      get_object super_get_object offer_id
      = (offer_id, super_get_object offer_id))
  /\ get_object super_get_object (get_object super_get_object offer_id).1
     = get_object super_get_object offer_id.
Proof.
  unfold get_object. cbv zeta. cbn [fst].
  split; [apply replace_hyphen_mem|]. split.
  - intros H. rewrite (replace_hyphen_id _ H). reflexivity.
  - rewrite (replace_hyphen_id _ (replace_hyphen_mem offer_id)). reflexivity.
Qed.

Lemma get_object_strips_hyphens_witness :
  get_object String.length "42" = ("42", 2%nat).
Proof.
  exact (proj1 (proj2 (get_object_strips_hyphens String.length "42")) eq_refl).
Defined.

End Offers.

Module CompletedCoursesFacts.
Import EnterpriseLearnerEnrollment Spec TextFacts CountFacts.
Import V1 V1.EnterpriseLearnerCompletedCoursesViewSet.








End CompletedCoursesFacts.

Section CompletedCourses.
Import EnterpriseLearnerEnrollment Spec TextFacts CountFacts CompletedCoursesFacts.
Import V1 V1.EnterpriseLearnerCompletedCoursesViewSet.





End CompletedCourses.
